(** * torchLessons: the Ray Tune search script and the fixed-config trainer

    A shallow embedding of [Basics/paramRayTune.py] and of
    [check_accuracy] from [Basics/simpleFullyNN.py].

    Conventions of the embedding.
    - Python [int] is [Z]; [len] of a list is [Z.of_nat (length _)].
    - The one float expression whose rounding matters,
      [int(len(trainset) * 0.8)], is computed on IEEE-754 binary64 with the
      Standard Library's [SpecFloat]. Every other float (losses, learning
      rates, accuracies) is a rational [Q]: those values are only added,
      divided and compared, and the properties proved about them are about
      what is divided by what, not about rounding.
    - NumPy, PyTorch and Ray Tune are external to the repository. Their
      operations are fields of the interfaces [NumpyRandom], [Torch] and
      [Tune]; the few facts used about them (the range of [randint], that
      [randperm] is a permutation) are the documented contracts and are
      stated as laws of the interface. Concrete instances are given at the
      end ([Toy]) to run the model.
    - Mutable objects (the network, the optimizer, the generators, the file
      system, the console and the report channel) live in one [State]
      record threaded by the monad [M]; a Python exception is the result
      [Raise].
    - Of [main], the embedding has the search space ([config]), the
      scheduler ([main_scheduler]), one trial as Ray Tune runs it
      ([run_trial]: a fresh session, then [train_cifar]) and
      [test_accuracy]. The orchestration inside [tune.run] (how many trials
      run, in which processes, with which resources) is Ray Tune's and is
      not modelled; what is used of it is the [Tune] interface, and
      [ExperimentAnalysis.get_best_trial] is written from its
      documentation in [Analysis].
    - The training code works against the [Torch] interface, whose
      [forward] gives the scores of one sample. The two network classes
      and the transform of [load_data] are embedded on their own, in
      [Nets] and [Transforms], with tensors as nested lists of
      rationals; that [Net.forward] treats the images of a batch one by
      one is a theorem there.
    - The script part of [Basics/simpleFullyNN.py], from its
      hyperparameters to the two accuracy checks, is [script]. Its
      optimizer and its data are two more interfaces, [Adam] and
      [MNIST]. *)

From Stdlib Require Import ZArith QArith Qround Floats.SpecFloat Lia Lqa.
From stdpp Require Import base option list gmap strings pretty.

Local Open Scope Z_scope.

(** ** IEEE-754 binary64, as far as [int(n * 0.8)] needs it *)

Module Float64.

Definition prec : Z := 53.
Definition emax : Z := 1024.

(** [float(n)] for a Python int [n] (round to nearest even; exact below
    2^53). *)
Definition of_int (n : Z) : spec_float :=
  match n with
  | Z0 => S754_zero false
  | _ => binary_normalize prec emax n 0 false
  end.

Definition mul : spec_float -> spec_float -> spec_float := SFmul prec emax.

(** The literal [0.8]: the binary64 nearest to 4/5, which is
    7205759403792794 * 2^-53 (slightly above 4/5). *)
Definition lit_0_8 : spec_float := S754_finite false 7205759403792794 (-53).

(** [int(x)]: truncation toward zero; [None] stands for the
    [OverflowError]/[ValueError] Python raises on infinities and NaN. *)
Definition to_int (x : spec_float) : option Z :=
  match x with
  | S754_zero _ => Some 0
  | S754_finite s m e =>
      let a := match e with
               | Z0 => Zpos m
               | Zpos _ => Zpos m * 2 ^ e
               | Zneg p => Zpos m / 2 ^ Zpos p
               end in
      Some (if s then - a else a)
  | S754_infinity _ | S754_nan => None
  end.

End Float64.

(** ** External interfaces *)

(** NumPy's global generator, and Ray Tune's [loguniform] sampler which
    draws from it. *)
Class NumpyRandom := {
  np_state : Type;
  (** [np.random.randint(low, high)]: an integer in [[low, high)]. *)
  randint : Z -> Z -> np_state -> Z * np_state;
  (** What [tune.loguniform(lower, upper)] yields when sampled. *)
  loguniform_sample : Q -> Q -> np_state -> Q * np_state;
  randint_range : forall lo hi s,
    lo < hi -> lo <= (randint lo hi s).1 < hi;
  loguniform_range : forall lo hi s,
    (lo <= hi)%Q ->
    (lo <= (loguniform_sample lo hi s).1)%Q /\
    ((loguniform_sample lo hi s).1 <= hi)%Q
}.

(** ** The search space and the configuration sampler *)

Section Sampler.
Context `{NumpyRandom}.

(** The distribution descriptors of [ray.tune] used by [main]. *)
Inductive Domain : Type -> Type :=
| sample_from {A} (f : np_state -> A * np_state) : Domain A
| loguniform (lower upper : Q) : Domain Q
| choice {A} (categories : list A) : Domain A.

(** One draw from a descriptor. [choice] picks [categories[i]] for a
    random index [i]; on an empty list it raises, which is [None]. *)
Definition sample {A} (d : Domain A) (s : np_state) : option A * np_state :=
  match d in Domain T return option T * np_state with
  | sample_from f => let '(x, s') := f s in (Some x, s')
  | loguniform lower upper =>
      let '(x, s') := loguniform_sample lower upper s in (Some x, s')
  | choice categories =>
      let '(i, s') := randint 0 (Z.of_nat (length categories)) s in
      (categories !! Z.to_nat i, s')
  end.

Record SearchSpace := {
  sp_l1 : Domain Z;
  sp_l2 : Domain Z;
  sp_lr : Domain Q;
  sp_batch_size : Domain Z
}.

(** The dictionary handed to [train_cifar]: keys l1, l2, lr,
    batch_size. *)
Record Configuration := {
  l1 : Z;
  l2 : Z;
  lr : Q;
  batch_size : Z
}.

(** [lambda _: 2**np.random.randint(2, 9)] *)
Definition pow2_randint (s : np_state) : Z * np_state :=
  let '(k, s') := randint 2 9 s in (2 ^ k, s').

(** The dictionary [config] built in [main]. *)
Definition config : SearchSpace := {|
  sp_l1 := sample_from pow2_randint;
  sp_l2 := sample_from pow2_randint;
  sp_lr := loguniform (1 # 10000) (1 # 10);
  sp_batch_size := choice [2; 4; 8; 16]
|}.

(** Resolving a search space into one configuration: the fields are
    drawn in the order of the dictionary. *)
Definition resolve (sp : SearchSpace) (s : np_state)
  : option Configuration * np_state :=
  let '(a, s1) := sample (sp_l1 sp) s in
  let '(b, s2) := sample (sp_l2 sp) s1 in
  let '(c, s3) := sample (sp_lr sp) s2 in
  let '(d, s4) := sample (sp_batch_size sp) s3 in
  (a ← a; b ← b; c ← c; d ← d;
   Some {| l1 := a; l2 := b; lr := c; batch_size := d |}, s4).

(** The [num_samples] configurations of one search, drawn one after the
    other; a failed draw ends the search with [None]. *)
Fixpoint generate_variants (sp : SearchSpace) (num_samples : nat)
    (s : np_state) : option (list Configuration) * np_state :=
  match num_samples with
  | O => (Some [], s)
  | S n =>
      let '(c, s1) := resolve sp s in
      match c with
      | None => (None, s1)
      | Some c =>
          let '(cs, s2) := generate_variants sp n s1 in
          (cons c <$> cs, s2)
      end
  end.

(** The declared domains. *)
Definition layer_widths : list Z := [4; 8; 16; 32; 64; 128; 256].
Definition batch_sizes : list Z := [2; 4; 8; 16].

Definition in_declared_domain (c : Configuration) : Prop :=
  l1 c ∈ layer_widths /\ l2 c ∈ layer_widths /\
  (1 # 10000 <= lr c)%Q /\ (lr c <= 1 # 10)%Q /\
  batch_size c ∈ batch_sizes.

End Sampler.

(** PyTorch: tensors, autograd, the optimizer update and the default
    generator. A sample is an input tensor with its class index. *)
Class Torch := {
  generator : Type;
  image : Type;
  (** the parameter tensors of a module (its [state_dict]) *)
  params : Type;
  (** the [.grad] buffers of the parameters *)
  grads : Type;
  (** the per-parameter state of an optimizer (momentum buffers) *)
  buffers : Type;
  (** [torch.randperm(n)] on the default generator *)
  randperm : nat -> generator -> list nat * generator;
  (** the order in which a shuffling [DataLoader] visits [n] indices in
      one pass; its sampler takes its seed from the default generator *)
  sampler_order : nat -> generator -> list nat * generator;
  (** random initialisation of a module of the given layer sizes *)
  init_params : list Z -> generator -> params * generator;
  (** the logits the module computes for one sample *)
  forward : params -> image -> list Q;
  (** [nn.CrossEntropyLoss()] on a batch of logits and labels *)
  cross_entropy : list (list Q) -> list Z -> Q;
  (** [loss.backward()]: the gradient of the batch loss, accumulated into
      the existing [.grad] buffers ([None] after [zero_grad]) *)
  backward : params -> list (image * Z) -> option grads -> grads;
  init_buffers : buffers;
  (** one update of [optim.SGD] with the given learning rate and momentum *)
  sgd_step : Q -> Q -> params -> option grads -> buffers -> params * buffers;
  (** the two splits of [torchvision.datasets.CIFAR10], [train=True] and
      [train=False] *)
  cifar10 : bool -> list (image * Z);
  randperm_perm : forall n g, (randperm n g).1 ≡ₚ seq 0 n;
  sampler_order_perm : forall n g, (sampler_order n g).1 ≡ₚ seq 0 n
}.

(** Ray Tune: what a trial reports, the scheduler that [main] configures,
    and the two services of the session a trial talks to. *)
Record Metrics := {
  loss : Q;
  accuracy : Q
}.

Inductive Metric := Loss | Accuracy.
Inductive Mode := Min | Max.

(** [ASHAScheduler(metric, mode, max_t, grace_period, reduction_factor)] *)
Record ASHAScheduler := {
  sched_metric : Metric;
  sched_mode : Mode;
  max_t : Z;
  grace_period : Z;
  reduction_factor : Z
}.

Class Tune := {
  (** The scheduler's verdict on the report numbered [training_iteration]
      of the running trial: [true] when it stops the trial. It stands for
      whatever the scheduler decides from its settings and from the other
      trials. *)
  should_stop : ASHAScheduler -> Z -> Metrics -> bool;
  (** The directory [tune.checkpoint_dir(step)] hands out. *)
  trial_checkpoint_dir : Z -> string
}.

(** ** Objects and the program state *)

Section Program.
Context `{NumpyRandom} `{Torch} `{Tune}.

Definition Sample : Type := image * Z.

(** Map-style datasets: a stored list of samples with its [train] flag,
    or [torch.utils.data.Subset]. *)
Inductive Dataset :=
| Stored (items : list Sample) (train : bool)
| Subset (dataset : Dataset) (indices : list nat).

Definition ds_len (d : Dataset) : nat :=
  match d with
  | Stored items _ => length items
  | Subset _ indices => length indices
  end.

(** [dataset[i]]; [None] is the [IndexError]. *)
Fixpoint ds_get (d : Dataset) (i : nat) : option Sample :=
  match d with
  | Stored items _ => items !! i
  | Subset dataset indices => indices !! i ≫= ds_get dataset
  end.

(** [dataset.train]: the stored datasets of [torchvision] have the
    attribute, a [Subset] has not ([None] is the [AttributeError]). *)
Definition ds_train (d : Dataset) : option bool :=
  match d with
  | Stored _ train => Some train
  | Subset _ _ => None
  end.

Record DataLoader := {
  dl_dataset : Dataset;
  dl_batch_size : Z;
  dl_shuffle : bool
}.

(** An [nn.Module]: layer sizes, parameters, gradient buffers and the
    train/eval flag. *)
Record Module := {
  shape : list Z;
  weights : params;
  grad : option grads;
  training : bool
}.

(** What [state_dict()] of a module holds: the tensors, whose sizes are
    fixed by the layer sizes. *)
Record StateDict := {
  sd_shape : list Z;
  sd_weights : params
}.

(** An optimizer; its [state_dict()] is the whole record (parameter
    group settings and buffers). *)
Record Optimizer := {
  opt_lr : Q;
  opt_momentum : Q;
  opt_buffers : buffers
}.

Inductive File :=
| Pickled (model_state : StateDict) (optimizer_state : Optimizer)
| Garbage.

(** Console lines, kept structured instead of formatted. *)
Inductive Line :=
| RunningLoss (epoch batch : Z) (mean : Q)
| FinishedTraining
| CheckingTraining
| CheckingTest
| GotAccuracy (num_correct num_samples : Z) (percent : Q).

(** What a run does that can be seen from outside, in order. *)
Inductive Event :=
| OptimizerStep
| Printed (line : Line)
| CheckpointSaved (step : Z) (dir : string)
| Reported (training_iteration : Z) (metrics : Metrics).

Record State := {
  net : Module;
  optimizer : Optimizer;
  grad_enabled : bool;
  np_rng : np_state;
  torch_rng : generator;
  fs : gmap string File;
  (** the Tune session of the running trial *)
  session_scheduler : ASHAScheduler;
  session_iteration : Z;
  trace : list Event
}.

Definition set_net (f : Module -> Module) (s : State) : State :=
  {| net := f (net s); optimizer := optimizer s;
     grad_enabled := grad_enabled s; np_rng := np_rng s;
     torch_rng := torch_rng s; fs := fs s;
     session_scheduler := session_scheduler s;
     session_iteration := session_iteration s; trace := trace s |}.

Definition set_optimizer (f : Optimizer -> Optimizer) (s : State) : State :=
  {| net := net s; optimizer := f (optimizer s);
     grad_enabled := grad_enabled s; np_rng := np_rng s;
     torch_rng := torch_rng s; fs := fs s;
     session_scheduler := session_scheduler s;
     session_iteration := session_iteration s; trace := trace s |}.

Definition set_grad_enabled (b : bool) (s : State) : State :=
  {| net := net s; optimizer := optimizer s;
     grad_enabled := b; np_rng := np_rng s;
     torch_rng := torch_rng s; fs := fs s;
     session_scheduler := session_scheduler s;
     session_iteration := session_iteration s; trace := trace s |}.

Definition set_np_rng (g : np_state) (s : State) : State :=
  {| net := net s; optimizer := optimizer s;
     grad_enabled := grad_enabled s; np_rng := g;
     torch_rng := torch_rng s; fs := fs s;
     session_scheduler := session_scheduler s;
     session_iteration := session_iteration s; trace := trace s |}.

Definition set_torch_rng (g : generator) (s : State) : State :=
  {| net := net s; optimizer := optimizer s;
     grad_enabled := grad_enabled s; np_rng := np_rng s;
     torch_rng := g; fs := fs s;
     session_scheduler := session_scheduler s;
     session_iteration := session_iteration s; trace := trace s |}.

Definition set_fs (f : gmap string File -> gmap string File) (s : State)
  : State :=
  {| net := net s; optimizer := optimizer s;
     grad_enabled := grad_enabled s; np_rng := np_rng s;
     torch_rng := torch_rng s; fs := f (fs s);
     session_scheduler := session_scheduler s;
     session_iteration := session_iteration s; trace := trace s |}.

Definition set_session_iteration (i : Z) (s : State) : State :=
  {| net := net s; optimizer := optimizer s;
     grad_enabled := grad_enabled s; np_rng := np_rng s;
     torch_rng := torch_rng s; fs := fs s;
     session_scheduler := session_scheduler s;
     session_iteration := i; trace := trace s |}.

Definition emit (e : Event) (s : State) : State :=
  {| net := net s; optimizer := optimizer s;
     grad_enabled := grad_enabled s; np_rng := np_rng s;
     torch_rng := torch_rng s; fs := fs s;
     session_scheduler := session_scheduler s;
     session_iteration := session_iteration s; trace := trace s ++ [e] |}.

(** ** The monad: state, exceptions, and the scheduler stopping a trial *)

Inductive Exn :=
| ZeroDivisionError
| FileNotFoundError
| UnpicklingError
| RuntimeError
| ValueError
| IndexError
| OverflowError
| AttributeError.

(** [Stopped]: the scheduler ended the trial inside [tune.report], which
    then never returns to the training function. *)
Inductive Result (A : Type) :=
| Ok (a : A)
| Raise (e : Exn)
| Stopped.
Global Arguments Ok {A} a.
Global Arguments Raise {A} e.
Global Arguments Stopped {A}.

Definition M (A : Type) : Type := State -> Result A * State.

Global Instance M_ret : MRet M := fun A a s => (Ok a, s).
Global Instance M_bind : MBind M := fun A B f m s =>
  match m s with
  | (Ok a, s') => f a s'
  | (Raise e, s') => (Raise e, s')
  | (Stopped, s') => (Stopped, s')
  end.

Definition raise {A} (e : Exn) : M A := fun s => (Raise e, s).
Definition get {A} (f : State -> A) : M A := fun s => (Ok (f s), s).
Definition modify (f : State -> State) : M unit := fun s => (Ok tt, f s).
Definition print (l : Line) : M unit := modify (emit (Printed l)).

(** [for x in xs:] with the loop-carried locals in [acc]. *)
Fixpoint for_each {A B} (xs : list A) (acc : B) (body : B -> A -> M B)
  : M B :=
  match xs with
  | [] => mret acc
  | x :: xs' => acc' ← body acc x; for_each xs' acc' body
  end.

Definition range (n : Z) : list Z := Z.of_nat <$> seq 0 (Z.to_nat n).

Definition enumerate {A} (xs : list A) : list (Z * A) :=
  zip (range (Z.of_nat (length xs))) xs.

Definition len {A} (xs : list A) : Z := Z.of_nat (length xs).

(** ** Library calls used by the scripts *)

(** [os.path.join(a, b)] *)
Definition os_path_join (a b : string) : string :=
  if String.prefix "/" b then b
  else match a with
       | EmptyString => b
       | _ => if String.eqb (String.substring (String.length a - 1) 1 a) "/"
              then (a ++ b)%string else (a ++ "/" ++ b)%string
       end.

(** Truthiness of an optional path: [None] and [""] are false. *)
Definition truthy (p : option string) : bool :=
  match p with
  | Some (String _ _) => true
  | _ => false
  end.

(** [a / b] on numbers *)
Definition truediv (a b : Q) : M Q :=
  if Qeq_bool b 0 then raise ZeroDivisionError else mret (a / b)%Q.

(** [int(x)] on a float *)
Definition py_int (x : spec_float) : M Z :=
  match Float64.to_int x with
  | Some z => mret z
  | None => raise OverflowError
  end.

Definition torch_load (path : string) : M (StateDict * Optimizer) :=
  fun s => match fs s !! path with
           | None => (Raise FileNotFoundError, s)
           | Some Garbage => (Raise UnpicklingError, s)
           | Some (Pickled model_state optimizer_state) =>
               (Ok (model_state, optimizer_state), s)
           end.

Definition torch_save (obj : StateDict * Optimizer) (path : string)
  : M unit :=
  modify (set_fs <[path := Pickled obj.1 obj.2]>).

Definition torch_randperm (n : nat) : M (list nat) :=
  fun s => let '(p, g) := randperm n (torch_rng s) in
           (Ok p, set_torch_rng g s).

(** The index order of one pass of a [DataLoader] with [shuffle=True]. *)
Definition random_sampler (n : nat) : M (list nat) :=
  fun s => let '(p, g) := sampler_order n (torch_rng s) in
           (Ok p, set_torch_rng g s).

(** Constructing a module ([Net(l1, l2)], [NN(input_size, num_classes)]):
    fresh random parameters, no gradients, training mode. *)
Definition new_module (sizes : list Z) : M unit :=
  fun s => let '(w, g) := init_params sizes (torch_rng s) in
           (Ok tt,
            set_torch_rng g
              (set_net (fun _ => {| shape := sizes; weights := w;
                                    grad := None; training := true |}) s)).

(** [optim.SGD(net.parameters(), lr=..., momentum=...)] *)
Definition new_SGD (lr momentum : Q) : M unit :=
  modify (set_optimizer (fun _ => {| opt_lr := lr; opt_momentum := momentum;
                                     opt_buffers := init_buffers |})).

Definition state_dict : M StateDict :=
  get (fun s => {| sd_shape := shape (net s); sd_weights := weights (net s) |}).

(** [net.load_state_dict(sd)]: a size mismatch is a [RuntimeError]. *)
Definition load_state_dict (sd : StateDict) : M unit :=
  fun s => if decide (sd_shape sd = shape (net s))
           then (Ok tt, set_net (fun m => {| shape := shape m;
                                             weights := sd_weights sd;
                                             grad := grad m;
                                             training := training m |}) s)
           else (Raise RuntimeError, s).

Definition optimizer_state_dict : M Optimizer := get optimizer.

Definition optimizer_load_state_dict (o : Optimizer) : M unit :=
  modify (set_optimizer (fun _ => o)).

Definition zero_grad : M unit :=
  modify (set_net (fun m => {| shape := shape m; weights := weights m;
                               grad := None; training := training m |})).

(** [net(inputs)] *)
Definition call_module (inputs : list image) : M (list (list Q)) :=
  get (fun s => forward (weights (net s)) <$> inputs).

(** [loss.backward()] for the loss of [batch]; outside grad mode the
    loss has no graph and the call is a [RuntimeError]. *)
Definition loss_backward (batch : list Sample) : M unit :=
  fun s => if grad_enabled s
           then (Ok tt,
                 set_net (fun m => {| shape := shape m; weights := weights m;
                                      grad := Some (backward (weights m) batch (grad m));
                                      training := training m |}) s)
           else (Raise RuntimeError, s).

(** [optimizer.step()] *)
Definition optimizer_step : M unit :=
  fun s => let o := optimizer s in
           let m := net s in
           let '(w, b) := sgd_step (opt_lr o) (opt_momentum o)
                            (weights m) (grad m) (opt_buffers o) in
           (Ok tt,
            emit OptimizerStep
              (set_optimizer (fun _ => {| opt_lr := opt_lr o;
                                          opt_momentum := opt_momentum o;
                                          opt_buffers := b |})
                 (set_net (fun _ => {| shape := shape m; weights := w;
                                       grad := grad m;
                                       training := training m |}) s))).

(** [with torch.no_grad(): body]: grad mode is switched off and put back
    on every way out. *)
Definition no_grad {A} (body : M A) : M A :=
  fun s => let '(r, s') := body (set_grad_enabled false s) in
           (r, set_grad_enabled (grad_enabled s) s').

Definition set_training (b : bool) : M unit :=
  modify (set_net (fun m => {| shape := shape m; weights := weights m;
                               grad := grad m; training := b |})).
(** [model.eval()] and [model.train()] *)
Definition model_eval : M unit := set_training false.
Definition model_train : M unit := set_training true.

(** [DataLoader(dataset, batch_size=..., shuffle=...)] *)
Definition new_DataLoader (dataset : Dataset) (batch_size : Z)
    (shuffle : bool) : M DataLoader :=
  if decide (batch_size <= 0) then raise ValueError
  else mret {| dl_dataset := dataset; dl_batch_size := batch_size;
               dl_shuffle := shuffle |}.

(** Consecutive batches of [size] items, the last one possibly shorter. *)
Fixpoint batches_fuel {A} (fuel size : nat) (xs : list A) : list (list A) :=
  match fuel, xs with
  | O, _ | _, [] => []
  | S fuel', _ => take size xs :: batches_fuel fuel' size (drop size xs)
  end.
Definition batches {A} (size : nat) (xs : list A) : list (list A) :=
  batches_fuel (length xs) size xs.

(** [iter(loader)], run to the end: the order of the indices is fixed
    when the iteration starts (a fresh permutation if [shuffle]), then
    the items are fetched and batched. *)
Definition iterate (loader : DataLoader) : M (list (list Sample)) :=
  let d := dl_dataset loader in
  order ← (if dl_shuffle loader then random_sampler (ds_len d)
            else mret (seq 0 (ds_len d)));
  match mapM (ds_get d) order with
  | Some items => mret (batches (Z.to_nat (dl_batch_size loader)) items)
  | None => raise IndexError
  end.

Fixpoint consecutive (d : Dataset) (perm : list nat) (lengths : list Z)
  : list Dataset :=
  match lengths with
  | [] => []
  | n :: lengths' =>
      Subset d (take (Z.to_nat n) perm)
        :: consecutive d (drop (Z.to_nat n) perm) lengths'
  end.

Definition sum_Z (l : list Z) : Z := foldr Z.add 0 l.

(** [random_split(dataset, lengths)] with integer lengths (never negative
    in this program): one permutation of all indices, cut into
    consecutive pieces. *)
Definition random_split (d : Dataset) (lengths : list Z)
  : M (list Dataset) :=
  if decide (sum_Z lengths = Z.of_nat (ds_len d) /\ Forall (Z.le 0) lengths)
  then perm ← torch_randperm (Z.to_nat (sum_Z lengths));
       mret (consecutive d perm lengths)
  else raise ValueError.

(** [load_data]: the CIFAR-10 training and test sets. *)
Definition load_data (data_dir : string) : M (Dataset * Dataset) :=
  mret (Stored (cifar10 true) true, Stored (cifar10 false) false).

(** [torch.max(outputs, 1)]: per sample, the index of the largest logit
    (the first one among equals). *)
Fixpoint argmax_from (best : Q) (best_i i : Z) (l : list Q) : Z :=
  match l with
  | [] => best_i
  | x :: l' => if Qle_bool x best then argmax_from best best_i (i + 1) l'
               else argmax_from x i (i + 1) l'
  end.
Definition argmax (l : list Q) : Z :=
  match l with
  | [] => 0
  | x :: l' => argmax_from x 0 1 l'
  end.

(** [(predicted == labels).sum().item()] *)
Definition count_equal (predicted labels : list Z) : Z :=
  len (filter (fun p => p.1 = p.2) (zip predicted labels)).

(** [with tune.checkpoint_dir(step) as checkpoint_dir: body]: the
    checkpoint is registered with the session when the block ends. *)
Definition with_checkpoint_dir {A} (step : Z) (body : string -> M A) : M A :=
  let dir := trial_checkpoint_dir step in
  r ← body dir;
  modify (emit (CheckpointSaved step dir));;
  mret r.

(** [tune.report(loss=..., accuracy=...)] *)
Definition tune_report (m : Metrics) : M unit :=
  fun s => let it := session_iteration s + 1 in
           let s' := emit (Reported it m) (set_session_iteration it s) in
           if should_stop (session_scheduler s) it m
           then (Stopped, s') else (Ok tt, s').

(** ** [paramRayTune.py] *)

(** The body of the loop over [trainloader]; the loop-carried locals are
    [running_loss] and [epoch_steps]. *)
Definition train_batch (epoch : Z) (acc : Q * Z) (item : Z * list Sample)
  : M (Q * Z) :=
  let '(running_loss, epoch_steps) := acc in
  let '(i, data) := item in
  let inputs := data.*1 in
  let labels := data.*2 in
  zero_grad;;
  outputs ← call_module inputs;
  let loss := cross_entropy outputs labels in
  loss_backward data;;
  optimizer_step;;
  let running_loss := (running_loss + loss)%Q in
  let epoch_steps := epoch_steps + 1 in
  if i `mod` 2000 =? 1999 then
    mean ← truediv running_loss (inject_Z epoch_steps);
    print (RunningLoss (epoch + 1) (i + 1) mean);;
    mret (0%Q, epoch_steps)
  else mret (running_loss, epoch_steps).

(** The body of the loop over [valloader]; the locals are [val_loss],
    [val_steps], [total] and [correct]. *)
Definition validate_batch (acc : Q * Z * Z * Z) (item : Z * list Sample)
  : M (Q * Z * Z * Z) :=
  let '(val_loss, val_steps, total, correct) := acc in
  let '(i, data) := item in
  no_grad (
    let inputs := data.*1 in
    let labels := data.*2 in
    outputs ← call_module inputs;
    let predicted := argmax <$> outputs in
    let total := total + len labels in
    let correct := correct + count_equal predicted labels in
    let loss := cross_entropy outputs labels in
    mret ((val_loss + loss)%Q, val_steps + 1, total, correct)).

(** The validation pass of one epoch. *)
Definition validate (valloader : DataLoader) : M (Q * Z * Z * Z) :=
  val_batches ← iterate valloader;
  for_each (enumerate val_batches) (0%Q, 0, 0, 0) validate_batch.

(** The checkpoint block of one epoch. *)
Definition save_checkpoint (epoch : Z) : M unit :=
  with_checkpoint_dir epoch (fun checkpoint_dir =>
    let path := os_path_join checkpoint_dir "checkpoint" in
    model_state ← state_dict;
    optimizer_state ← optimizer_state_dict;
    torch_save (model_state, optimizer_state) path).

(** The body of [for epoch in range(10)]. *)
Definition train_epoch (trainloader valloader : DataLoader) (_ : unit)
    (epoch : Z) : M unit :=
  train_batches ← iterate trainloader;
  _ ← for_each (enumerate train_batches) (0%Q, 0) (train_batch epoch);
  '(val_loss, val_steps, total, correct) ← validate valloader;
  save_checkpoint epoch;;
  l ← truediv val_loss (inject_Z val_steps);
  a ← truediv (inject_Z correct) (inject_Z total);
  tune_report {| loss := l; accuracy := a |}.

(** [test_abs = int(len(trainset) * 0.8)] *)
Definition split_point (n : Z) : M Z :=
  py_int (Float64.mul (Float64.of_int n) Float64.lit_0_8).

(** The two lines that split [trainset] into [train_subset] and
    [val_subset]. Unpacking anything but two subsets is a
    [ValueError]. *)
Definition split_train_val (trainset : Dataset) : M (Dataset * Dataset) :=
  let n := Z.of_nat (ds_len trainset) in
  test_abs ← split_point n;
  subsets ← random_split trainset [test_abs; n - test_abs];
  match subsets with
  | [train_subset; val_subset] => mret (train_subset, val_subset)
  | _ => raise ValueError
  end.

(** The module and the optimizer are the cells [net] and [optimizer] of
    the state. Device placement changes no value and is left out. *)
Definition train_cifar (config : Configuration)
    (checkpoint_dir : option string) (data_dir : string) : M unit :=
  new_module [l1 config; l2 config];;
  new_SGD (lr config) (9 # 10);;
  (if truthy checkpoint_dir then
     '(model_state, optimizer_state) ←
       torch_load (os_path_join (default "" checkpoint_dir) "checkpoint");
     load_state_dict model_state;;
     optimizer_load_state_dict optimizer_state
   else mret tt);;
  '(trainset, testset) ← load_data data_dir;
  '(train_subset, val_subset) ← split_train_val trainset;
  trainloader ← new_DataLoader train_subset (batch_size config) true;
  valloader ← new_DataLoader val_subset (batch_size config) true;
  for_each (range 10) tt (train_epoch trainloader valloader);;
  print FinishedTraining.

Definition test_batch (acc : Z * Z) (data : list Sample) : M (Z * Z) :=
  let '(correct, total) := acc in
  let images := data.*1 in
  let labels := data.*2 in
  outputs ← call_module images;
  let predicted := argmax <$> outputs in
  mret (correct + count_equal predicted labels, total + len labels).

(** [test_accuracy(net, device)]: the module evaluated is the cell [net]
    of the state. *)
Definition test_accuracy : M Q :=
  '(trainset, testset) ← load_data "./data";
  testloader ← new_DataLoader testset 4 false;
  '(correct, total) ←
    no_grad (test_batches ← iterate testloader;
             for_each test_batches (0, 0) test_batch);
  truediv (inject_Z correct) (inject_Z total).

(** The scheduler [main] builds from its argument [max_num_epochs]. *)
Definition main_scheduler (max_num_epochs : Z) : ASHAScheduler :=
  {| sched_metric := Loss; sched_mode := Min; max_t := max_num_epochs;
     grace_period := 1; reduction_factor := 2 |}.

Definition start_session (scheduler : ASHAScheduler) : M unit :=
  modify (fun s =>
    {| net := net s; optimizer := optimizer s;
       grad_enabled := grad_enabled s; np_rng := np_rng s;
       torch_rng := torch_rng s; fs := fs s;
       session_scheduler := scheduler;
       session_iteration := 0; trace := trace s |}).

(** One trial as [tune.run] starts it from [main]: a fresh session under
    [main]'s scheduler, and the trainable called with a sampled
    configuration, no checkpoint, and [main]'s [data_dir]. *)
Definition run_trial (max_num_epochs : Z) (config : Configuration)
    (data_dir : string) : M unit :=
  start_session (main_scheduler max_num_epochs);;
  train_cifar config None data_dir.

(** The configurations [tune.run] draws for [main]'s search space. *)
Definition sample_configurations (num_samples : nat)
  : M (list Configuration) :=
  fun s => let '(cs, g) := generate_variants config num_samples (np_rng s) in
           match cs with
           | Some cs => (Ok cs, set_np_rng g s)
           | None => (Raise IndexError, set_np_rng g s)
           end.

(** ** [simpleFullyNN.py] *)

Definition check_batch (acc : Z * Z) (data : list Sample) : M (Z * Z) :=
  let '(num_correct, num_samples) := acc in
  let x := data.*1 in
  let y := data.*2 in
  scores ← call_module x;
  let predictions := argmax <$> scores in
  mret (num_correct + count_equal predictions y,
        num_samples + len predictions).

(** [check_accuracy(loader, model)]; [model] is the cell [net]. The
    result type [unit] is Python's [None]. *)
Definition check_accuracy (loader : DataLoader) : M unit :=
  match ds_train (dl_dataset loader) with
  | Some true => print CheckingTraining
  | Some false => print CheckingTest
  | None => raise AttributeError
  end;;
  model_eval;;
  no_grad (
    loader_batches ← iterate loader;
    '(num_correct, num_samples) ←
      for_each loader_batches (0, 0) check_batch;
    ratio ← truediv (inject_Z num_correct) (inject_Z num_samples);
    print (GotAccuracy num_correct num_samples (ratio * 100)%Q));;
  model_train.

(** The two calls that end the script. *)
Definition check_both (train_loader test_loader : DataLoader) : M unit :=
  check_accuracy train_loader;;
  check_accuracy test_loader.

End Program.

(** ** The result selector *)

Module Analysis.

(** A finished or cancelled trial as the search result records it. *)
Record Trial := {
  trial_id : nat;
  trial_config : Configuration;
  last_result : Metrics;
  checkpoint_dir : string
}.

Definition metric_value (metric : Metric) (m : Metrics) : Q :=
  match metric with
  | Loss => loss m
  | Accuracy => accuracy m
  end.

(** [a] is strictly better than [b]. *)
Definition better (mode : Mode) (a b : Q) : bool :=
  match mode with
  | Min => negb (Qle_bool b a)
  | Max => negb (Qle_bool a b)
  end.

Fixpoint best_from (metric : Metric) (mode : Mode) (best : Trial)
    (trials : list Trial) : Trial :=
  match trials with
  | [] => best
  | t :: trials' =>
      if better mode (metric_value metric (last_result t))
                     (metric_value metric (last_result best))
      then best_from metric mode t trials'
      else best_from metric mode best trials'
  end.

(** Modelled from the spec: [result.get_best_trial("loss", "min", "last")]
    is a method of Ray Tune's result object, which is not part of the
    repository. The spec (4.4) gives its contract: the trial with the best
    last reported value of the metric in the given direction, ties broken
    in favour of the trial submitted first. The trials are listed in
    submission order; an empty result has no best trial. *)
Definition get_best_trial (trials : list Trial) (metric : Metric)
    (mode : Mode) : option Trial :=
  match trials with
  | [] => None
  | t :: trials' => Some (best_from metric mode t trials')
  end.

End Analysis.

(** ** The test of the best trial in [main] *)

Section Main.
Context `{NumpyRandom} `{Torch} `{Tune}.
Import Analysis.


End Main.

(** ** The script [simpleFullyNN.py] *)

(** [optim.Adam]: its update, with the moment estimates and the step
    counter in the buffers of the optimizer; the decay rates are the
    defaults, fixed in the update. *)
Class Adam `{Torch} := {
  adam_init : buffers;
  adam_step : Q -> params -> option grads -> buffers -> params * buffers
}.

(** The two splits of [torchvision.datasets.MNIST]. *)
Class MNIST `{Torch} := {
  mnist : bool -> list (image * Z)
}.

Section Script.
Context `{NumpyRandom} `{Torch} `{Tune} `{!Adam} `{!MNIST}.

(** [optim.Adam(model.parameters(), lr=...)]. The optimizer lives in the
    same cell as SGD does in the other file; Adam has no momentum
    setting, the field stays at zero and is not read. *)
Definition new_Adam (lr : Q) : M unit :=
  modify (set_optimizer (fun _ => {| opt_lr := lr; opt_momentum := 0;
                                     opt_buffers := adam_init |})).

(** [optmizer.step()] of the script *)
Definition adam_optimizer_step : M unit :=
  fun s => let o := optimizer s in
           let m := net s in
           let '(w, b) := adam_step (opt_lr o) (weights m) (grad m)
                            (opt_buffers o) in
           (Ok tt,
            emit OptimizerStep
              (set_optimizer (fun _ => {| opt_lr := opt_lr o;
                                          opt_momentum := opt_momentum o;
                                          opt_buffers := b |})
                 (set_net (fun _ => {| shape := shape m; weights := w;
                                       grad := grad m;
                                       training := training m |}) s))).

(** The body of the loop over [train_loader]. *)
Definition script_batch (_ : unit) (item : Z * list Sample) : M unit :=
  let '(batch_idx, batch) := item in
  let data := batch.*1 in
  let targets := batch.*2 in
  pred ← call_module data;
  let loss := cross_entropy pred targets in
  zero_grad;;
  loss_backward batch;;
  adam_optimizer_step.

(** The body of [for epoch in range(num_epochs)]. *)
Definition script_epoch (train_loader : DataLoader) (_ : unit) (epoch : Z)
  : M unit :=
  train_batches ← iterate train_loader;
  for_each (enumerate train_batches) tt script_batch.

(** The script from its hyperparameters on (the line it prints about the
    device before is left out with the device). *)
Definition script : M unit :=
  let input_size := 784 in
  let num_classes := 10 in
  let learning_rate := (1 # 1000)%Q in
  let batch_size := 64 in
  let num_epochs := 1 in
  train_loader ← new_DataLoader (Stored (mnist true) true) batch_size true;
  test_loader ← new_DataLoader (Stored (mnist false) false) batch_size true;
  new_module [input_size; num_classes];;
  new_Adam learning_rate;;
  for_each (range num_epochs) tt (script_epoch train_loader);;
  check_both train_loader test_loader.

End Script.

(** ** The networks: [Net] of [paramRayTune.py], [NN] of [simpleFullyNN.py] *)

(** Tensors are nested lists of rationals, outermost dimension first: a
    row of features is a [Vec], an image or a stack of feature maps is a
    [Vol] (channels, height, width), a batch is a list of those. The
    lists of a tensor are regular, all lists at one depth having one
    length. [None] stands for the [RuntimeError] a layer raises on an
    input of the wrong shape. *)
Module Nets.
Local Open Scope nat_scope.

Abbreviation Vec := (list Q) (only parsing).
Abbreviation Mat := (list (list Q)) (only parsing).
Abbreviation Vol := (list (list (list Q))) (only parsing).

Definition mat_dims (h w : nat) (m : Mat) : Prop :=
  length m = h /\ Forall (fun r => length r = w) m.

Definition vol_dims (c h w : nat) (x : Vol) : Prop :=
  length x = c /\ Forall (mat_dims h w) x.

Global Instance vol_dims_dec c h w x : Decision (vol_dims c h w x).
Proof. unfold vol_dims, mat_dims. apply _. Defined.

Definition height (x : Vol) : nat :=
  match x with
  | [] => 0
  | m :: _ => length m
  end.

Definition width (x : Vol) : nat :=
  match x with
  | (r :: _) :: _ => length r
  | _ => 0
  end.

(** [F.relu] *)
Definition Qmax (a b : Q) : Q := if Qle_bool a b then b else a.
Definition relu (x : Q) : Q := Qmax 0 x.
Definition relu_vec (x : Vec) : Vec := relu <$> x.
Definition relu_vol (x : Vol) : Vol :=
  (fun m : Mat => relu_vec <$> m) <$> x.

Definition dot (a b : Vec) : Q := foldr Qplus 0%Q (zip_with Qmult a b).
Definition mat_dot (a b : Mat) : Q := foldr Qplus 0%Q (zip_with dot a b).
Definition vol_dot (a b : Vol) : Q := foldr Qplus 0%Q (zip_with mat_dot a b).

(** The [k] by [k] window of a matrix whose corner is at [(i, j)]. *)
Definition window (k i j : nat) (m : Mat) : Mat :=
  (fun r => take k (drop j r)) <$> take k (drop i m).

(** The initial value of each entry of each parameter tensor, by the
    name of the tensor in the [state_dict]: it stands for the random
    initialisation, about which nothing is assumed. *)
Definition Init : Type := string -> list nat -> Q.

(** [nn.Linear(in_features, out_features)] *)
Record Linear := {
  in_features : nat;
  out_features : nat;
  weight : Mat;
  bias : Vec
}.

Definition new_Linear (init : Init) (name : string)
    (in_features out_features : nat) : Linear :=
  {| in_features := in_features;
     out_features := out_features;
     weight := (fun o => (fun i => init (name +:+ ".weight") [o; i])
                           <$> seq 0 in_features) <$> seq 0 out_features;
     bias := (fun o => init (name +:+ ".bias") [o]) <$> seq 0 out_features |}.

Definition linear_out (l : Linear) (x : Vec) : Vec :=
  zip_with (fun r b => (dot r x + b)%Q) (weight l) (bias l).

(** A linear layer applied to a batch of rows. *)
Definition linear (l : Linear) (x : list Vec) : option (list Vec) :=
  if decide (Forall (fun r => length r = in_features l) x)
  then Some (linear_out l <$> x)
  else None.

(** [nn.Conv2d(in_channels, out_channels, kernel_size)]: stride 1, no
    padding. *)
Record Conv2d := {
  in_channels : nat;
  out_channels : nat;
  kernel_size : nat;
  conv_weight : list Vol;
  conv_bias : Vec
}.

Definition new_Conv2d (init : Init) (name : string)
    (in_channels out_channels kernel_size : nat) : Conv2d :=
  {| in_channels := in_channels;
     out_channels := out_channels;
     kernel_size := kernel_size;
     conv_weight :=
       (fun o =>
          (fun c =>
             (fun i => (fun j => init (name +:+ ".weight") [o; c; i; j])
                         <$> seq 0 kernel_size) <$> seq 0 kernel_size)
            <$> seq 0 in_channels) <$> seq 0 out_channels;
     conv_bias := (fun o => init (name +:+ ".bias") [o])
                    <$> seq 0 out_channels |}.

Definition conv2d_out (l : Conv2d) (x : Vol) : Vol :=
  let k := kernel_size l in
  zip_with
    (fun kernel b =>
       (fun i => (fun j => (vol_dot kernel (window k i j <$> x) + b)%Q)
                   <$> seq 0 (width x - k + 1))
         <$> seq 0 (height x - k + 1))
    (conv_weight l) (conv_bias l).

(** A convolution applied to one sample. *)
Definition conv2d (l : Conv2d) (x : Vol) : option Vol :=
  if decide (length x = in_channels l /\
             kernel_size l <= height x /\ kernel_size l <= width x)
  then Some (conv2d_out l x)
  else None.

(** [nn.MaxPool2d(kernel_size, stride)] *)
Record MaxPool2d := {
  pool_kernel : nat;
  pool_stride : nat
}.

Definition max_list (l : list Q) : Q :=
  match l with
  | [] => 0%Q
  | x :: l' => foldl Qmax x l'
  end.

Definition max_pool2d_out (p : MaxPool2d) (x : Vol) : Vol :=
  let k := pool_kernel p in
  let s := pool_stride p in
  (fun m =>
     (fun i => (fun j => max_list (concat (window k (s * i) (s * j) m)))
                 <$> seq 0 ((width x - k) / s + 1))
       <$> seq 0 ((height x - k) / s + 1)) <$> x.

Definition max_pool2d (p : MaxPool2d) (x : Vol) : option Vol :=
  if decide (0 < pool_stride p /\
             pool_kernel p <= height x /\ pool_kernel p <= width x)
  then Some (max_pool2d_out p x)
  else None.

Definition flatten (x : Vol) : Vec := concat (concat x).

(** [x.view(-1, cols)] on a batch: all entries in row-major order, cut
    into rows of [cols]. *)
Definition view_rows (cols : nat) (x : list Vol) : option (list Vec) :=
  let flat := concat (flatten <$> x) in
  if decide (0 < length flat /\ length flat `mod` cols = 0)
  then Some (batches cols flat)
  else None.

(** [x.reshape(x.shape[0], -1)] on a batch: one row per sample. *)
Definition reshape_rows (x : list Vol) : option (list Vec) :=
  if decide (0 < length (concat (flatten <$> x)))
  then Some (flatten <$> x)
  else None.

(** [class Net(nn.Module)] *)
Record Net := {
  conv1 : Conv2d;
  pool : MaxPool2d;
  conv2 : Conv2d;
  fc1 : Linear;
  fc2 : Linear;
  fc3 : Linear
}.

(** [Net.__init__(self, l1, l2)]; a negative size is refused. *)
Definition Net_init (init : Init) (l1 l2 : Z) : option Net :=
  if decide (0 <= l1 /\ 0 <= l2)%Z
  then Some {| conv1 := new_Conv2d init "conv1" 3 6 5;
               pool := {| pool_kernel := 2; pool_stride := 2 |};
               conv2 := new_Conv2d init "conv2" 6 16 5;
               fc1 := new_Linear init "fc1" (16 * 5 * 5) (Z.to_nat l1);
               fc2 := new_Linear init "fc2" (Z.to_nat l1) (Z.to_nat l2);
               fc3 := new_Linear init "fc3" (Z.to_nat l2) 10 |}
  else None.

(** [Net.forward(self, x)] *)
Definition Net_forward (self : Net) (x : list Vol) : option (list Vec) :=
  x ← mapM (conv2d (conv1 self)) x;
  x ← mapM (max_pool2d (pool self)) (relu_vol <$> x);
  x ← mapM (conv2d (conv2 self)) x;
  x ← mapM (max_pool2d (pool self)) (relu_vol <$> x);
  x ← view_rows (16 * 5 * 5) x;
  x ← linear (fc1 self) x;
  x ← linear (fc2 self) (relu_vec <$> x);
  linear (fc3 self) (relu_vec <$> x).

(** [class NN(nn.Module)] *)
Record NN := {
  nn_fc1 : Linear;
  nn_fc2 : Linear
}.

(** [NN.__init__(self, input_size, num_classes)] *)
Definition NN_init (init : Init) (input_size num_classes : Z) : option NN :=
  if decide (0 <= input_size /\ 0 <= num_classes)%Z
  then Some {| nn_fc1 := new_Linear init "fc1" (Z.to_nat input_size) 50;
               nn_fc2 := new_Linear init "fc2" 50 (Z.to_nat num_classes) |}
  else None.

(** [NN.forward(self, x)] *)
Definition NN_forward (self : NN) (x : list Vec) : option (list Vec) :=
  x ← linear (nn_fc1 self) x;
  linear (nn_fc2 self) (relu_vec <$> x).

(** The scores of a batch of images, as [check_accuracy] and the
    training loop of the script compute them: the images flattened to
    one row each, then the model. *)
Definition NN_scores (model : NN) (x : list Vol) : option (list Vec) :=
  x ← reshape_rows x;
  NN_forward model x.

(** The size of a feature map after a convolution and after a pooling
    layer, and the side of the feature maps [Net] flattens. *)
Definition conv_size (h k : nat) : nat := h - k + 1.
Definition pool_size (h k s : nat) : nat := (h - k) / s + 1.
Definition feature_size (h : nat) : nat :=
  pool_size (conv_size (pool_size (conv_size h 5) 2 2) 5) 2 2.

(** What [Net] computes from one image of 3 by 32 by 32. *)
Definition Net_row (self : Net) (x : Vol) : Vec :=
  let x := max_pool2d_out (pool self) (relu_vol (conv2d_out (conv1 self) x)) in
  let x := max_pool2d_out (pool self) (relu_vol (conv2d_out (conv2 self) x)) in
  let x := relu_vec (linear_out (fc1 self) (flatten x)) in
  let x := relu_vec (linear_out (fc2 self) x) in
  linear_out (fc3 self) x.

(** What [NN] computes from one image. *)
Definition NN_row (self : NN) (x : Vol) : Vec :=
  linear_out (nn_fc2 self) (relu_vec (linear_out (nn_fc1 self) (flatten x))).

End Nets.

(** ** The transform of [load_data] *)

Module Transforms.
Import Nets.
Local Open Scope nat_scope.

(** A decoded picture as the dataset stores it: rows of pixels, a pixel
    being the list of its channel values, integers from 0 to 255. *)
Abbreviation Picture := (list (list (list Z))) (only parsing).

Definition pixel_ok (c : nat) (px : list Z) : Prop :=
  length px = c /\ Forall (fun v => (0 <= v <= 255)%Z) px.

Definition picture_dims (h w c : nat) (p : Picture) : Prop :=
  length p = h /\
  Forall (fun row => length row = w /\ Forall (pixel_ok c) row) p.

Global Instance picture_dims_dec h w c p : Decision (picture_dims h w c p).
Proof. unfold picture_dims, pixel_ok. apply _. Defined.

Definition channels (p : Picture) : nat :=
  match p with
  | (px :: _) :: _ => length px
  | _ => 0
  end.

(** [transforms.ToTensor()]: height, width, channels become channels,
    height, width, and the values are scaled from 0..255 to 0..1. *)
Definition ToTensor (p : Picture) : Vol :=
  (fun k => (fun row : list (list Z) =>
               (fun px : list Z => (default 0%Z (px !! k) # 255)%Q) <$> row)
              <$> p) <$> seq 0 (channels p).

(** A per-channel constant given for every channel, or once for all. *)
Definition broadcast (l : list Q) (c : nat) : option (list Q) :=
  if length l =? c then Some l
  else if length l =? 1 then Some (replicate c (default 0%Q (head l)))
  else None.

(** [transforms.Normalize(mean, std)]: per channel, [(x - mean) / std];
    a zero in [std] is refused, and so is a tensor whose number of
    channels fits neither [mean] nor [std]. *)
Definition Normalize (mean std : list Q) (x : Vol) : option Vol :=
  if forallb (fun s => negb (Qeq_bool s 0)) std
  then mean ← broadcast mean (length x);
       std ← broadcast std (length x);
       Some (zip_with
               (fun ch ms =>
                  (fun row : list Q =>
                     (fun v => ((v - ms.1) / ms.2)%Q) <$> row) <$> ch)
               x (zip mean std))
  else None.

(** The [transforms.Compose] that [load_data] hands to both datasets. *)
Definition transform (p : Picture) : option Vol :=
  Normalize [1 # 2; 1 # 2; 1 # 2]%Q [1 # 2; 1 # 2; 1 # 2]%Q (ToTensor p).

End Transforms.

(** ** A small concrete world to run the model in *)

Module Toy.

(** A linear congruential generator on 31 bits. *)
Definition lcg (s : Z) : Z := (s * 1103515245 + 12345) `mod` 2147483648.

Definition toy_randint (lo hi s : Z) : Z * Z :=
  (lo + lcg s `mod` (hi - lo), lcg s).

(** A point of [[lo, hi]] picked on a grid of a thousand steps. *)
Definition toy_loguniform (lo hi : Q) (s : Z) : Q * Z :=
  (Qred (lo + (hi - lo) * (lcg s `mod` 1001 # 1000)), lcg s).

(** Shuffling by repeatedly drawing one of the remaining indices. *)
Fixpoint draw_all (fuel : nat) (remaining : list nat) (g : Z)
  : list nat * Z :=
  match fuel with
  | O => ([], g)
  | S fuel' =>
      let g' := lcg g in
      let k := Z.to_nat (g' `mod` Z.of_nat (length remaining)) in
      match remaining !! k with
      | Some x => let '(rest, g'') := draw_all fuel' (delete k remaining) g' in
                  (x :: rest, g'')
      | None => ([], g')
      end
  end.

Definition toy_randperm (n : nat) (g : Z) : list nat * Z :=
  draw_all n (seq 0 n) g.

(** The sampler first draws a seed, then shuffles with it. *)
Definition toy_sampler_order (n : nat) (g : Z) : list nat * Z :=
  toy_randperm n (lcg g).

(** A one-parameter, two-class model on integer inputs: class 1 when the
    input exceeds the threshold. *)
Definition toy_forward (w : Q) (x : Z) : list Q :=
  [(w - inject_Z x)%Q; (inject_Z x - w)%Q].

Definition toy_predict (w : Q) (x : Z) : Z :=
  argmax (toy_forward w x).

(** The share of wrong predictions in the batch stands for the loss. *)
Definition toy_loss (outputs : list (list Q)) (labels : list Z) : Q :=
  match labels with
  | [] => 0
  | _ => Z.of_nat (length (filter (fun p => argmax p.1 ≠ p.2)
                                  (zip outputs labels)))
           # Pos.of_nat (length labels)
  end.

Definition toy_backward (w : Q) (batch : list (Z * Z)) (g : option Q) : Q :=
  (default 0%Q g
   + inject_Z (foldr Z.add 0%Z ((fun p => (toy_predict w p.1 - p.2)%Z) <$> batch)))%Q.

Definition toy_sgd_step (lr momentum w : Q) (g : option Q) (b : Q) : Q * Q :=
  match g with
  | None => (w, b)
  | Some g => let v := Qred (momentum * b + g) in (Qred (w + lr * v), v)
  end.

Definition toy_cifar10 (train : bool) : list (Z * Z) :=
  if train
  then [(1, 0); (9, 1); (2, 0); (8, 1); (3, 0); (7, 1); (4, 0); (6, 1);
        (0, 0); (5, 1)]
  else [(2, 0); (7, 1); (9, 0); (1, 0); (6, 1)].

(** A scheduler that only enforces [max_t]: it stops a trial at the
    report that reaches it. *)
Definition toy_should_stop (sched : ASHAScheduler) (it : Z) (m : Metrics)
  : bool :=
  max_t sched <=? it.

Definition toy_checkpoint_dir (step : Z) : string :=
  "/trial/checkpoint_" +:+ pretty step.

End Toy.

(** * Properties *)

(** ** The concrete world satisfies the interfaces' laws *)

Module ToyLaws.
Import Toy.

Lemma toy_randint_range lo hi s :
  lo < hi -> lo <= (toy_randint lo hi s).1 < hi.
Proof.
  intros Hlt. unfold toy_randint. cbn [fst].
  pose proof (Z.mod_pos_bound (lcg s) (hi - lo)). lia.
Qed.

Lemma grid_point_bounds z :
  (0 <= z `mod` 1001 # 1000)%Q /\ (z `mod` 1001 # 1000 <= 1)%Q.
Proof.
  pose proof (Z.mod_pos_bound z 1001).
  unfold Qle. cbn [Qnum Qden]. lia.
Qed.

Lemma toy_loguniform_range lo hi s :
  (lo <= hi)%Q ->
  (lo <= (toy_loguniform lo hi s).1)%Q /\ ((toy_loguniform lo hi s).1 <= hi)%Q.
Proof.
  intros Hle. unfold toy_loguniform. cbn [fst]. rewrite Qred_correct.
  destruct (grid_point_bounds (lcg s)) as [H0 H1].
  set (t := (lcg s `mod` 1001 # 1000)%Q) in *. clearbody t.
  split; nra.
Qed.

Lemma draw_all_perm fuel : forall remaining g,
  length remaining = fuel -> (draw_all fuel remaining g).1 ≡ₚ remaining.
Proof.
  induction fuel as [|fuel IH]; intros remaining g Hlen.
  - destruct remaining; [reflexivity | discriminate].
  - cbn [draw_all].
    set (k := Z.to_nat (lcg g `mod` Z.of_nat (length remaining))).
    assert (Hk : (k < length remaining)%nat).
    { subst k. pose proof (Z.mod_pos_bound (lcg g) (Z.of_nat (length remaining))).
      lia. }
    destruct (lookup_lt_is_Some_2 remaining k Hk) as [x Hx].
    rewrite Hx.
    specialize (IH (delete k remaining) (lcg g)).
    destruct (draw_all fuel (delete k remaining) (lcg g)) as [rest g''].
    cbn [fst] in *.
    rewrite IH.
    + symmetry. by apply delete_Permutation.
    + rewrite length_delete by eauto. lia.
Qed.

Lemma toy_randperm_perm n g : (toy_randperm n g).1 ≡ₚ seq 0 n.
Proof. apply draw_all_perm, length_seq. Qed.

Definition numpy : NumpyRandom := {|
  np_state := Z;
  randint := toy_randint;
  loguniform_sample := toy_loguniform;
  randint_range := toy_randint_range;
  loguniform_range := toy_loguniform_range
|}.

Definition torch : Torch := {|
  generator := Z;
  image := Z;
  params := Q;
  grads := Q;
  buffers := Q;
  randperm := toy_randperm;
  sampler_order := toy_sampler_order;
  init_params := fun _ g => (inject_Z (lcg g `mod` 10), lcg g);
  forward := toy_forward;
  cross_entropy := toy_loss;
  backward := toy_backward;
  init_buffers := 0%Q;
  sgd_step := toy_sgd_step;
  cifar10 := toy_cifar10;
  randperm_perm := toy_randperm_perm;
  sampler_order_perm := fun n g => toy_randperm_perm n (lcg g)
|}.

Definition tune : Tune := {|
  should_stop := toy_should_stop;
  trial_checkpoint_dir := toy_checkpoint_dir
|}.

(** A starting state: no files, nothing printed, generators seeded. *)
Definition initial (np_seed torch_seed : Z) : @State numpy torch :=
  @Build_State numpy torch
    (@Build_Module torch [] 0%Q None true)
    (@Build_Optimizer torch 0 0 0%Q)
    true np_seed torch_seed ∅ (main_scheduler 10) 0 [].

End ToyLaws.

(** ** The configuration sampler *)

Section SamplerProperties.
Context `{NumpyRandom}.

Lemma pow2_randint_width s : (pow2_randint s).1 ∈ layer_widths.
Proof.
  unfold pow2_randint.
  pose proof (randint_range 2 9 s ltac:(lia)) as Hk.
  destruct (randint 2 9 s) as [k s']. cbn [fst] in *.
  assert (Hcases : k ∈ [2; 3; 4; 5; 6; 7; 8]).
  { rewrite !elem_of_cons, elem_of_nil. lia. }
  clear Hk. unfold layer_widths.
  repeat (apply elem_of_cons in Hcases as [Hk | Hcases];
          [rewrite Hk; cbn; rewrite !elem_of_cons; tauto |]).
  by apply elem_of_nil in Hcases.
Qed.

Lemma sample_width s :
  exists a, (sample (sample_from pow2_randint) s).1 = Some a /\
            a ∈ layer_widths.
Proof.
  cbn [sample]. pose proof (pow2_randint_width s) as Ha.
  destruct (pow2_randint s) as [a s1]. by exists a.
Qed.

Lemma sample_lr s :
  exists c, (sample (loguniform (1 # 10000) (1 # 10)) s).1 = Some c /\
            (1 # 10000 <= c)%Q /\ (c <= 1 # 10)%Q.
Proof.
  cbn [sample].
  pose proof (loguniform_range (1 # 10000) (1 # 10) s) as Hc.
  destruct (loguniform_sample (1 # 10000) (1 # 10) s) as [c s1].
  exists c. split; [done |]. apply Hc. unfold Qle; cbn; lia.
Qed.

Lemma sample_batch_size s :
  exists b, (sample (choice [2; 4; 8; 16]) s).1 = Some b /\ b ∈ batch_sizes.
Proof.
  cbn [sample].
  pose proof (randint_range 0 (Z.of_nat (length [2; 4; 8; 16])) s
                ltac:(cbn; lia)) as Hi.
  destruct (randint 0 (Z.of_nat (length [2; 4; 8; 16])) s) as [i s'].
  cbn [fst length] in *.
  assert (Hcases : i ∈ [0; 1; 2; 3]).
  { rewrite !elem_of_cons, elem_of_nil. lia. }
  clear Hi. unfold batch_sizes.
  repeat (apply elem_of_cons in Hcases as [Hi | Hcases];
          [rewrite Hi; cbn; eexists;
           split; [reflexivity | rewrite !elem_of_cons; tauto] |]).
  by apply elem_of_nil in Hcases.
Qed.

Lemma resolve_config s :
  exists c, (resolve config s).1 = Some c /\ in_declared_domain c.
Proof.
  unfold resolve, config. cbn [sp_l1 sp_l2 sp_lr sp_batch_size].
  destruct (sample_width s) as (a & Ha & Hwa).
  destruct (sample (sample_from pow2_randint) s) as [oa s1].
  cbn [fst] in Ha. subst oa.
  destruct (sample_width s1) as (b & Hb & Hwb).
  destruct (sample (sample_from pow2_randint) s1) as [ob s2].
  cbn [fst] in Hb. subst ob.
  destruct (sample_lr s2) as (c & Hc & Hc1 & Hc2).
  destruct (sample (loguniform (1 # 10000) (1 # 10)) s2) as [oc s3].
  cbn [fst] in Hc. subst oc.
  destruct (sample_batch_size s3) as (d & Hd & Hwd).
  destruct (sample (choice [2; 4; 8; 16]) s3) as [od s4].
  cbn [fst] in Hd. subst od.
  eexists; split; [reflexivity |].
  unfold in_declared_domain; cbn. auto.
Qed.

(** C2. Every configuration drawn from the search space declared in
    [main] lies in the declared domains: the search never fails to draw,
    it draws exactly [num_samples] configurations, and in each of them
    [l1] and [l2] are among 4, 8, 16, 32, 64, 128, 256, [lr] is between
    1e-4 and 1e-1, and [batch_size] is among 2, 4, 8, 16. *)
Theorem sampled_configurations_in_domain (num_samples : nat) (s : np_state) :
  exists cs,
    (generate_variants config num_samples s).1 = Some cs /\
    length cs = num_samples /\
    Forall in_declared_domain cs.
Proof.
  revert s. induction num_samples as [|n IH]; intros s.
  - exists []. cbn. auto.
  - cbn [generate_variants].
    destruct (resolve_config s) as (c & Hc & Hdom).
    destruct (resolve config s) as [oc s1]. cbn [fst] in Hc. subst oc.
    destruct (IH s1) as (cs & Hcs & Hlen & Hall).
    destruct (generate_variants config n s1) as [ocs s2].
    cbn [fst] in Hcs. subst ocs.
    exists (c :: cs). cbn. auto.
Qed.

End SamplerProperties.

Section SamplerDeterminism.
Context `{NumpyRandom} `{Torch} `{Tune}.

(** C8. The sequence of configurations is a function of NumPy's
    generator state alone: two runs that start from the same generator
    state (the same seed), whatever else differs between them, draw the
    same configurations in the same order and leave the generator in the
    same state. *)
Theorem sampler_reproducible (num_samples : nat) (s1 s2 : State) :
  np_rng s1 = np_rng s2 ->
  (sample_configurations num_samples s1).1
    = (sample_configurations num_samples s2).1 /\
  np_rng (sample_configurations num_samples s1).2
    = np_rng (sample_configurations num_samples s2).2.
Proof.
  intros Hseed. unfold sample_configurations. rewrite Hseed.
  destruct (generate_variants config num_samples (np_rng s2)) as [[cs|] g];
    cbn; auto.
Qed.

End SamplerDeterminism.

(** ** The result selector *)

Section Selector.
Import Analysis.

Definition last_loss (t : Trial) : Q := loss (last_result t).

Lemma best_from_cons (best t : Trial) (trials : list Trial) :
  best_from Loss Min best (t :: trials)
  = if Qle_bool (last_loss best) (last_loss t)
    then best_from Loss Min best trials
    else best_from Loss Min t trials.
Proof. cbn. unfold last_loss. by destruct (Qle_bool _ _). Qed.

Lemma best_from_spec (best : Trial) (trials : list Trial) :
  best_from Loss Min best trials ∈ best :: trials /\
  (last_loss (best_from Loss Min best trials) <= last_loss best)%Q /\
  forall t, t ∈ trials ->
            (last_loss (best_from Loss Min best trials) <= last_loss t)%Q.
Proof.
  revert best. induction trials as [|t trials IH]; intros best.
  - split; [apply list_elem_of_here |]. split; [apply Qle_refl |].
    intros t Ht. by apply elem_of_nil in Ht.
  - rewrite best_from_cons.
    destruct (Qle_bool (last_loss best) (last_loss t)) eqn:Hcmp.
    + apply Qle_bool_iff in Hcmp.
      destruct (IH best) as (Hin & Hbest & Hall).
      split.
      { rewrite elem_of_cons in Hin. rewrite !elem_of_cons. tauto. }
      split; [done |].
      intros t' Ht'. apply elem_of_cons in Ht' as [Ht' | Ht'].
      * rewrite Ht'. eapply Qle_trans; eauto.
      * by apply Hall.
    + assert (Hlt : (last_loss t < last_loss best)%Q).
      { apply Qnot_le_lt. intros Hle. apply Qle_bool_iff in Hle. congruence. }
      destruct (IH t) as (Hin & Hbest & Hall).
      split; [by apply list_elem_of_further |].
      split; [eapply Qle_trans; [exact Hbest | by apply Qlt_le_weak] |].
      intros t' Ht'. apply elem_of_cons in Ht' as [Ht' | Ht'].
      * by rewrite Ht'.
      * by apply Hall.
Qed.

(** C4. Under metric "loss" and mode "min" the selector returns a trial
    of the result set whose last reported loss is at most the last
    reported loss of every trial of the set (an empty set has no best
    trial); and of two trials with last losses 0.5 and 0.3 it returns the
    one with 0.3, in whichever order they were submitted. *)
Theorem get_best_trial_min_loss :
  (forall trials,
      match get_best_trial trials Loss Min with
      | Some b => b ∈ trials /\
                  forall t, t ∈ trials -> (last_loss b <= last_loss t)%Q
      | None => trials = []
      end) /\
  (forall a b,
      (last_loss a == 1 # 2)%Q -> (last_loss b == 3 # 10)%Q ->
      get_best_trial [a; b] Loss Min = Some b /\
      get_best_trial [b; a] Loss Min = Some b).
Proof.
  split.
  - intros [|t trials]; cbn; [done |].
    destruct (best_from_spec t trials) as (Hin & Hbest & Hall).
    split; [done |].
    intros t' Ht'. apply elem_of_cons in Ht' as [Ht' | Ht'].
    + by rewrite Ht'.
    + by apply Hall.
  - intros a b Ha Hb. unfold get_best_trial.
    rewrite !best_from_cons. cbn [best_from].
    assert (Hab : Qle_bool (last_loss a) (last_loss b) = false).
    { apply not_true_is_false. intros Hle%Qle_bool_iff.
      rewrite Ha, Hb in Hle. revert Hle. unfold Qle. cbn. lia. }
    assert (Hba : Qle_bool (last_loss b) (last_loss a) = true).
    { apply Qle_bool_iff. rewrite Ha, Hb. unfold Qle. cbn. lia. }
    rewrite Hab, Hba. cbn. done.
Qed.

End Selector.

(** ** Reasoning about runs *)

Section Runs.
Context `{NumpyRandom} `{Torch} `{Tune}.

Lemma bind_run {A B} (m : M A) (f : A -> M B) (s : State) :
  (m ≫= f) s = match m s with
               | (Ok a, s') => f a s'
               | (Raise e, s') => (Raise e, s')
               | (Stopped, s') => (Stopped, s')
               end.
Proof. reflexivity. Qed.

Lemma bind_ok {A B} (m : M A) (f : A -> M B) (s s' : State) (a : A) :
  m s = (Ok a, s') -> (m ≫= f) s = f a s'.
Proof. intros Hm. by rewrite bind_run, Hm. Qed.

Lemma bind_raise {A B} (m : M A) (f : A -> M B) (s s' : State) (e : Exn) :
  m s = (Raise e, s') -> (m ≫= f) s = (Raise e, s').
Proof. intros Hm. by rewrite bind_run, Hm. Qed.

Lemma bind_stopped {A B} (m : M A) (f : A -> M B) (s s' : State) :
  m s = (Stopped, s') -> (m ≫= f) s = (Stopped, s').
Proof. intros Hm. by rewrite bind_run, Hm. Qed.

(** An action leaves a component of the state as it found it, however
    it ends. *)
Definition preserves {A X} (proj : State -> X) (m : M A) : Prop :=
  forall s, proj (m s).2 = proj s.

Lemma preserves_ret {A X} (proj : State -> X) (a : A) :
  preserves proj (mret a).
Proof. by intros s. Qed.

Lemma preserves_raise {A X} (proj : State -> X) (e : Exn) :
  preserves proj (raise (A := A) e).
Proof. by intros s. Qed.

Lemma preserves_get {A X} (proj : State -> X) (f : State -> A) :
  preserves proj (get f).
Proof. by intros s. Qed.

Lemma preserves_bind {A B X} (proj : State -> X) (m : M A) (f : A -> M B) :
  preserves proj m -> (forall a, preserves proj (f a)) ->
  preserves proj (m ≫= f).
Proof.
  intros Hm Hf s. rewrite bind_run. specialize (Hm s).
  destruct (m s) as [[a | e |] s']; cbn [snd] in *; [| done | done].
  by rewrite Hf.
Qed.

Lemma preserves_for_each {A B X} (proj : State -> X) (xs : list A)
    (body : B -> A -> M B) :
  (forall acc x, preserves proj (body acc x)) ->
  forall acc, preserves proj (for_each xs acc body).
Proof.
  intros Hbody. induction xs as [|x xs IH]; intros acc; cbn [for_each].
  - apply preserves_ret.
  - apply preserves_bind; auto.
Qed.

Lemma preserves_no_grad {A X} (proj : State -> X) (body : M A) :
  (forall b s, proj (set_grad_enabled b s) = proj s) ->
  preserves proj body -> preserves proj (no_grad body).
Proof.
  intros Hproj Hbody s. unfold no_grad.
  specialize (Hbody (set_grad_enabled false s)).
  destruct (body (set_grad_enabled false s)) as [r s']. cbn [snd] in *.
  by rewrite Hproj, Hbody, Hproj.
Qed.

Lemma preserves_truediv {X} (proj : State -> X) (a b : Q) :
  preserves proj (truediv a b).
Proof. intros s. unfold truediv. by destruct (Qeq_bool b 0). Qed.

Lemma preserves_call_module {X} (proj : State -> X) inputs :
  preserves proj (call_module inputs).
Proof. by intros s. Qed.

Lemma preserves_new_DataLoader {X} (proj : State -> X) d b sh :
  preserves proj (new_DataLoader d b sh).
Proof. intros s. unfold new_DataLoader. by case_decide. Qed.

(** A loop whose body neither fails nor touches the state is a left
    fold. *)
Lemma for_each_pure {A B} (g : B -> A -> B) (body : B -> A -> M B)
    (s : State) (xs : list A) :
  (forall acc x, body acc x s = (Ok (g acc x), s)) ->
  forall acc, for_each xs acc body s = (Ok (fold_left g xs acc), s).
Proof.
  intros Hbody. induction xs as [|x xs IH]; intros acc; cbn [for_each fold_left].
  - reflexivity.
  - erewrite bind_ok by apply Hbody. apply IH.
Qed.

Lemma set_grad_enabled_restore (s : State) (b : bool) :
  set_grad_enabled (grad_enabled s) (set_grad_enabled b s) = s.
Proof. by destruct s. Qed.

(** Inside [no_grad] a body that leaves the state alone leaves it alone
    outside too. *)
Lemma no_grad_pure {A} (body : M A) (s : State) (a : A) :
  body (set_grad_enabled false s) = (Ok a, set_grad_enabled false s) ->
  no_grad body s = (Ok a, s).
Proof.
  intros Hbody. unfold no_grad. rewrite Hbody.
  by rewrite set_grad_enabled_restore.
Qed.

End Runs.

(** ** Resuming from a checkpoint *)

Section Resume.
Context `{NumpyRandom} `{Torch} `{Tune}.

(** C7. When [train_cifar] is given a checkpoint directory and the file
    [checkpoint] in it is missing or cannot be unpickled, the call ends
    in the exception of [torch.load] ([FileNotFoundError], resp.
    [UnpicklingError]) and nothing has happened by then: no optimizer
    step, no checkpoint, no report, no output, no file written. *)
Theorem resume_without_checkpoint_fails (config : Configuration)
    (dir data_dir : string) (s : State) :
  truthy (Some dir) = true ->
  fs s !! os_path_join dir "checkpoint" = None \/
  fs s !! os_path_join dir "checkpoint" = Some Garbage ->
  let r := train_cifar config (Some dir) data_dir s in
  (fs s !! os_path_join dir "checkpoint" = None ->
   r.1 = Raise FileNotFoundError) /\
  (fs s !! os_path_join dir "checkpoint" = Some Garbage ->
   r.1 = Raise UnpicklingError) /\
  trace r.2 = trace s /\
  fs r.2 = fs s.
Proof.
  intros Htruthy Hfile. cbv zeta. unfold train_cifar. rewrite Htruthy.
  cbn [default from_option id].
  destruct (init_params [l1 config; l2 config] (torch_rng s)) as [w g] eqn:Hinit.
  erewrite bind_ok; [| unfold new_module; rewrite Hinit; reflexivity].
  erewrite bind_ok; [| reflexivity].
  match goal with
  | |- context [(_ ≫= _) ?s'] => set (s2 := s')
  end.
  assert (Hfs : fs s2 = fs s) by reflexivity.
  assert (Htrace : trace s2 = trace s) by reflexivity.
  clearbody s2.
  assert (Hload : forall e,
    match fs s !! os_path_join dir "checkpoint" with
    | None => e = FileNotFoundError
    | Some Garbage => e = UnpicklingError
    | Some (Pickled _ _) => False
    end ->
    torch_load (os_path_join dir "checkpoint") s2 = (Raise e, s2)).
  { intros e He. unfold torch_load. rewrite Hfs.
    destruct (fs s !! os_path_join dir "checkpoint") as [[]|];
      [done | by subst e | by subst e]. }
  destruct Hfile as [Hfile | Hfile]; rewrite Hfile in Hload.
  - erewrite bind_raise;
      [| erewrite bind_raise; [reflexivity | by apply Hload]].
    cbn [fst snd]. repeat split; auto. intros; congruence.
  - erewrite bind_raise;
      [| erewrite bind_raise; [reflexivity | by apply Hload]].
    cbn [fst snd]. repeat split; auto. intros; congruence.
Qed.

End Resume.

(** ** The train/validation split *)

Section SplitPoint.

(** [int(n * 0.8)] on binary64 is the exact floor of 4n/5 for every length
    below 2^50. The proof follows [SpecFloat]'s multiplication: [float(n)]
    is exact, the product of the two 53-bit mantissas has 105 or 106 bits,
    rounding it to 53 bits moves it by less than one unit of the last
    place, and the literal 0.8 exceeds 4/5 by 2^-52/5 only. *)

Lemma digits2_size p : digits2_pos p = Pos.size p.
Proof. induction p; cbn; congruence. Qed.

Lemma digits_bounds p :
  2 ^ (Zpos (digits2_pos p) - 1) <= Zpos p < 2 ^ Zpos (digits2_pos p).
Proof.
  rewrite digits2_size.
  pose proof (Pos.size_gt p) as Hgt. pose proof (Pos.size_le p) as Hle.
  apply Pos2Z.pos_lt_pos in Hgt. apply Pos2Z.pos_le_pos in Hle.
  rewrite Pos2Z.inj_pow in Hgt, Hle.
  change (Zpos 2) with 2 in *.
  assert (2 ^ Zpos (Pos.size p) = 2 * 2 ^ (Zpos (Pos.size p) - 1)).
  { rewrite <- Z.pow_succ_r by lia. f_equal. lia. }
  lia.
Qed.

Lemma digits_unique p j :
  2 ^ (j - 1) <= Zpos p < 2 ^ j -> Zpos (digits2_pos p) = j.
Proof.
  intros [Hlo Hhi]. pose proof (digits_bounds p) as [Hlo' Hhi'].
  assert (0 < j).
  { destruct (Z_lt_le_dec 0 j); [done |].
    assert (2 ^ j <= 1).
    { destruct (Z.eq_dec j 0) as [-> | ?]; [cbn; lia |].
      rewrite Z.pow_neg_r by lia. lia. }
    lia. }
  assert (~ Zpos (digits2_pos p) < j).
  { intros Hlt.
    assert (2 ^ Zpos (digits2_pos p) <= 2 ^ (j - 1))
      by (apply Z.pow_le_mono_r; lia).
    lia. }
  assert (~ j < Zpos (digits2_pos p)).
  { intros Hlt.
    assert (2 ^ j <= 2 ^ (Zpos (digits2_pos p) - 1))
      by (apply Z.pow_le_mono_r; lia).
    lia. }
  lia.
Qed.

Lemma iter_pos_nat {A} (f : A -> A) p : forall x,
  SpecFloat.iter_pos f p x = Nat.iter (Pos.to_nat p) f x.
Proof.
  induction p as [p IH | p IH |]; intros x; cbn [SpecFloat.iter_pos].
  - rewrite !IH, Pos2Nat.inj_xI.
    replace (S (2 * Pos.to_nat p)) with (Pos.to_nat p + (Pos.to_nat p + 1))%nat by lia.
    rewrite !Nat.iter_add. reflexivity.
  - rewrite !IH, Pos2Nat.inj_xO.
    replace (2 * Pos.to_nat p)%nat with (Pos.to_nat p + Pos.to_nat p)%nat by lia.
    rewrite Nat.iter_add. reflexivity.
  - reflexivity.
Qed.

Lemma shr_m_shr_1 mrs : 0 <= shr_m mrs -> shr_m (shr_1 mrs) = shr_m mrs / 2.
Proof.
  destruct mrs as [m r s]. cbn [shr_m]. intros Hm.
  rewrite <- Z.div2_div. destruct m as [|[p|p|]|p]; try reflexivity; lia.
Qed.

Lemma shr_m_iter n : forall mrs,
  0 <= shr_m mrs ->
  shr_m (Nat.iter n shr_1 mrs) = shr_m mrs / 2 ^ Z.of_nat n.
Proof.
  induction n as [|n IH]; intros mrs Hm.
  - cbn. by rewrite Z.div_1_r.
  - rewrite Nat2Z.inj_succ, Z.pow_succ_r by lia.
    change (Nat.iter (S n) shr_1 mrs) with (shr_1 (Nat.iter n shr_1 mrs)).
    rewrite shr_m_shr_1.
    + rewrite IH by done. rewrite Z.div_div by lia. f_equal. lia.
    + rewrite IH by done. apply Z.div_pos; lia.
Qed.

Lemma rne_bounds m l : m <= round_nearest_even m l <= m + 1.
Proof.
  destruct l as [|[]]; cbn [round_nearest_even]; try lia.
  destruct (Z.even m); lia.
Qed.

Lemma fexp_normal e : -1021 <= e -> fexp 53 1024 e = e - 53.
Proof. unfold fexp, emin. lia. Qed.

Lemma shr_fexp_exact mx ex :
  Zpos (digits2_pos mx) = 53 -> -1074 <= ex ->
  shr_fexp 53 1024 (Zpos mx) ex loc_Exact
  = ({| shr_m := Zpos mx; shr_r := false; shr_s := false |}, ex).
Proof.
  intros Hd Hex. unfold shr_fexp, Zdigits2. rewrite Hd, fexp_normal by lia.
  replace (53 + ex - 53 - ex) with 0 by lia. reflexivity.
Qed.

Lemma binary_round_aux_exact mx ex :
  Zpos (digits2_pos mx) = 53 -> -1074 <= ex <= 971 ->
  binary_round_aux 53 1024 false (Zpos mx) ex loc_Exact
  = S754_finite false mx ex.
Proof.
  intros Hd Hex. unfold binary_round_aux.
  rewrite shr_fexp_exact by lia.
  cbn [shr_m loc_of_shr_record round_nearest_even].
  rewrite shr_fexp_exact by lia. cbn [shr_m].
  destruct (Z.leb_spec ex (1024 - 53)); [reflexivity | lia].
Qed.

Lemma binary_round_aux_round mx ex k :
  Zpos (digits2_pos mx) = 53 + Zpos k ->
  -1074 <= ex + Zpos k -> ex + Zpos k + 1 <= 971 ->
  exists m e,
    binary_round_aux 53 1024 false (Zpos mx) ex loc_Exact
    = S754_finite false m e /\
    ex + Zpos k <= e <= ex + Zpos k + 1 /\
    Zpos mx / 2 ^ Zpos k <= Zpos m * 2 ^ (e - (ex + Zpos k))
                         <= Zpos mx / 2 ^ Zpos k + 1.
Proof.
  intros Hd Hlo Hhi. unfold binary_round_aux.
  assert (Hshift : shr_fexp 53 1024 (Zpos mx) ex loc_Exact
                   = (SpecFloat.iter_pos shr_1 k
                        {| shr_m := Zpos mx; shr_r := false; shr_s := false |},
                      ex + Zpos k)).
  { unfold shr_fexp, Zdigits2. rewrite Hd, fexp_normal by lia.
    replace (53 + Zpos k + ex - 53 - ex) with (Zpos k) by lia. reflexivity. }
  rewrite Hshift. clear Hshift.
  set (mrs := SpecFloat.iter_pos shr_1 k _).
  assert (Hq : shr_m mrs = Zpos mx / 2 ^ Zpos k).
  { subst mrs. rewrite iter_pos_nat, shr_m_iter by (cbn; lia).
    by rewrite positive_nat_Z. }
  pose proof (digits_bounds mx) as [Hmlo Hmhi]. rewrite Hd in Hmlo, Hmhi.
  assert (Hpow : 0 < 2 ^ Zpos k) by (apply Z.pow_pos_nonneg; lia).
  assert (Hqlo : 2 ^ 52 <= Zpos mx / 2 ^ Zpos k).
  { apply Z.div_le_lower_bound; [done |].
    rewrite <- Z.pow_add_r by lia.
    replace (Zpos k + 52) with (53 + Zpos k - 1) by lia. done. }
  assert (Hqhi : Zpos mx / 2 ^ Zpos k < 2 ^ 53).
  { apply Z.div_lt_upper_bound; [done |].
    rewrite <- Z.pow_add_r by lia.
    replace (Zpos k + 53) with (53 + Zpos k) by lia. done. }
  pose proof (rne_bounds (shr_m mrs) (loc_of_shr_record mrs)) as Hrne.
  set (q' := round_nearest_even (shr_m mrs) (loc_of_shr_record mrs)) in *.
  rewrite Hq in Hrne.
  set (q := Zpos mx / 2 ^ Zpos k) in *.
  clearbody q'. clear Hq. clearbody mrs.
  change (2 ^ 52) with 4503599627370496 in Hqlo.
  change (2 ^ 53) with 9007199254740992 in Hqhi.
  destruct q' as [|m|m]; [lia | | lia].
  destruct (Z_lt_le_dec (Zpos m) 9007199254740992) as [Hlt | Hge].
  - rewrite shr_fexp_exact;
      [| apply digits_unique;
         change (2 ^ (53 - 1)) with 4503599627370496;
         change (2 ^ 53) with 9007199254740992; lia | lia].
    cbn [shr_m].
    destruct (Z.leb_spec (ex + Zpos k) (1024 - 53)); [| lia].
    exists m, (ex + Zpos k). split; [reflexivity |]. split; [lia |].
    rewrite Z.sub_diag. cbn [Z.pow]. lia.
  - assert (Hm : m = 9007199254740992%positive).
    { apply Pos2Z.inj. lia. }
    subst m.
    assert (Hshift : shr_fexp 53 1024 (Zpos 9007199254740992) (ex + Zpos k)
                       loc_Exact
                     = ({| shr_m := Zpos 4503599627370496; shr_r := false;
                           shr_s := false |}, ex + Zpos k + 1)).
    { unfold shr_fexp.
      change (Zdigits2 (Zpos 9007199254740992)) with 54.
      rewrite fexp_normal by lia.
      replace (54 + (ex + Zpos k) - 53 - (ex + Zpos k)) with 1 by lia.
      reflexivity. }
    rewrite Hshift. cbn [shr_m].
    destruct (Z.leb_spec (ex + Zpos k + 1) (1024 - 53)); [| lia].
    exists 4503599627370496%positive, (ex + Zpos k + 1).
    split; [reflexivity |]. split; [lia |].
    replace (ex + Zpos k + 1 - (ex + Zpos k)) with 1 by lia.
    change (Zpos 4503599627370496 * 2 ^ 1) with 9007199254740992. lia.
Qed.


Lemma iter_xO p s : Zpos (Pos.iter xO p s) = Zpos p * 2 ^ Zpos s.
Proof.
  induction s as [|s IH] using Pos.peano_ind.
  - cbn. lia.
  - rewrite Pos.iter_succ, Pos2Z.inj_xO, IH, Pos2Z.inj_succ, Z.pow_succ_r by lia.
    lia.
Qed.

Lemma of_int_pos p :
  Zpos p < 2 ^ 53 ->
  exists mz,
    Float64.of_int (Zpos p) = S754_finite false mz (Zpos (digits2_pos p) - 53) /\
    Zpos mz = Zpos p * 2 ^ (53 - Zpos (digits2_pos p)) /\
    Zpos (digits2_pos mz) = 53.
Proof.
  intros Hp. pose proof (digits_bounds p) as [Hlo Hhi].
  set (d := Zpos (digits2_pos p)) in *.
  assert (Hd : 1 <= d <= 53).
  { split; [subst d; lia |].
    destruct (Z_le_gt_dec d 53); [done |].
    assert (2 ^ 53 <= 2 ^ (d - 1)) by (apply Z.pow_le_mono_r; lia). lia. }
  unfold Float64.of_int, binary_normalize, binary_round.
  fold d. rewrite Z.add_0_r, fexp_normal by lia.
  unfold shl_align. rewrite Z.sub_0_r.
  destruct (d - 53) as [|s|s] eqn:Hs; [| lia |].
  - assert (Hd53 : d = 53) by lia.
    rewrite binary_round_aux_exact by (fold d; lia).
    exists p. rewrite Hd53. cbn [Z.sub Z.pow]. split; [done |].
    split; [lia | by fold d].
  - assert (Hval : Zpos (Pos.iter xO p s) = Zpos p * 2 ^ (53 - d)).
    { rewrite iter_xO. f_equal. f_equal. lia. }
    assert (Hdig : Zpos (digits2_pos (Pos.iter xO p s)) = 53).
    { apply digits_unique. rewrite Hval.
      assert (Hsplit : forall j, 53 - d <= j ->
                2 ^ j = 2 ^ (j - (53 - d)) * 2 ^ (53 - d)).
      { intros j Hj. rewrite <- Z.pow_add_r by lia. f_equal. lia. }
      assert (0 < 2 ^ (53 - d)) by (apply Z.pow_pos_nonneg; lia).
      rewrite (Hsplit (53 - 1)), (Hsplit 53) by lia.
      replace (53 - 1 - (53 - d)) with (d - 1) by lia.
      replace (53 - (53 - d)) with d by lia.
      split.
      - apply Z.mul_le_mono_nonneg_r; lia.
      - apply Z.mul_lt_mono_pos_r; lia. }
    rewrite binary_round_aux_exact by lia.
    exists (Pos.iter xO p s). by rewrite <- Hs.
Qed.

Lemma floor_core (n S K T q q' : Z) :
  0 <= n < 2 ^ 50 -> 0 < S -> 0 < K -> 8 <= T ->
  K * T = S * 2 ^ 53 ->
  q = n * S * 7205759403792794 / K ->
  q <= q' <= q + 1 ->
  q' / T = 4 * n / 5.
Proof.
  change (2 ^ 50) with 1125899906842624.
  change (2 ^ 53) with 9007199254740992.
  intros Hn HS HK HT HKT Hq Hq'.
  set (a := 4 * n / 5).
  assert (Ha : 5 * a <= 4 * n < 5 * a + 5).
  { subst a. pose proof (Z.div_mod (4 * n) 5 ltac:(lia)).
    pose proof (Z.mod_pos_bound (4 * n) 5 ltac:(lia)). lia. }
  clearbody a.
  assert (Hlow : a * T <= q).
  { subst q. apply Z.div_le_lower_bound; [done |].
    replace (K * (a * T)) with (S * (a * 9007199254740992)) by lia.
    replace (n * S * 7205759403792794) with (S * (n * 7205759403792794)) by lia.
    apply Z.mul_le_mono_nonneg_l; lia. }
  assert (Hup : q + 1 < (a + 1) * T).
  { assert (HKle : K <= S * 1125899906842624) by nia.
    assert (q < (a + 1) * T - 1); [| lia].
    subst q. apply Z.div_lt_upper_bound; [done |].
    replace (K * ((a + 1) * T - 1))
      with (S * ((a + 1) * 9007199254740992) - K) by lia.
    assert (S * (n * 7205759403792794 + 1125899906842624)
            < S * ((a + 1) * 9007199254740992))
      by (apply Z.mul_lt_mono_pos_l; lia).
    lia. }
  apply Z.le_antisymm.
  - assert (q' / T < a + 1); [| lia].
    apply Z.div_lt_upper_bound; lia.
  - apply Z.div_le_lower_bound; lia.
Qed.

Lemma split_point_floor (n : Z) :
  0 <= n < 2 ^ 50 ->
  Float64.to_int (Float64.mul (Float64.of_int n) Float64.lit_0_8)
  = Some (4 * n / 5).
Proof.
  intros [Hn0 Hn]. destruct n as [|p|p]; [reflexivity | | lia].
  assert (Hp53 : Zpos p < 2 ^ 53).
  { change (2 ^ 50) with 1125899906842624 in Hn.
    change (2 ^ 53) with 9007199254740992. lia. }
  destruct (of_int_pos p Hp53) as (mz & Hof & Hmz & Hdz).
  pose proof (digits_bounds p) as [Hplo Hphi].
  set (d := Zpos (digits2_pos p)) in *.
  assert (Hd : 1 <= d <= 50).
  { split; [subst d; lia |].
    destruct (Z_le_gt_dec d 50); [done |].
    assert (2 ^ 50 <= 2 ^ (d - 1)) by (apply Z.pow_le_mono_r; lia). lia. }
  rewrite Hof. unfold Float64.mul, Float64.lit_0_8, Float64.prec, Float64.emax.
  cbn [SFmul xorb].
  pose proof (digits_bounds mz) as [Hzlo Hzhi]. rewrite Hdz in Hzlo, Hzhi.
  change (2 ^ (53 - 1)) with 4503599627370496 in Hzlo.
  change (2 ^ 53) with 9007199254740992 in Hzhi.
  set (P := (mz * 7205759403792794)%positive).
  assert (HP : Zpos P = Zpos mz * 7205759403792794) by (subst P; lia).
  pose proof (digits_bounds P) as [HPlo HPhi].
  assert (HD : Zpos (digits2_pos P) = 53 + 52 \/ Zpos (digits2_pos P) = 53 + 53).
  { set (D := Zpos (digits2_pos P)) in *.
    assert (D <= 106).
    { destruct (Z_le_gt_dec D 106); [done |].
      assert (2 ^ 106 <= 2 ^ (D - 1)) by (apply Z.pow_le_mono_r; lia).
      change (2 ^ 106) with 81129638414606681695789005144064 in *. nia. }
    assert (105 <= D).
    { destruct (Z_le_gt_dec 105 D); [done |].
      assert (2 ^ D <= 2 ^ 104) by (apply Z.pow_le_mono_r; lia).
      change (2 ^ 104) with 20282409603651670423947251286016 in *. nia. }
    lia. }
  assert (Hround : exists (k : positive),
             (Zpos k = 52 \/ Zpos k = 53) /\
             exists m e,
               binary_round_aux 53 1024 false (Zpos P) (d - 53 + -53) loc_Exact
               = S754_finite false m e /\
               d - 53 + -53 + Zpos k <= e <= d - 53 + -53 + Zpos k + 1 /\
               Zpos P / 2 ^ Zpos k
               <= Zpos m * 2 ^ (e - (d - 53 + -53 + Zpos k))
               <= Zpos P / 2 ^ Zpos k + 1).
  { destruct HD as [HD | HD].
    - exists 52%positive. split; [by left |].
      apply binary_round_aux_round; [exact HD | lia | lia].
    - exists 53%positive. split; [by right |].
      apply binary_round_aux_round; [exact HD | lia | lia]. }
  match goal with
  | |- context [binary_round_aux _ _ _ _ ?ex _] =>
      change ex with (d - 53 + -53)
  end.
  destruct Hround as (k & Hk & m & e & -> & He & Hm).
  destruct e as [|e|e]; [lia | lia |].
  cbn [Float64.to_int]. f_equal.
  set (E0 := d - 53 + -53 + Zpos k) in *.
  set (j := Z.neg e - E0) in *.
  assert (Hj : 0 <= j <= 1) by lia.
  assert (Hpow_j : 0 < 2 ^ j) by (apply Z.pow_pos_nonneg; lia).
  rewrite <- (Z.div_mul_cancel_r (Zpos m) (2 ^ Zpos e) (2 ^ j)) by lia.
  rewrite <- Z.pow_add_r by lia.
  apply (floor_core (Zpos p) (2 ^ (53 - d)) (2 ^ Zpos k) _ (Zpos P / 2 ^ Zpos k)).
  - lia.
  - apply Z.pow_pos_nonneg; lia.
  - apply Z.pow_pos_nonneg; lia.
  - change 8 with (2 ^ 3). apply Z.pow_le_mono_r; lia.
  - rewrite <- !Z.pow_add_r by lia. f_equal. lia.
  - f_equal. rewrite HP, Hmz. lia.
  - exact Hm.
Qed.

(** The bound is not an artefact: 0.8 as a binary64 is slightly more than
    4/5, and for a length of 2^52 the product is the integer above the
    exact floor. *)
Example split_point_beyond_exactness :
  Float64.to_int (Float64.mul (Float64.of_int (2 ^ 52)) Float64.lit_0_8)
  = Some (4 * 2 ^ 52 / 5 + 1).
Proof. vm_compute. reflexivity. Qed.

End SplitPoint.

(** ** Datasets and loaders *)

Section Loaders.
Context `{NumpyRandom} `{Torch} `{Tune}.

(** Every index a subset holds is an index of the dataset below it. *)
Fixpoint ds_valid (d : Dataset) : Prop :=
  match d with
  | Stored _ _ => True
  | Subset dataset indices =>
      ds_valid dataset /\ Forall (fun i => (i < ds_len dataset)%nat) indices
  end.

(** The samples of a dataset, in index order. *)
Definition ds_items (d : Dataset) : list Sample :=
  omap (ds_get d) (seq 0 (ds_len d)).

Lemma ds_get_valid (d : Dataset) (i : nat) :
  ds_valid d -> (i < ds_len d)%nat -> is_Some (ds_get d i).
Proof.
  revert i. induction d as [items train | dataset IH indices]; intros i Hv Hi.
  - by apply lookup_lt_is_Some_2.
  - cbn in *. destruct Hv as [Hv Hidx].
    destruct (lookup_lt_is_Some_2 indices i Hi) as [j Hj].
    rewrite Hj. cbn. apply IH; [done |].
    by eapply (Forall_lookup_1 _ _ _ _ Hidx).
Qed.

Lemma mapM_omap {A B} (f : A -> option B) (l : list A) :
  Forall (is_Some ∘ f) l -> mapM f l = Some (omap f l).
Proof.
  induction 1 as [|x l [y Hy] _ IH]; [done |].
  cbn in *. by rewrite Hy, IH.
Qed.

Lemma length_omap_total {A B} (f : A -> option B) (l : list A) :
  Forall (is_Some ∘ f) l -> length (omap f l) = length l.
Proof.
  induction 1 as [|x l [y Hy] _ IH]; [done |].
  cbn in *. rewrite Hy. cbn. by rewrite IH.
Qed.

Lemma ds_valid_all (d : Dataset) :
  ds_valid d -> Forall (is_Some ∘ ds_get d) (seq 0 (ds_len d)).
Proof.
  intros Hv. apply Forall_forall. intros i Hi%elem_of_seq.
  apply ds_get_valid; [done | lia].
Qed.

Lemma length_ds_items (d : Dataset) :
  ds_valid d -> length (ds_items d) = ds_len d.
Proof.
  intros Hv. unfold ds_items.
  rewrite length_omap_total by by apply ds_valid_all.
  apply length_seq.
Qed.

(** Fetching along a permutation of the indices yields the samples of
    the dataset, permuted. *)
Lemma fetch_permuted (d : Dataset) (order : list nat) :
  ds_valid d -> order ≡ₚ seq 0 (ds_len d) ->
  mapM (ds_get d) order = Some (omap (ds_get d) order) /\
  omap (ds_get d) order ≡ₚ ds_items d.
Proof.
  intros Hv Hperm. split.
  - apply mapM_omap. rewrite Hperm. by apply ds_valid_all.
  - unfold ds_items. by rewrite Hperm.
Qed.

Lemma batches_fuel_concat {A} (size : nat) : forall (fuel : nat) (xs : list A),
  (0 < size)%nat -> (length xs <= fuel)%nat ->
  concat (batches_fuel fuel size xs) = xs.
Proof.
  induction fuel as [|fuel IH]; intros xs Hsize Hlen.
  - destruct xs; [done | cbn in Hlen; lia].
  - destruct xs as [|x xs]; [done |].
    cbn [batches_fuel concat].
    rewrite IH; [apply take_drop | done |].
    rewrite length_drop. cbn [length] in *. lia.
Qed.

Lemma batches_concat {A} (size : nat) (xs : list A) :
  (0 < size)%nat -> concat (batches size xs) = xs.
Proof. intros. by apply batches_fuel_concat. Qed.

Lemma batches_fuel_nonempty {A} (size : nat) : forall (fuel : nat) (xs : list A),
  (0 < size)%nat -> Forall (fun b => b ≠ []) (batches_fuel fuel size xs).
Proof.
  induction fuel as [|fuel IH]; intros xs Hsize; [constructor |].
  destruct xs as [|x xs]; [constructor |].
  cbn [batches_fuel]. constructor; [| by apply IH].
  destruct size; [lia | done].
Qed.

Lemma batches_nil {A} (size : nat) (xs : list A) :
  batches size xs = [] -> xs = [].
Proof. unfold batches. by destruct xs. Qed.

(** What iterating a loader over a valid dataset gives: batches whose
    concatenation is the dataset in index order when [shuffle] is off,
    and permuted by the generator's next permutation when it is on. *)
Definition iteration_order (loader : DataLoader) (s : State) : list nat :=
  if dl_shuffle loader
  then (sampler_order (ds_len (dl_dataset loader)) (torch_rng s)).1
  else seq 0 (ds_len (dl_dataset loader)).

Definition after_iteration (loader : DataLoader) (s : State) : State :=
  if dl_shuffle loader
  then set_torch_rng
         (sampler_order (ds_len (dl_dataset loader)) (torch_rng s)).2 s
  else s.

Definition iteration_items (loader : DataLoader) (s : State) : list Sample :=
  omap (ds_get (dl_dataset loader)) (iteration_order loader s).

Lemma iteration_order_perm (loader : DataLoader) (s : State) :
  iteration_order loader s ≡ₚ seq 0 (ds_len (dl_dataset loader)).
Proof.
  unfold iteration_order. destruct (dl_shuffle loader); [| done].
  apply sampler_order_perm.
Qed.

Lemma iteration_items_perm (loader : DataLoader) (s : State) :
  iteration_items loader s ≡ₚ ds_items (dl_dataset loader).
Proof.
  unfold iteration_items, ds_items. by rewrite iteration_order_perm.
Qed.

Lemma iterate_run (loader : DataLoader) (s : State) :
  ds_valid (dl_dataset loader) ->
  iterate loader s
  = (Ok (batches (Z.to_nat (dl_batch_size loader)) (iteration_items loader s)),
     after_iteration loader s).
Proof.
  intros Hv. unfold iterate, iteration_items, after_iteration.
  pose proof (iteration_order_perm loader s) as Hperm.
  unfold iteration_order in *.
  destruct (dl_shuffle loader).
  - rewrite bind_run. unfold random_sampler.
    destruct (sampler_order _ (torch_rng s)) as [order g]. cbn [fst snd] in *.
    destruct (fetch_permuted _ _ Hv Hperm) as [-> _]. done.
  - rewrite bind_run. cbn.
    destruct (fetch_permuted _ _ Hv Hperm) as [-> _]. done.
Qed.

End Loaders.

Section Split.
Context `{NumpyRandom} `{Torch} `{Tune}.

Lemma random_split_two (d : Dataset) (a b : Z) (s : State) :
  0 <= a -> 0 <= b -> a + b = Z.of_nat (ds_len d) ->
  random_split d [a; b] s
  = (Ok [Subset d (take (Z.to_nat a) (randperm (ds_len d) (torch_rng s)).1);
         Subset d (drop (Z.to_nat a) (randperm (ds_len d) (torch_rng s)).1)],
     set_torch_rng (randperm (ds_len d) (torch_rng s)).2 s).
Proof.
  intros Ha Hb Hsum. unfold random_split.
  assert (Hs : sum_Z [a; b] = Z.of_nat (ds_len d)) by (cbn; lia).
  rewrite decide_True by (split; [done | repeat constructor; done]).
  rewrite Hs, Nat2Z.id, bind_run. unfold torch_randperm.
  pose proof (randperm_perm (ds_len d) (torch_rng s)) as Hperm.
  destruct (randperm (ds_len d) (torch_rng s)) as [perm g].
  cbn [fst snd consecutive] in *.
  rewrite (take_ge (drop (Z.to_nat a) perm)); [reflexivity |].
  apply Permutation_length in Hperm.
  rewrite length_drop, Hperm, length_seq. lia.
Qed.

(** The split, run: the cut is at floor(4n/5) of the generator's next
    permutation of the indices. *)
Lemma split_train_val_run (trainset : Dataset) (s : State) :
  Z.of_nat (ds_len trainset) < 2 ^ 50 ->
  let perm := (randperm (ds_len trainset) (torch_rng s)).1 in
  let k := Z.to_nat (4 * Z.of_nat (ds_len trainset) / 5) in
  split_train_val trainset s
  = (Ok (Subset trainset (take k perm), Subset trainset (drop k perm)),
     set_torch_rng (randperm (ds_len trainset) (torch_rng s)).2 s).
Proof.
  intros Hn perm k.
  set (n := Z.of_nat (ds_len trainset)) in *.
  assert (Hk : 0 <= 4 * n / 5 <= n).
  { split; [apply Z.div_pos; lia |].
    apply Z.div_le_upper_bound; lia. }
  unfold split_train_val. fold n.
  erewrite bind_ok; cycle 1.
  { unfold split_point, py_int. rewrite split_point_floor by lia. reflexivity. }
  erewrite bind_ok; [| apply random_split_two; lia].
  reflexivity.
Qed.

(** C3, as the code has it. A training set of [n] samples (fewer than
    2^50, where the float product is still exact enough; CIFAR-10 has
    50000) is cut into a training subset of floor(0.8 n) samples and a
    validation subset of the remaining ones, and the two subsets together
    hold every index exactly once. Which index goes where is read off
    the next permutation of torch's default generator: the split is a
    function of the dataset and of the generator state, not of the
    dataset alone. *)
Theorem split_train_val_sizes (trainset : Dataset) (s : State) :
  Z.of_nat (ds_len trainset) < 2 ^ 50 ->
  exists train_indices val_indices,
    (split_train_val trainset s).1
      = Ok (Subset trainset train_indices, Subset trainset val_indices) /\
    Z.of_nat (length train_indices) = 4 * Z.of_nat (ds_len trainset) / 5 /\
    Z.of_nat (length val_indices)
      = Z.of_nat (ds_len trainset) - 4 * Z.of_nat (ds_len trainset) / 5 /\
    train_indices ++ val_indices = (randperm (ds_len trainset) (torch_rng s)).1 /\
    train_indices ++ val_indices ≡ₚ seq 0 (ds_len trainset).
Proof.
  intros Hn.
  set (n := Z.of_nat (ds_len trainset)) in *.
  assert (Hk : 0 <= 4 * n / 5 <= n).
  { split; [apply Z.div_pos; lia |].
    apply Z.div_le_upper_bound; lia. }
  pose proof (randperm_perm (ds_len trainset) (torch_rng s)) as Hperm.
  pose proof (Permutation_length Hperm) as Hlen. rewrite length_seq in Hlen.
  exists (take (Z.to_nat (4 * n / 5)) (randperm (ds_len trainset) (torch_rng s)).1),
         (drop (Z.to_nat (4 * n / 5)) (randperm (ds_len trainset) (torch_rng s)).1).
  rewrite split_train_val_run by done. fold n.
  rewrite length_take, length_drop, take_drop, Hlen.
  repeat split; [lia | lia | done].
Qed.

End Split.

(** ** What the Tune session sees of a run *)

Section Session.
Context `{NumpyRandom} `{Torch} `{Tune}.

Definition is_tune_event (e : Event) : bool :=
  match e with
  | CheckpointSaved _ _ | Reported _ _ => true
  | OptimizerStep | Printed _ => false
  end.

(** The checkpoints and reports of a run, in order. *)
Definition tune_trace (s : State) : list Event :=
  List.filter is_tune_event (trace s).

(** The part of the state the session owns, with the grad mode. *)
Definition session_view (s : State)
  : list Event * Z * ASHAScheduler * bool :=
  (tune_trace s, session_iteration s, session_scheduler s, grad_enabled s).

Lemma tune_trace_emit (e : Event) (s : State) :
  tune_trace (emit e s)
  = tune_trace s ++ (if is_tune_event e then [e] else []).
Proof.
  unfold tune_trace. destruct s. cbn [trace emit].
  by rewrite List.filter_app.
Qed.

(** An action that does not talk to the session: it is never stopped by
    the scheduler and leaves the session's view alone. *)
Definition quiet {A} (m : M A) : Prop :=
  forall s, (m s).1 ≠ Stopped /\ session_view (m s).2 = session_view s.

Lemma quiet_ret {A} (a : A) : quiet (mret a).
Proof. by intros s. Qed.

Lemma quiet_raise {A} (e : Exn) : quiet (raise (A := A) e).
Proof. by intros s. Qed.

Lemma quiet_bind {A B} (m : M A) (f : A -> M B) :
  quiet m -> (forall a, quiet (f a)) -> quiet (m ≫= f).
Proof.
  intros Hm Hf s. rewrite bind_run. destruct (Hm s) as [Hns Hv].
  destruct (m s) as [[a | e |] s']; cbn [fst snd] in *; [| done | done].
  destruct (Hf a s') as [Hns' Hv']. split; [done | congruence].
Qed.

Lemma quiet_for_each {A B} (xs : list A) (body : B -> A -> M B) :
  (forall acc x, quiet (body acc x)) ->
  forall acc, quiet (for_each xs acc body).
Proof.
  intros Hbody. induction xs as [|x xs IH]; intros acc; cbn [for_each].
  - apply quiet_ret.
  - apply quiet_bind; auto.
Qed.

Lemma quiet_modify (f : State -> State) :
  (forall s, session_view (f s) = session_view s) -> quiet (modify f).
Proof. intros Hf s. by split; [| apply Hf]. Qed.

Lemma quiet_get {A} (f : State -> A) : quiet (get f).
Proof. by intros s. Qed.

Lemma quiet_print (l : Line) : quiet (print l).
Proof.
  apply quiet_modify. intros s. unfold session_view.
  rewrite tune_trace_emit. cbn [is_tune_event]. rewrite app_nil_r.
  by destruct s.
Qed.

Lemma quiet_truediv (a b : Q) : quiet (truediv a b).
Proof.
  unfold truediv. destruct (Qeq_bool b 0);
    [apply quiet_raise | apply quiet_ret].
Qed.

Lemma quiet_zero_grad : quiet zero_grad.
Proof. apply quiet_modify. by intros []. Qed.

Lemma quiet_call_module inputs : quiet (call_module inputs).
Proof. apply quiet_get. Qed.

Lemma quiet_loss_backward batch : quiet (loss_backward batch).
Proof.
  intros s. unfold loss_backward.
  destruct (grad_enabled s) eqn:Hg; cbn [fst snd]; [| done].
  split; [done |]. by destruct s.
Qed.

Lemma quiet_optimizer_step : quiet optimizer_step.
Proof.
  intros s. unfold optimizer_step.
  destruct (sgd_step _ _ _ _ _) as [w b]. cbn [fst snd].
  split; [done |]. unfold session_view.
  rewrite tune_trace_emit. cbn [is_tune_event]. rewrite app_nil_r.
  by destruct s.
Qed.

Lemma quiet_new_module sizes : quiet (new_module sizes).
Proof.
  intros s. unfold new_module.
  destruct (init_params sizes (torch_rng s)) as [w g]. cbn [fst snd].
  split; [done |]. by destruct s.
Qed.

Lemma quiet_new_SGD lr momentum : quiet (new_SGD lr momentum).
Proof. apply quiet_modify. by intros []. Qed.

Lemma quiet_torch_load path : quiet (torch_load path).
Proof.
  intros s. unfold torch_load. by destruct (fs s !! path) as [[]|].
Qed.

Lemma quiet_load_state_dict sd : quiet (load_state_dict sd).
Proof.
  intros s. unfold load_state_dict. case_decide; cbn [fst snd]; [| done].
  split; [done |]. by destruct s.
Qed.

Lemma quiet_optimizer_load_state_dict o : quiet (optimizer_load_state_dict o).
Proof. apply quiet_modify. by intros []. Qed.

Lemma quiet_torch_randperm n : quiet (torch_randperm n).
Proof.
  intros s. unfold torch_randperm.
  destruct (randperm n (torch_rng s)) as [p g]. cbn [fst snd].
  split; [done |]. by destruct s.
Qed.

Lemma quiet_random_sampler n : quiet (random_sampler n).
Proof.
  intros s. unfold random_sampler.
  destruct (sampler_order n (torch_rng s)) as [p g]. cbn [fst snd].
  split; [done |]. by destruct s.
Qed.

Lemma quiet_new_DataLoader d b sh : quiet (new_DataLoader d b sh).
Proof.
  unfold new_DataLoader. case_decide; [apply quiet_raise | apply quiet_ret].
Qed.

Lemma quiet_iterate loader : quiet (iterate loader).
Proof.
  unfold iterate. apply quiet_bind.
  - destruct (dl_shuffle loader); [apply quiet_random_sampler | apply quiet_ret].
  - intros order. destruct (mapM _ order); [apply quiet_ret | apply quiet_raise].
Qed.

Lemma quiet_split_train_val trainset : quiet (split_train_val trainset).
Proof.
  unfold split_train_val. apply quiet_bind.
  - unfold split_point, py_int.
    destruct (Float64.to_int _); [apply quiet_ret | apply quiet_raise].
  - intros test_abs. apply quiet_bind.
    + unfold random_split. case_decide; [| apply quiet_raise].
      apply quiet_bind; [apply quiet_torch_randperm |].
      intros perm. apply quiet_ret.
    + intros [|a [|b [|c l]]];
        try apply quiet_raise. apply quiet_ret.
Qed.

Lemma quiet_train_batch epoch acc item : quiet (train_batch epoch acc item).
Proof.
  unfold train_batch. destruct acc as [running_loss epoch_steps].
  destruct item as [i data].
  apply quiet_bind; [apply quiet_zero_grad | intros _].
  apply quiet_bind; [apply quiet_call_module | intros outputs].
  apply quiet_bind; [apply quiet_loss_backward | intros _].
  apply quiet_bind; [apply quiet_optimizer_step | intros _].
  destruct (_ =? _); [| apply quiet_ret].
  apply quiet_bind; [apply quiet_truediv | intros mean].
  apply quiet_bind; [apply quiet_print | intros _].
  apply quiet_ret.
Qed.

End Session.

(** ** Evaluation passes *)

Section Evaluation.
Context `{NumpyRandom} `{Torch} `{Tune}.

(** The number of samples whose predicted class is their label. *)
Definition correct_count (w : params) (samples : list Sample) : Z :=
  len (filter (fun p : Sample => argmax (forward w p.1) = p.2) samples).

(** The criterion on one batch under parameters [w]. *)
Definition batch_loss (w : params) (batch : list Sample) : Q :=
  cross_entropy (forward w <$> batch.*1) batch.*2.

(** The per-batch losses added up in the order of the batches. *)
Definition sum_losses (w : params) (bs : list (list Sample)) : Q :=
  fold_left Qplus (batch_loss w <$> bs) 0%Q.

Lemma count_equal_correct (w : params) (data : list Sample) :
  count_equal (argmax <$> (forward w <$> data.*1)) data.*2
  = correct_count w data.
Proof.
  unfold count_equal, correct_count, len. f_equal.
  induction data as [|[x y] data IH]; [done |].
  cbn [fmap list_fmap fst snd zip zip_with].
  rewrite !filter_cons. cbn [fst snd].
  destruct (decide (argmax (forward w x) = y)); cbn [length]; by rewrite IH.
Qed.

Lemma correct_count_app (w : params) (a b : list Sample) :
  correct_count w (a ++ b) = correct_count w a + correct_count w b.
Proof. unfold correct_count, len. rewrite filter_app, length_app. lia. Qed.

Lemma correct_count_perm (w : params) (a b : list Sample) :
  a ≡ₚ b -> correct_count w a = correct_count w b.
Proof. intros Hp. unfold correct_count, len. by rewrite Hp. Qed.

Lemma correct_count_bounds (w : params) (a : list Sample) :
  0 <= correct_count w a <= len a.
Proof.
  unfold correct_count, len.
  pose proof (length_filter (fun p : Sample => argmax (forward w p.1) = p.2) a).
  lia.
Qed.

(** One step of the validation loop as a function of its locals. *)
Definition validate_step (w : params) (acc : Q * Z * Z * Z)
    (item : Z * list Sample) : Q * Z * Z * Z :=
  let '(val_loss, val_steps, total, correct) := acc in
  ((val_loss + batch_loss w item.2)%Q, val_steps + 1,
   total + len item.2, correct + correct_count w item.2).

Lemma validate_batch_run acc item (s : State) :
  validate_batch acc item s = (Ok (validate_step (weights (net s)) acc item), s).
Proof.
  destruct acc as [[[val_loss val_steps] total] correct].
  destruct item as [i data]. unfold validate_batch, validate_step.
  apply no_grad_pure. rewrite bind_run. unfold call_module, get.
  cbn [fst snd]. change (net (set_grad_enabled false s)) with (net s).
  rewrite count_equal_correct. unfold len at 1. rewrite length_fmap.
  reflexivity.
Qed.

Lemma fold_validate_step (w : params) (items : list (Z * list Sample)) :
  forall val_loss val_steps total correct,
    fold_left (validate_step w) items (val_loss, val_steps, total, correct)
    = (fold_left Qplus (batch_loss w <$> items.*2) val_loss,
       val_steps + len items,
       total + len (concat items.*2),
       correct + correct_count w (concat items.*2)).
Proof.
  induction items as [|[i data] items IH]; intros val_loss val_steps total correct.
  - cbn. unfold correct_count, len. cbn. by rewrite !Z.add_0_r.
  - cbn [fold_left validate_step fmap list_fmap snd concat].
    rewrite IH. rewrite correct_count_app. unfold len.
    rewrite length_app. cbn [length]. f_equal; [f_equal; [f_equal |] |]; lia.
Qed.

Lemma snd_enumerate {A} (xs : list A) : (enumerate xs).*2 = xs.
Proof.
  unfold enumerate, range. apply snd_zip.
  rewrite length_fmap, length_seq. lia.
Qed.

Lemma length_enumerate {A} (xs : list A) : length (enumerate xs) = length xs.
Proof.
  rewrite <- (snd_enumerate xs) at 2. by rewrite length_fmap.
Qed.

(** The validation pass, run: it returns the summed batch losses, the
    number of batches, the number of samples and the number of correct
    predictions under the parameters it started with, and changes
    nothing but the generator that ordered the batches. *)
Lemma validate_run (valloader : DataLoader) (s : State) :
  ds_valid (dl_dataset valloader) ->
  let val_batches :=
    batches (Z.to_nat (dl_batch_size valloader)) (iteration_items valloader s) in
  validate valloader s
  = (Ok (sum_losses (weights (net s)) val_batches,
         len val_batches,
         len (concat val_batches),
         correct_count (weights (net s)) (concat val_batches)),
     after_iteration valloader s).
Proof.
  intros Hv val_batches. unfold validate.
  erewrite bind_ok by by apply iterate_run.
  fold val_batches.
  assert (Hw : weights (net (after_iteration valloader s)) = weights (net s)).
  { unfold after_iteration. by destruct (dl_shuffle valloader). }
  rewrite (for_each_pure (validate_step (weights (net s))));
    [| intros acc x; by rewrite validate_batch_run, Hw].
  rewrite fold_validate_step, snd_enumerate.
  unfold len at 1. rewrite length_enumerate. reflexivity.
Qed.

Lemma quiet_validate_batch acc item : quiet (validate_batch acc item).
Proof. intros s. by rewrite validate_batch_run. Qed.

Lemma quiet_validate (valloader : DataLoader) : quiet (validate valloader).
Proof.
  unfold validate. apply quiet_bind; [apply quiet_iterate |].
  intros val_batches. apply quiet_for_each. apply quiet_validate_batch.
Qed.

(** The validation pass changes neither the module (parameters,
    gradients, mode) nor the optimizer, on any loader and however it
    ends. *)
Lemma validate_frame (valloader : DataLoader) :
  preserves (fun s => (net s, optimizer s)) (validate valloader).
Proof.
  unfold validate. apply preserves_bind.
  - unfold iterate. apply preserves_bind.
    + destruct (dl_shuffle valloader); [| apply preserves_ret].
      intros s. unfold random_sampler.
      destruct (sampler_order _ _) as [p g]. by destruct s.
    + intros order. destruct (mapM _ order);
        [apply preserves_ret | apply preserves_raise].
  - intros val_batches. apply preserves_for_each.
    intros acc item s. by rewrite validate_batch_run.
Qed.

Lemma accuracy_fraction (correct total : Z) :
  0 <= correct <= total -> 0 < total ->
  (0 <= inject_Z correct / inject_Z total)%Q /\
  (inject_Z correct / inject_Z total <= 1)%Q.
Proof.
  intros Hc Ht.
  assert (Hpos : (0 < inject_Z total)%Q).
  { change 0%Q with (inject_Z 0). by rewrite <- Zlt_Qlt. }
  split.
  - apply Qle_shift_div_l; [done |]. rewrite Qmult_0_l.
    change 0%Q with (inject_Z 0). rewrite <- Zle_Qle. lia.
  - apply Qle_shift_div_r; [done |]. rewrite Qmult_1_l.
    rewrite <- Zle_Qle. lia.
Qed.

Lemma truediv_ok (a : Q) (b : Z) (s : State) :
  b ≠ 0 -> truediv a (inject_Z b) s = (Ok (a / inject_Z b)%Q, s).
Proof.
  intros Hb. unfold truediv.
  destruct (Qeq_bool (inject_Z b) 0) eqn:Hz; [| done].
  apply Qeq_bool_iff in Hz. unfold Qeq in Hz. cbn in Hz. lia.
Qed.

End Evaluation.

(** ** [test_accuracy] and [check_accuracy] *)

Section Accuracy.
Context `{NumpyRandom} `{Torch} `{Tune}.

Lemma omap_lookup_seq {A} (l : list A) :
  omap (fun i => l !! i) (seq 0 (length l)) = l.
Proof.
  induction l as [|x l IH] using rev_ind; [done |].
  rewrite length_app. cbn [length]. rewrite Nat.add_1_r, seq_S, omap_app.
  cbn [omap list_omap]. rewrite Nat.add_0_l.
  rewrite lookup_app_r, Nat.sub_diag by lia. cbn. f_equal.
  rewrite <- IH at 2. apply list_omap_ext, Forall_Forall2_diag.
  apply Forall_forall. intros i Hi%elem_of_seq.
  apply lookup_app_l. lia.
Qed.

Lemma ds_items_stored (items : list Sample) (train : bool) :
  ds_items (Stored items train) = items.
Proof. apply omap_lookup_seq. Qed.

(** One step of either counting loop as a function of its locals. *)
Definition count_step (w : params) (acc : Z * Z) (data : list Sample)
  : Z * Z :=
  (acc.1 + correct_count w data, acc.2 + len data).

Lemma fold_count_step (w : params) (bs : list (list Sample)) :
  forall correct total,
    fold_left (count_step w) bs (correct, total)
    = (correct + correct_count w (concat bs), total + len (concat bs)).
Proof.
  induction bs as [|b bs IH]; intros correct total.
  - cbn. unfold correct_count, len. cbn. by rewrite !Z.add_0_r.
  - change (fold_left (count_step w) (b :: bs) (correct, total))
      with (fold_left (count_step w) bs
              (correct + correct_count w b, total + len b)).
    rewrite IH. cbn [concat].
    rewrite correct_count_app. unfold len. rewrite length_app.
    f_equal; lia.
Qed.

Lemma test_batch_run acc data (s : State) :
  test_batch acc data s = (Ok (count_step (weights (net s)) acc data), s).
Proof.
  destruct acc as [correct total]. unfold test_batch, count_step.
  rewrite bind_run. unfold call_module, get. cbn [fst snd].
  rewrite count_equal_correct. unfold len at 1. by rewrite length_fmap.
Qed.

Lemma check_batch_run acc data (s : State) :
  check_batch acc data s = (Ok (count_step (weights (net s)) acc data), s).
Proof.
  destruct acc as [num_correct num_samples]. unfold check_batch, count_step.
  rewrite bind_run. unfold call_module, get. cbn [fst snd].
  rewrite count_equal_correct. unfold len at 1. by rewrite !length_fmap.
Qed.

(** The loader [test_accuracy] builds. *)
Definition testloader : DataLoader :=
  {| dl_dataset := Stored (cifar10 false) false;
     dl_batch_size := 4; dl_shuffle := false |}.

Lemma iterate_testloader (s : State) :
  iterate testloader s = (Ok (batches 4 (cifar10 false)), s).
Proof.
  rewrite iterate_run by done. unfold after_iteration, iteration_items,
    iteration_order. cbn [testloader dl_shuffle dl_dataset dl_batch_size].
  change (omap _ _) with (ds_items (Stored (cifar10 false) false)).
  by rewrite ds_items_stored.
Qed.

Lemma test_accuracy_run (s : State) :
  test_accuracy s
  = truediv (inject_Z (correct_count (weights (net s)) (cifar10 false)))
            (inject_Z (len (cifar10 false))) s.
Proof.
  unfold test_accuracy.
  erewrite bind_ok by reflexivity. cbv beta iota.
  erewrite (bind_ok _ _ s s testloader) by reflexivity.
  erewrite bind_ok; cycle 1.
  { apply no_grad_pure. erewrite bind_ok by apply iterate_testloader.
    rewrite (for_each_pure (count_step (weights (net s))));
      [reflexivity | intros acc x; by rewrite test_batch_run]. }
  rewrite fold_count_step, batches_concat by lia. reflexivity.
Qed.

(** C9. [test_accuracy] leaves the whole state as it found it, so the
    module it evaluates has the same parameters, gradients and mode
    afterwards; its loader yields the test set in index order, in batches
    of four, whatever the generator state; and on a non-empty test set the
    value returned is the number of correctly predicted test samples
    divided by the number of test samples, a fraction between 0 and 1. *)
Theorem test_accuracy_reads_only (s : State) :
  (test_accuracy s).2 = s /\
  (iterate testloader s = (Ok (batches 4 (cifar10 false)), s) /\
   concat (batches 4 (cifar10 false)) = cifar10 false) /\
  (cifar10 false ≠ [] ->
   (test_accuracy s).1
     = Ok (inject_Z (correct_count (weights (net s)) (cifar10 false))
           / inject_Z (len (cifar10 false)))%Q /\
   (0 <= inject_Z (correct_count (weights (net s)) (cifar10 false))
         / inject_Z (len (cifar10 false)))%Q /\
   (inject_Z (correct_count (weights (net s)) (cifar10 false))
    / inject_Z (len (cifar10 false)) <= 1)%Q).
Proof.
  rewrite test_accuracy_run. split; [| split].
  - apply (preserves_truediv id).
  - split; [apply iterate_testloader | apply batches_concat; lia].
  - intros Hne.
    assert (Hpos : 0 < len (cifar10 false)).
    { unfold len. destruct (cifar10 false); [done | cbn; lia]. }
    rewrite truediv_ok by lia. split; [done |].
    apply accuracy_fraction; [apply correct_count_bounds | done].
Qed.

(** The state [check_accuracy] ends in when the loader yields samples. *)
Lemma check_accuracy_run (loader : DataLoader) (train : bool) (s : State) :
  ds_train (dl_dataset loader) = Some train ->
  0 < dl_batch_size loader ->
  (0 < ds_len (dl_dataset loader))%nat ->
  let w := weights (net s) in
  let samples := ds_items (dl_dataset loader) in
  let r := check_accuracy loader s in
  r.1 = Ok tt /\
  training (net r.2) = true /\
  weights (net r.2) = w /\
  grad (net r.2) = grad (net s) /\
  optimizer r.2 = optimizer s /\
  trace r.2
  = trace s
      ++ [Printed (if train then CheckingTraining else CheckingTest);
          Printed (GotAccuracy (correct_count w samples) (len samples)
                     (inject_Z (correct_count w samples)
                      / inject_Z (len samples) * 100)%Q)].
Proof.
  intros Htrain Hbs Hlen w samples. cbv zeta. unfold check_accuracy.
  assert (Hv : ds_valid (dl_dataset loader)).
  { by destruct (dl_dataset loader). }
  rewrite Htrain.
  set (line := if train then CheckingTraining else CheckingTest).
  erewrite (bind_ok _ _ s (emit (Printed line) s) tt);
    [| subst line; by destruct train].
  erewrite bind_ok by reflexivity.
  match goal with
  | |- context [(no_grad _ ≫= _) ?st] => set (s1 := st)
  end.
  assert (Hw1 : weights (net s1) = w) by reflexivity.
  set (s2 := set_grad_enabled false s1).
  pose proof (iteration_items_perm loader s2) as Hperm.
  set (items := iteration_items loader s2) in *.
  assert (Hcount : correct_count w (concat (batches (Z.to_nat (dl_batch_size loader)) items))
                   = correct_count w samples).
  { rewrite batches_concat by lia. by apply correct_count_perm. }
  assert (Hsize : len (concat (batches (Z.to_nat (dl_batch_size loader)) items))
                   = len samples).
  { rewrite batches_concat by lia. unfold len. by rewrite Hperm. }
  assert (Hpos : 0 < len samples).
  { unfold len, samples. rewrite length_ds_items by done. lia. }
  erewrite bind_ok; cycle 1.
  { unfold no_grad. fold s2.
    erewrite bind_ok by by apply iterate_run.
    erewrite bind_ok; cycle 1.
    { apply (for_each_pure (count_step w)).
      intros acc x. rewrite check_batch_run. do 2 f_equal.
      unfold after_iteration. by destruct (dl_shuffle loader). }
    rewrite fold_count_step, !Z.add_0_l.
    fold items. rewrite Hcount, Hsize.
    erewrite bind_ok by (apply truediv_ok; lia).
    reflexivity. }
  unfold model_train, set_training, modify. cbn [fst snd].
  unfold after_iteration. subst s2 s1.
  destruct (dl_shuffle loader); destruct s; cbn; rewrite <- ?app_assoc;
    repeat split; reflexivity.
Qed.

End Accuracy.

(** ** One epoch of [train_cifar] *)

Section Epoch.
Context `{NumpyRandom} `{Torch} `{Tune}.

Definition checkpoint_event (epoch : Z) : Event :=
  CheckpointSaved epoch (trial_checkpoint_dir epoch).

Definition checkpoint_file (s : State) : File :=
  Pickled {| sd_shape := shape (net s); sd_weights := weights (net s) |}
          (optimizer s).

Definition after_checkpoint (epoch : Z) (s : State) : State :=
  emit (checkpoint_event epoch)
    (set_fs <[os_path_join (trial_checkpoint_dir epoch) "checkpoint"
              := checkpoint_file s]> s).

Definition after_report (m : Metrics) (s : State) : State :=
  emit (Reported (session_iteration s + 1) m)
    (set_session_iteration (session_iteration s + 1) s).

Lemma save_checkpoint_run (epoch : Z) (s : State) :
  save_checkpoint epoch s = (Ok tt, after_checkpoint epoch s).
Proof. reflexivity. Qed.

Lemma tune_report_run (m : Metrics) (s : State) :
  tune_report m s
  = (if should_stop (session_scheduler s) (session_iteration s + 1) m
     then Stopped else Ok tt, after_report m s).
Proof. unfold tune_report, after_report. by destruct (should_stop _ _ _). Qed.

Lemma session_after_checkpoint (epoch : Z) (s : State) :
  tune_trace (after_checkpoint epoch s)
  = tune_trace s ++ [checkpoint_event epoch] /\
  session_iteration (after_checkpoint epoch s) = session_iteration s /\
  session_scheduler (after_checkpoint epoch s) = session_scheduler s /\
  grad_enabled (after_checkpoint epoch s) = grad_enabled s.
Proof.
  unfold after_checkpoint. rewrite tune_trace_emit. by destruct s.
Qed.

Lemma session_after_report (m : Metrics) (s : State) :
  tune_trace (after_report m s)
  = tune_trace s ++ [Reported (session_iteration s + 1) m] /\
  session_iteration (after_report m s) = session_iteration s + 1 /\
  session_scheduler (after_report m s) = session_scheduler s /\
  grad_enabled (after_report m s) = grad_enabled s.
Proof.
  unfold after_report. rewrite tune_trace_emit. by destruct s.
Qed.

(** Case analysis on a quiet first action. *)
Lemma quiet_bind_cases {A B} (m : M A) (f : A -> M B) (s : State)
    (P : Result B * State -> Prop) :
  quiet m ->
  (forall e s', session_view s' = session_view s -> P (Raise e, s')) ->
  (forall a s', session_view s' = session_view s -> P (f a s')) ->
  P ((m ≫= f) s).
Proof.
  intros Hq Hraise Hok. rewrite bind_run. destruct (Hq s) as [Hns Hv].
  destruct (m s) as [[a | e |] s']; cbn [fst snd] in *; auto. done.
Qed.

(** What one pass through the loop body can have told the session, seen
    from the state [s] it started in: nothing or only the checkpoint if
    it raised, otherwise the checkpoint and then one report. *)
Definition epoch_shape (epoch : Z) (s : State) (r : Result unit * State)
  : Prop :=
  session_scheduler r.2 = session_scheduler s /\
  grad_enabled r.2 = grad_enabled s /\
  ((exists e, r.1 = Raise e /\
              session_iteration r.2 = session_iteration s /\
              (tune_trace r.2 = tune_trace s \/
               tune_trace r.2 = tune_trace s ++ [checkpoint_event epoch])) \/
   (exists m, r.1 = (if should_stop (session_scheduler s)
                          (session_iteration s + 1) m
                     then Stopped else Ok tt) /\
              session_iteration r.2 = session_iteration s + 1 /\
              tune_trace r.2
              = tune_trace s
                  ++ [checkpoint_event epoch;
                      Reported (session_iteration s + 1) m])).

Lemma epoch_shape_raise (epoch : Z) (s : State) (e : Exn) (s' : State) :
  session_view s' = session_view s -> epoch_shape epoch s (Raise e, s').
Proof.
  unfold session_view. intros [= Ht Hi Hs Hg].
  repeat split; [done | done |]. left. exists e. auto.
Qed.

Lemma epoch_shape_transport (epoch : Z) (s s' : State) r :
  session_view s' = session_view s ->
  epoch_shape epoch s' r -> epoch_shape epoch s r.
Proof.
  unfold session_view, epoch_shape. intros [= Ht Hi Hs Hg].
  by rewrite Ht, Hi, Hs, Hg.
Qed.

Lemma train_epoch_shape (trainloader valloader : DataLoader) (epoch : Z)
    (s : State) :
  epoch_shape epoch s (train_epoch trainloader valloader tt epoch s).
Proof.
  unfold train_epoch.
  apply quiet_bind_cases;
    [apply quiet_iterate | apply epoch_shape_raise |].
  intros train_batches s1 Hv1. apply (epoch_shape_transport _ _ s1 _ Hv1).
  apply quiet_bind_cases;
    [apply quiet_for_each, quiet_train_batch | apply epoch_shape_raise |].
  intros _ s2 Hv2. apply (epoch_shape_transport _ _ s2 _ Hv2).
  apply quiet_bind_cases;
    [apply quiet_validate | apply epoch_shape_raise |].
  intros [[[val_loss val_steps] total] correct] s3 Hv3.
  apply (epoch_shape_transport _ _ s3 _ Hv3).
  erewrite bind_ok by apply save_checkpoint_run.
  destruct (session_after_checkpoint epoch s3) as (Ht & Hi & Hs & Hg).
  set (s4 := after_checkpoint epoch s3) in *. clearbody s4.
  assert (Hraise : forall e, epoch_shape epoch s3 (Raise e, s4)).
  { intros e. repeat split; [done | done |]. left. exists e. auto. }
  rewrite bind_run. unfold truediv at 1.
  destruct (Qeq_bool (inject_Z val_steps) 0); [apply Hraise |].
  cbn [mret M_ret]. rewrite bind_run. unfold truediv at 1.
  destruct (Qeq_bool (inject_Z total) 0); [apply Hraise |].
  cbn [mret M_ret]. rewrite tune_report_run.
  set (m := {| loss := _; accuracy := _ |}).
  destruct (session_after_report m s4) as (Ht' & Hi' & Hs' & Hg').
  repeat split; cbn [fst snd]; [congruence | congruence |].
  right. exists m. rewrite Hs, Hi. split; [done |]. split; [congruence |].
  rewrite Ht', Ht, <- app_assoc. by rewrite Hi.
Qed.

End Epoch.

(** ** The loop over the epochs *)

Section Epochs.
Context `{NumpyRandom} `{Torch} `{Tune}.

(** What complete epochs tell the session: for each, its checkpoint and
    then its report, numbered from the session's iteration counter. *)
Fixpoint epoch_events (iteration : Z) (l : list (Z * Metrics)) : list Event :=
  match l with
  | [] => []
  | (epoch, m) :: l' =>
      checkpoint_event epoch :: Reported (iteration + 1) m
        :: epoch_events (iteration + 1) l'
  end.

(** No report of [ms] is answered by a stop. *)
Fixpoint continues (scheduler : ASHAScheduler) (iteration : Z)
    (ms : list Metrics) : bool :=
  match ms with
  | [] => true
  | m :: ms' => negb (should_stop scheduler (iteration + 1) m)
                && continues scheduler (iteration + 1) ms'
  end.

Definition is_report (e : Event) : bool :=
  match e with
  | Reported _ _ => true
  | _ => false
  end.

(** The number of reports a run has emitted so far. *)
Definition report_count (s : State) : nat :=
  length (List.filter is_report (trace s)).

(** How a run of the loop over [epochs], started in [s], can have ended
    in [r]: [ms] are the metrics of the epochs that ran to their report,
    [tail] is what an epoch cut short by an exception left behind. *)
Definition run_shape (epochs : list Z) (s : State)
    (r : Result unit * State) (ms : list Metrics) (tail : list Event)
  : Prop :=
  tune_trace r.2
  = tune_trace s ++ epoch_events (session_iteration s) (zip epochs ms) ++ tail /\
  session_scheduler r.2 = session_scheduler s /\
  grad_enabled r.2 = grad_enabled s /\
  session_iteration r.2 = session_iteration s + len ms /\
  (length ms <= length epochs)%nat /\
  match r.1 with
  | Ok _ =>
      length ms = length epochs /\ tail = [] /\
      continues (session_scheduler s) (session_iteration s) ms = true
  | Stopped =>
      tail = [] /\
      exists ms0 m,
        ms = ms0 ++ [m] /\
        continues (session_scheduler s) (session_iteration s) ms0 = true /\
        should_stop (session_scheduler s) (session_iteration s + len ms) m
        = true
  | Raise _ =>
      (length ms < length epochs)%nat /\
      continues (session_scheduler s) (session_iteration s) ms = true /\
      (tail = [] \/
       exists epoch, epochs !! length ms = Some epoch /\
                     tail = [checkpoint_event epoch])
  end.

Lemma run_shape_transport (epochs : list Z) (s s' : State) r ms tail :
  session_view s' = session_view s ->
  run_shape epochs s' r ms tail -> run_shape epochs s r ms tail.
Proof.
  unfold session_view, run_shape. intros [= Ht Hi Hs Hg].
  by rewrite Ht, Hi, Hs, Hg.
Qed.

Lemma run_shape_raise (epochs : list Z) (s : State) (e : Exn) (s' : State) :
  epochs ≠ [] -> session_view s' = session_view s ->
  run_shape epochs s (Raise e, s') [] [].
Proof.
  unfold session_view, run_shape. intros Hne [= Ht Hi Hs Hg].
  destruct epochs as [|epoch epochs]; [done |].
  cbn [fst snd zip zip_with epoch_events len length].
  rewrite Ht, Hi, Hs, Hg, !app_nil_r, Z.add_0_r.
  repeat split; auto; cbn; lia.
Qed.

Lemma epochs_shape (trainloader valloader : DataLoader) :
  forall (epochs : list Z) (s : State),
  exists ms tail,
    run_shape epochs s
      (for_each epochs tt (train_epoch trainloader valloader) s) ms tail.
Proof.
  induction epochs as [|epoch epochs IH]; intros s.
  - exists [], []. unfold run_shape.
    cbn [for_each mret M_ret fst snd zip zip_with epoch_events len length].
    rewrite !app_nil_r, Z.add_0_r. repeat split; auto.
  - cbn [for_each]. rewrite bind_run.
    pose proof (train_epoch_shape trainloader valloader epoch s) as Hshape.
    destruct (train_epoch trainloader valloader tt epoch s) as [[[] | e |] s1];
      destruct Hshape as (Hs & Hg & [(e' & Hr & Hi & Ht) | (m & Hr & Hi & Ht)]);
      cbn [fst snd] in *; try discriminate;
      try (destruct (should_stop _ _ _) in Hr; discriminate).
    + (* the epoch ran to its report and the trial goes on *)
      destruct (should_stop (session_scheduler s) (session_iteration s + 1) m)
        eqn:Hstop; [discriminate |].
      destruct (IH s1) as (ms & tail & Ht' & Hs' & Hg' & Hi' & Hle & Hout).
      exists (m :: ms), tail. unfold run_shape.
      cbn [zip zip_with epoch_events len length continues].
      rewrite Ht', Ht, Hi, Hs', Hs, Hg', Hg, Hi', Hi, Hstop.
      rewrite <- !app_assoc. cbn [app negb andb].
      split; [done |]. split; [done |]. split; [done |].
      split; [unfold len; cbn [length]; lia |].
      split; [cbn [length]; lia |].
      rewrite Hs, Hi in Hout.
      destruct (for_each epochs tt _ s1) as [[[] | e |] s2]; cbn [fst] in *.
      * destruct Hout as (Hlen & Htail & Hcont). by rewrite Hlen.
      * destruct Hout as (Hlen & Hcont & Htail).
        split; [lia |]. split; [done |].
        destruct Htail as [-> | (ep & Hep & ->)]; [by left |].
        right. by exists ep.
      * destruct Hout as (Htail & ms0 & m' & -> & Hcont & Hstop').
        split; [done |]. exists (m :: ms0), m'.
        cbn [continues]. rewrite Hstop, Hcont. cbn [negb andb].
        split; [done |]. split; [done |].
        replace (session_iteration s + len (m :: ms0 ++ [m']))
          with (session_iteration s + 1 + len (ms0 ++ [m']));
          [exact Hstop' | unfold len; cbn [length]; lia].
    + (* the epoch raised *)
      destruct Ht as [Ht | Ht].
      * exists [], []. unfold run_shape.
        cbn [fst snd zip zip_with epoch_events len length continues app].
        rewrite Ht, Hs, Hg, Hi, Z.add_0_r, app_nil_r.
        repeat split; auto; cbn; lia.
      * exists [], [checkpoint_event epoch]. unfold run_shape.
        cbn [fst snd zip zip_with epoch_events len length continues app].
        rewrite Ht, Hs, Hg, Hi, Z.add_0_r.
        repeat split; auto; [cbn; lia | cbn; lia |]. right. by exists epoch.
    + (* the scheduler stopped the trial at this epoch's report *)
      destruct (should_stop (session_scheduler s) (session_iteration s + 1) m)
        eqn:Hstop; [| discriminate].
      exists [m], []. unfold run_shape. cbn [fst snd].
      assert (Hz : zip (epoch :: epochs) [m] = [(epoch, m)])
        by by destruct epochs.
      rewrite Hz. cbn [epoch_events]. rewrite Ht, Hs, Hg, Hi, app_nil_r.
      change (len [m]) with 1.
      split; [done |]. split; [done |]. split; [done |]. split; [done |].
      split; [cbn; lia |].
      split; [done |]. exists [], m. by repeat split.
Qed.

End Epochs.

(** ** Whole runs of [train_cifar] *)

Section Trial.
Context `{NumpyRandom} `{Torch} `{Tune}.

Definition trial_shape (s : State) (r : Result unit * State) : Prop :=
  exists ms tail, run_shape (range 10) s r ms tail.

Lemma trial_shape_raise (s : State) (e : Exn) (s' : State) :
  session_view s' = session_view s -> trial_shape s (Raise e, s').
Proof. intros Hv. exists [], []. by apply run_shape_raise. Qed.

Lemma trial_shape_transport (s s' : State) r :
  session_view s' = session_view s -> trial_shape s' r -> trial_shape s r.
Proof.
  intros Hv (ms & tail & Hshape). exists ms, tail.
  by eapply run_shape_transport.
Qed.

Lemma quiet_resume (checkpoint_dir : option string) :
  quiet (if truthy checkpoint_dir then
           '(model_state, optimizer_state) ←
             torch_load (os_path_join (default "" checkpoint_dir) "checkpoint");
           load_state_dict model_state;;
           optimizer_load_state_dict optimizer_state
         else mret tt).
Proof.
  destruct (truthy checkpoint_dir); [| apply quiet_ret].
  apply quiet_bind; [apply quiet_torch_load |].
  intros [model_state optimizer_state].
  apply quiet_bind; [apply quiet_load_state_dict | intros _].
  apply quiet_optimizer_load_state_dict.
Qed.

Lemma epochs_then_print (trainloader valloader : DataLoader) (s : State) :
  trial_shape s
    ((for_each (range 10) tt (train_epoch trainloader valloader);;
      print FinishedTraining) s).
Proof.
  rewrite bind_run.
  destruct (epochs_shape trainloader valloader (range 10) s)
    as (ms & tail & Hshape).
  destruct (for_each (range 10) tt _ s) as [[[] | e |] s1];
    exists ms, tail; [| done | done].
  destruct Hshape as (Ht & Hs & Hg & Hi & Hle & Hout).
  unfold run_shape, print, modify. cbn [fst snd] in *.
  rewrite tune_trace_emit. cbn [is_tune_event]. rewrite app_nil_r.
  repeat split; try tauto; by destruct s1.
Qed.

Lemma train_cifar_shape (config : Configuration)
    (checkpoint_dir : option string) (data_dir : string) (s : State) :
  trial_shape s (train_cifar config checkpoint_dir data_dir s).
Proof.
  unfold train_cifar.
  apply quiet_bind_cases;
    [apply quiet_new_module | apply trial_shape_raise |].
  intros _ s1 Hv1. apply (trial_shape_transport _ s1 _ Hv1).
  apply quiet_bind_cases;
    [apply quiet_new_SGD | apply trial_shape_raise |].
  intros _ s2 Hv2. apply (trial_shape_transport _ s2 _ Hv2).
  apply quiet_bind_cases;
    [apply quiet_resume | apply trial_shape_raise |].
  intros _ s3 Hv3. apply (trial_shape_transport _ s3 _ Hv3).
  apply quiet_bind_cases;
    [apply quiet_ret | apply trial_shape_raise |].
  intros [trainset testset] s4 Hv4. apply (trial_shape_transport _ s4 _ Hv4).
  apply quiet_bind_cases;
    [apply quiet_split_train_val | apply trial_shape_raise |].
  intros [train_subset val_subset] s5 Hv5.
  apply (trial_shape_transport _ s5 _ Hv5).
  apply quiet_bind_cases;
    [apply quiet_new_DataLoader | apply trial_shape_raise |].
  intros trainloader s6 Hv6. apply (trial_shape_transport _ s6 _ Hv6).
  apply quiet_bind_cases;
    [apply quiet_new_DataLoader | apply trial_shape_raise |].
  intros valloader s7 Hv7. apply (trial_shape_transport _ s7 _ Hv7).
  apply epochs_then_print.
Qed.



End Trial.

(** ** Runs that do not fail *)

Section Success.
Context `{NumpyRandom} `{Torch} `{Tune}.

Lemma optimizer_step_ok (s : State) : (optimizer_step s).1 = Ok tt.
Proof. unfold optimizer_step. by destruct (sgd_step _ _ _ _ _). Qed.

Lemma train_batch_ok (epoch : Z) (running_loss : Q) (epoch_steps i : Z)
    (data : list Sample) (s : State) :
  grad_enabled s = true -> 0 <= epoch_steps ->
  exists running_loss',
    (train_batch epoch (running_loss, epoch_steps) (i, data) s).1
    = Ok (running_loss', epoch_steps + 1).
Proof.
  intros Hg Hsteps. unfold train_batch.
  erewrite bind_ok by reflexivity.
  erewrite bind_ok by reflexivity.
  erewrite bind_ok; cycle 1.
  { unfold loss_backward.
    match goal with
    | |- context [grad_enabled ?st] => change (grad_enabled st) with (grad_enabled s)
    end.
    rewrite Hg. reflexivity. }
  rewrite bind_run.
  match goal with
  | |- context [optimizer_step ?st] =>
      pose proof (optimizer_step_ok st) as Hstep;
      destruct (optimizer_step st) as [r s']
  end.
  cbn [fst] in Hstep. subst r.
  destruct (i `mod` 2000 =? 1999); [| by eexists].
  erewrite bind_ok by (apply truediv_ok; lia).
  by eexists.
Qed.

Lemma train_loop_ok (epoch : Z) (items : list (Z * list Sample)) :
  forall (acc : Q * Z) (s : State),
    grad_enabled s = true -> 0 <= acc.2 ->
    exists acc' s',
      for_each items acc (train_batch epoch) s = (Ok acc', s') /\
      session_view s' = session_view s.
Proof.
  induction items as [|[i data] items IH]; intros [running_loss epoch_steps] s Hg Hsteps.
  - by exists (running_loss, epoch_steps), s.
  - cbn [for_each snd] in *. rewrite bind_run.
    destruct (train_batch_ok epoch running_loss epoch_steps i data s Hg Hsteps)
      as [running_loss' Hok].
    destruct (quiet_train_batch epoch (running_loss, epoch_steps) (i, data) s)
      as [_ Hv].
    destruct (train_batch epoch (running_loss, epoch_steps) (i, data) s)
      as [r s1]. cbn [fst snd] in *. subst r.
    assert (Hg1 : grad_enabled s1 = true).
    { revert Hv. unfold session_view. intros [= _ _ _ ->]. done. }
    destruct (IH (running_loss', epoch_steps + 1) s1 Hg1 ltac:(cbn; lia))
      as (acc' & s' & Hrun & Hv').
    exists acc', s'. split; [done | congruence].
Qed.

Lemma batches_not_nil {A} (size : nat) (xs : list A) :
  xs ≠ [] -> batches size xs ≠ [].
Proof. unfold batches. by destruct xs. Qed.

(** The metrics an epoch reports when validation ran under parameters
    [w] over the batches [val_batches]. *)
Definition epoch_metrics (w : params) (val_batches : list (list Sample))
  : Metrics :=
  {| loss := sum_losses w val_batches / inject_Z (len val_batches);
     accuracy := inject_Z (correct_count w (concat val_batches))
                 / inject_Z (len (concat val_batches)) |}.

(** An epoch on valid loaders with a non-empty validation set, in grad
    mode: it gets to its report. [s1] is the state when the training
    pass is over. *)
Lemma train_epoch_run (trainloader valloader : DataLoader) (epoch : Z)
    (s : State) :
  ds_valid (dl_dataset trainloader) -> ds_valid (dl_dataset valloader) ->
  0 < dl_batch_size valloader ->
  (0 < ds_len (dl_dataset valloader))%nat ->
  grad_enabled s = true ->
  exists s1,
    session_view s1 = session_view s /\
    train_epoch trainloader valloader tt epoch s
    = tune_report
        (epoch_metrics (weights (net s1))
           (batches (Z.to_nat (dl_batch_size valloader))
              (iteration_items valloader s1)))
        (after_checkpoint epoch (after_iteration valloader s1)).
Proof.
  intros Hvt Hvv Hbs Hlen Hg. unfold train_epoch.
  erewrite bind_ok by by apply iterate_run.
  assert (Hv0 : session_view (after_iteration trainloader s) = session_view s).
  { unfold after_iteration. destruct (dl_shuffle trainloader); [| done].
    by destruct s. }
  assert (Hg0 : grad_enabled (after_iteration trainloader s) = true).
  { revert Hv0. unfold session_view. intros [= _ _ _ ->]. done. }
  destruct (train_loop_ok epoch
              (enumerate (batches (Z.to_nat (dl_batch_size trainloader))
                            (iteration_items trainloader s)))
              (0%Q, 0) _ Hg0 ltac:(done))
    as (acc' & s1 & Hloop & Hv1).
  erewrite bind_ok by exact Hloop.
  exists s1. split; [congruence |]. cbv beta.
  rewrite (bind_ok _ _ s1 _ _ (validate_run valloader s1 Hvv)).
  set (val_batches := batches _ (iteration_items valloader s1)).
  erewrite bind_ok by apply save_checkpoint_run.
  assert (Hitems : iteration_items valloader s1 ≠ []).
  { intros Hnil. pose proof (iteration_items_perm valloader s1) as Hp.
    apply Permutation_length in Hp.
    rewrite Hnil, length_ds_items in Hp by done. cbn in Hp. lia. }
  assert (Hsteps : len val_batches ≠ 0).
  { pose proof (batches_not_nil (Z.to_nat (dl_batch_size valloader)) _ Hitems)
      as Hb.
    unfold len. fold val_batches in Hb. destruct val_batches; [done | cbn; lia]. }
  assert (Htotal : len (concat val_batches) ≠ 0).
  { unfold val_batches. rewrite batches_concat by lia.
    unfold len. destruct (iteration_items valloader s1); [done | cbn; lia]. }
  erewrite bind_ok by by apply truediv_ok.
  erewrite bind_ok by by apply truediv_ok.
  reflexivity.
Qed.


End Success.

(** ** What an epoch reports, how many epochs a trial runs *)

Section Claims.
Context `{NumpyRandom} `{Torch} `{Tune}.

(** C5. The validation pass changes neither the module (parameters,
    gradient buffers, mode) nor the optimizer. In an epoch over valid
    loaders with a non-empty validation set, the metrics reported are:
    as accuracy, the number of correctly predicted validation samples
    divided by the number of validation samples, which lies between 0
    and 1; as loss, the sum of the per-batch losses divided by the number
    of validation batches. Both are taken under the parameters the epoch
    ends with, and the batches cover the validation set exactly once. *)
Theorem validation_metrics (trainloader valloader : DataLoader) (epoch : Z)
    (s : State) :
  ds_valid (dl_dataset trainloader) -> ds_valid (dl_dataset valloader) ->
  0 < dl_batch_size valloader ->
  (0 < ds_len (dl_dataset valloader))%nat ->
  grad_enabled s = true ->
  let r := train_epoch trainloader valloader tt epoch s in
  let w := weights (net r.2) in
  let val_samples := ds_items (dl_dataset valloader) in
  (forall s', net (validate valloader s').2 = net s' /\
              optimizer (validate valloader s').2 = optimizer s') /\
  exists (val_batches : list (list Sample)) (m : Metrics),
    concat val_batches ≡ₚ val_samples /\
    val_batches ≠ [] /\
    tune_trace r.2
    = tune_trace s
        ++ [checkpoint_event epoch; Reported (session_iteration s + 1) m] /\
    loss m = (sum_losses w val_batches / inject_Z (len val_batches))%Q /\
    accuracy m
    = (inject_Z (correct_count w val_samples) / inject_Z (len val_samples))%Q /\
    (0 <= accuracy m)%Q /\ (accuracy m <= 1)%Q.
Proof.
  intros Hvt Hvv Hbs Hlen Hg r w val_samples. split.
  { intros s'. pose proof (validate_frame valloader s') as Hf.
    cbv beta in Hf. by injection Hf. }
  destruct (train_epoch_run trainloader valloader epoch s Hvt Hvv Hbs Hlen Hg)
    as (s1 & Hv1 & Hrun).
  set (val_batches := batches (Z.to_nat (dl_batch_size valloader))
                        (iteration_items valloader s1)) in *.
  set (s4 := after_checkpoint epoch (after_iteration valloader s1)) in *.
  assert (Hw : w = weights (net s1)).
  { subst w r. rewrite Hrun, tune_report_run. cbn [snd].
    subst s4. unfold after_iteration.
    destruct (dl_shuffle valloader); by destruct s1. }
  assert (Hconcat : concat val_batches ≡ₚ val_samples).
  { subst val_batches. rewrite batches_concat by lia.
    apply iteration_items_perm. }
  assert (Hpos : 0 < len val_samples).
  { unfold len, val_samples. rewrite length_ds_items by done. lia. }
  exists val_batches, (epoch_metrics (weights (net s1)) val_batches).
  split; [done |]. split.
  { intros Hnil. rewrite Hnil in Hconcat. cbn in Hconcat.
    apply Permutation_length in Hconcat. unfold len in Hpos.
    cbn in Hconcat. lia. }
  split.
  { subst r. rewrite Hrun, tune_report_run. cbn [snd].
    destruct (session_after_report (epoch_metrics (weights (net s1)) val_batches) s4)
      as (-> & _).
    destruct (session_after_checkpoint epoch (after_iteration valloader s1))
      as (Ht & Hi & _).
    fold s4 in Ht, Hi. rewrite Ht, Hi, <- app_assoc.
    revert Hv1. unfold session_view, after_iteration.
    intros [= Ht1 Hi1 _ _].
    destruct (dl_shuffle valloader); destruct s1; cbn in *; by rewrite Ht1, Hi1. }
  rewrite Hw. cbn [epoch_metrics loss accuracy].
  rewrite (correct_count_perm _ _ _ Hconcat).
  assert (Hsize : len (concat val_batches) = len val_samples).
  { unfold len. by rewrite Hconcat. }
  rewrite Hsize. split; [done |]. split; [done |].
  apply accuracy_fraction; [apply correct_count_bounds | done].
Qed.

Lemma subset_valid (items : list Sample) (train : bool) (indices perm : list nat) :
  perm ≡ₚ seq 0 (length items) -> indices ⊆ perm ->
  ds_valid (Subset (Stored items train) indices).
Proof.
  intros Hperm Hsub. split; [done |]. apply Forall_forall.
  intros i Hi. apply Hsub in Hi. rewrite Hperm in Hi.
  apply elem_of_seq in Hi. cbn. lia.
Qed.


End Claims.

Section EpochCount.
Context `{NumpyRandom} `{Torch} `{Tune}.

Lemma filter_report_tune (l : list Event) :
  List.filter is_report (List.filter is_tune_event l)
  = List.filter is_report l.
Proof.
  induction l as [|e l IH]; [done |].
  destruct e; cbn; by rewrite ?IH.
Qed.

Lemma report_count_tune (s : State) :
  report_count s = length (List.filter is_report (tune_trace s)).
Proof. unfold report_count, tune_trace. by rewrite filter_report_tune. Qed.



End EpochCount.

Section CheckAccuracy.
Context `{NumpyRandom} `{Torch} `{Tune}.


End CheckAccuracy.

(** ** The training pass of an epoch *)

Section TrainingPass.
Context `{NumpyRandom} `{Torch} `{Tune}.

(** The parameters and the momentum buffers, the two things a training
    step updates. *)
Definition wb (s : State) : params * buffers :=
  (weights (net s), opt_buffers (optimizer s)).

(** One step of SGD on one batch: the gradient of the batch loss at the
    current parameters, taken from cleared buffers, and the update. *)
Definition sgd_on_batch (lr momentum : Q) (x : params * buffers)
    (data : list Sample) : params * buffers :=
  sgd_step lr momentum x.1 (Some (backward x.1 data None)) x.2.

(** The loss of each batch under the parameters in force when the batch
    is reached. *)
Fixpoint step_losses (lr momentum : Q) (x : params * buffers)
    (bs : list (list Sample)) : list Q :=
  match bs with
  | [] => []
  | data :: bs' =>
      batch_loss x.1 data
        :: step_losses lr momentum (sgd_on_batch lr momentum x data) bs'
  end.

(** The locals [running_loss] and [epoch_steps] after the batch numbered
    [i] with loss [loss], and the line that batch prints. *)
Definition train_acc (acc : Q * Z) (il : Z * Q) : Q * Z :=
  if il.1 `mod` 2000 =? 1999 then (0%Q, acc.2 + 1)
  else ((acc.1 + il.2)%Q, acc.2 + 1).

Definition train_line (epoch : Z) (acc : Q * Z) (il : Z * Q) : list Line :=
  if il.1 `mod` 2000 =? 1999
  then [RunningLoss (epoch + 1) (il.1 + 1)
          ((acc.1 + il.2) / inject_Z (acc.2 + 1))%Q]
  else [].

Fixpoint loop_lines (epoch : Z) (acc : Q * Z) (ils : list (Z * Q))
  : list Line :=
  match ils with
  | [] => []
  | il :: ils' =>
      train_line epoch acc il ++ loop_lines epoch (train_acc acc il) ils'
  end.

(** The lines printed so far, and the number of optimizer steps taken. *)
Definition printed_lines (s : State) : list Line :=
  omap (fun e => match e with Printed l => Some l | _ => None end) (trace s).

Definition step_count (s : State) : nat :=
  length (List.filter (fun e => match e with OptimizerStep => true | _ => false end)
            (trace s)).

(** What a training step leaves alone. *)
Definition step_frame (s : State) :=
  (shape (net s), training (net s), opt_lr (optimizer s),
   opt_momentum (optimizer s), np_rng s, torch_rng s, fs s, session_view s).

Definition after_train_batch (data : list Sample) (s : State) : State :=
  let o := optimizer s in
  let x := sgd_on_batch (opt_lr o) (opt_momentum o) (wb s) data in
  emit OptimizerStep
    (set_optimizer (fun _ => {| opt_lr := opt_lr o;
                                opt_momentum := opt_momentum o;
                                opt_buffers := x.2 |})
       (set_net (fun m => {| shape := shape m; weights := x.1;
                             grad := Some (backward (weights m) data None);
                             training := training m |}) s)).

Lemma train_batch_run (epoch : Z) (acc : Q * Z) (item : Z * list Sample)
    (s : State) :
  grad_enabled s = true -> 0 <= acc.2 ->
  let il := (item.1, batch_loss (weights (net s)) item.2) in
  train_batch epoch acc item s
  = (Ok (train_acc acc il),
     foldr (fun l => emit (Printed l)) (after_train_batch item.2 s)
       (train_line epoch acc il)).
Proof.
  destruct acc as [running_loss epoch_steps], item as [i data].
  intros Hg Hsteps. cbn [fst snd] in *. unfold train_batch.
  erewrite bind_ok by reflexivity.
  erewrite bind_ok by reflexivity.
  erewrite bind_ok; cycle 1.
  { unfold loss_backward.
    match goal with
    | |- context [grad_enabled ?st] => change (grad_enabled st) with (grad_enabled s)
    end.
    rewrite Hg. reflexivity. }
  erewrite bind_ok; cycle 1.
  { unfold optimizer_step.
    match goal with
    | |- context [sgd_step ?a ?b ?c ?d ?e] => rewrite (surjective_pairing (sgd_step a b c d e))
    end.
    reflexivity. }
  unfold train_acc, train_line. cbn [fst snd].
  change (cross_entropy _ _) with (batch_loss (weights (net s)) data).
  destruct (i `mod` 2000 =? 1999).
  - erewrite bind_ok by (apply truediv_ok; lia).
    cbn [foldr]. unfold after_train_batch, sgd_on_batch, wb.
    destruct s; reflexivity.
  - cbn [foldr]. unfold after_train_batch, sgd_on_batch, wb.
    destruct s; reflexivity.
Qed.

Lemma printed_lines_emit (e : Event) (s : State) :
  printed_lines (emit e s)
  = printed_lines s ++ match e with Printed l => [l] | _ => [] end.
Proof.
  unfold printed_lines. destruct s. cbn.
  rewrite omap_app. by destruct e.
Qed.

Lemma step_count_emit (e : Event) (s : State) :
  step_count (emit e s)
  = (step_count s + match e with OptimizerStep => 1 | _ => 0 end)%nat.
Proof.
  unfold step_count. destruct s. cbn.
  rewrite List.filter_app, length_app. by destruct e.
Qed.

Lemma session_view_emit (e : Event) (s : State) :
  is_tune_event e = false -> session_view (emit e s) = session_view s.
Proof.
  intros He. unfold session_view. rewrite tune_trace_emit, He, app_nil_r.
  by destruct s.
Qed.

(** Printing leaves everything but the console alone. *)
Lemma print_lines_state (lines : list Line) (s : State) :
  let s' := foldr (fun l => emit (Printed l)) s lines in
  wb s' = wb s /\ step_frame s' = step_frame s /\
  step_count s' = step_count s /\
  printed_lines s' = printed_lines s ++ rev lines.
Proof.
  induction lines as [|l lines IH]; cbn [foldr rev].
  - by rewrite app_nil_r.
  - destruct IH as (Hw & Hf & Hc & Hp).
    set (s' := foldr _ s lines) in *. clearbody s'.
    rewrite printed_lines_emit, step_count_emit, Hp, Hc, <- Hw, <- Hf, <- app_assoc.
    unfold step_frame. rewrite session_view_emit by done.
    repeat split; try lia; by destruct s'.
Qed.

Lemma after_train_batch_state (data : list Sample) (s : State) :
  let s' := after_train_batch data s in
  wb s' = sgd_on_batch (opt_lr (optimizer s)) (opt_momentum (optimizer s))
            (wb s) data /\
  step_frame s' = step_frame s /\
  step_count s' = (step_count s + 1)%nat /\
  printed_lines s' = printed_lines s.
Proof.
  cbv zeta. unfold after_train_batch.
  rewrite printed_lines_emit, step_count_emit, app_nil_r.
  unfold step_frame. rewrite session_view_emit by done.
  split; [destruct s; cbn; symmetry; apply surjective_pairing |].
  repeat split; by destruct s.
Qed.

(** The loop over the batches of the training loader, run. *)
Lemma train_loop_run (epoch : Z) (items : list (Z * list Sample)) :
  forall (acc : Q * Z) (s : State),
    grad_enabled s = true -> 0 <= acc.2 ->
    let lr := opt_lr (optimizer s) in
    let momentum := opt_momentum (optimizer s) in
    let ils := zip items.*1 (step_losses lr momentum (wb s) items.*2) in
    exists s',
      for_each items acc (train_batch epoch) s
      = (Ok (fold_left train_acc ils acc), s') /\
      wb s' = fold_left (sgd_on_batch lr momentum) items.*2 (wb s) /\
      step_frame s' = step_frame s /\
      step_count s' = (step_count s + length items)%nat /\
      printed_lines s' = printed_lines s ++ loop_lines epoch acc ils.
Proof.
  induction items as [|[i data] items IH]; intros acc s Hg Hsteps; cbv zeta.
  - exists s. cbn. by rewrite app_nil_r.
  - cbn [for_each fmap list_fmap fst snd step_losses zip zip_with fold_left
         loop_lines].
    erewrite bind_ok by by apply train_batch_run.
    cbn [fst snd].
    set (il := (i, batch_loss (wb s).1 data)).
    change (batch_loss (weights (net s)) data) with (batch_loss (wb s).1 data).
    fold il.
    destruct (after_train_batch_state data s) as (Hw1 & Hf1 & Hc1 & Hp1).
    destruct (print_lines_state (train_line epoch acc il)
                (after_train_batch data s)) as (Hw2 & Hf2 & Hc2 & Hp2).
    set (s1 := foldr _ (after_train_batch data s) _) in *.
    assert (Hrev : rev (train_line epoch acc il) = train_line epoch acc il).
    { unfold train_line. by destruct (_ =? _). }
    rewrite Hrev in Hp2.
    assert (Hf : step_frame s1 = step_frame s) by congruence.
    assert (Hg1 : grad_enabled s1 = true).
    { revert Hf. unfold step_frame, session_view. intros [= _ _ _ _ _ _ _ _ _ _ ->].
      done. }
    assert (Hlr : opt_lr (optimizer s1) = opt_lr (optimizer s) /\
                  opt_momentum (optimizer s1) = opt_momentum (optimizer s)).
    { revert Hf. unfold step_frame. by intros [= _ _ -> -> _ _ _ _]. }
    destruct Hlr as [Hlr Hmom].
    destruct (IH (train_acc acc il) s1 Hg1) as (s' & Hrun & Hw & Hf' & Hc & Hp).
    { unfold train_acc. destruct (_ =? _); cbn; lia. }
    rewrite Hlr, Hmom, Hw2, Hw1 in Hrun, Hw, Hp.
    exists s'. rewrite Hrun, Hw, Hf', Hc, Hp, Hc2, Hc1, Hp2, Hp1, <- app_assoc.
    repeat split; try done. cbn [length]. lia.
Qed.

End TrainingPass.

Section RunningLoss.
Context `{NumpyRandom} `{Torch} `{Tune}.

Lemma period_hit (n : nat) :
  Z.of_nat n `mod` 2000 = 1999 ->
  ((n + 1) / 2000 = n / 2000 + 1 /\ 2000 * (n / 2000) + 1999 = n)%nat.
Proof.
  intros Hn. split; apply Nat2Z.inj.
  - rewrite Nat2Z.inj_add, !Nat2Z.inj_div, Nat2Z.inj_add.
    Z.div_mod_to_equations. lia.
  - rewrite Nat2Z.inj_add, Nat2Z.inj_mul, Nat2Z.inj_div.
    Z.div_mod_to_equations. lia.
Qed.

Lemma period_miss (n : nat) :
  Z.of_nat n `mod` 2000 ≠ 1999 ->
  ((n + 1) / 2000 = n / 2000 /\ 2000 * (n / 2000) <= n)%nat.
Proof.
  intros Hn. split.
  - apply Nat2Z.inj. rewrite !Nat2Z.inj_div, Nat2Z.inj_add.
    Z.div_mod_to_equations. lia.
  - apply Nat2Z.inj_le. rewrite Nat2Z.inj_mul, Nat2Z.inj_div.
    Z.div_mod_to_equations. lia.
Qed.

Lemma period_below (k n : nat) :
  (k < n / 2000 -> 2000 * k + 2000 <= n)%nat.
Proof.
  intros Hk. apply Nat2Z.inj_lt in Hk. rewrite Nat2Z.inj_div in Hk.
  apply Nat2Z.inj_le. rewrite Nat2Z.inj_add, Nat2Z.inj_mul.
  Z.div_mod_to_equations. lia.
Qed.

Lemma enumerate_snoc {A} (xs : list A) (x : A) :
  enumerate (xs ++ [x]) = enumerate xs ++ [(len xs, x)].
Proof.
  unfold enumerate, range, len.
  rewrite length_app, !Nat2Z.id. cbn [length].
  rewrite Nat.add_1_r, seq_S, fmap_app. cbn [fmap list_fmap Nat.add].
  rewrite zip_with_app by (by rewrite length_fmap, length_seq).
  reflexivity.
Qed.

Lemma loop_lines_snoc (epoch : Z) (ils : list (Z * Q)) (il : Z * Q) :
  forall acc,
    loop_lines epoch acc (ils ++ [il])
    = loop_lines epoch acc ils
        ++ train_line epoch (fold_left train_acc ils acc) il.
Proof.
  induction ils as [|il' ils IH]; intros acc; cbn [loop_lines app fold_left].
  - by rewrite app_nil_r.
  - by rewrite IH, app_assoc.
Qed.

(** [running_loss] holds the losses added up since the last line was
    printed; [epoch_steps] counts all batches of the epoch. *)
Lemma train_acc_closed (ls : list Q) :
  fold_left train_acc (enumerate ls) (0%Q, 0)
  = (fold_left Qplus (drop (2000 * (length ls / 2000)) ls) 0%Q, len ls).
Proof.
  induction ls as [|l ls IH] using rev_ind; [done |].
  rewrite enumerate_snoc, fold_left_app, IH. cbn [fold_left].
  unfold train_acc. cbn [fst snd]. unfold len.
  rewrite length_app. cbn [length]. rewrite Nat2Z.inj_add.
  destruct (Z.eqb_spec (Z.of_nat (length ls) `mod` 2000) 1999) as [Hn | Hn].
  - destruct (period_hit _ Hn) as [-> Hk].
    rewrite drop_ge; [done |]. rewrite length_app. cbn [length]. lia.
  - destruct (period_miss _ Hn) as [-> Hk].
    rewrite drop_app_le by lia. by rewrite fold_left_app.
Qed.

(** The line printed after batch 2000 (k + 1) of an epoch, given the
    losses of the batches. *)
Definition running_loss_line (epoch : Z) (ls : list Q) (k : nat) : Line :=
  RunningLoss (epoch + 1) (2000 * (Z.of_nat k + 1))
    (fold_left Qplus (take 2000 (drop (2000 * k) ls)) 0
     / inject_Z (2000 * (Z.of_nat k + 1)))%Q.

Lemma loop_lines_closed (epoch : Z) (ls : list Q) :
  loop_lines epoch (0%Q, 0) (enumerate ls)
  = running_loss_line epoch ls <$> seq 0 (length ls / 2000).
Proof.
  induction ls as [|l ls IH] using rev_ind; [done |].
  rewrite enumerate_snoc, loop_lines_snoc, IH, train_acc_closed.
  assert (Hold : running_loss_line epoch ls <$> seq 0 (length ls / 2000)
                 = running_loss_line epoch (ls ++ [l])
                     <$> seq 0 (length ls / 2000)).
  { apply list_fmap_ext. intros i k Hk.
    apply lookup_seq in Hk as [-> Hk]. cbn [Nat.add] in *.
    apply period_below in Hk. unfold running_loss_line.
    rewrite drop_app_le by lia.
    rewrite take_app_le by (rewrite length_drop; lia). reflexivity. }
  rewrite Hold. unfold train_line. cbn [fst snd]. unfold len.
  rewrite length_app. cbn [length].
  destruct (Z.eqb_spec (Z.of_nat (length ls) `mod` 2000) 1999) as [Hn | Hn].
  - destruct (period_hit _ Hn) as [-> Hk].
    rewrite Nat.add_1_r, seq_S, fmap_app. cbn [fmap list_fmap Nat.add].
    do 2 f_equal. unfold running_loss_line.
    rewrite drop_app_le by lia.
    rewrite take_ge by (rewrite length_app, length_drop; cbn [length]; lia).
    rewrite fold_left_app. cbn [fold_left].
    replace (2000 * (Z.of_nat (length ls / 2000) + 1))
      with (Z.of_nat (length ls) + 1) by lia.
    reflexivity.
  - destruct (period_miss _ Hn) as [-> Hk]. by rewrite app_nil_r.
Qed.

Lemma length_step_losses (lr momentum : Q) (bs : list (list Sample)) :
  forall x, length (step_losses lr momentum x bs) = length bs.
Proof. induction bs as [|b bs IH]; intros x; cbn; [done | by rewrite IH]. Qed.

Lemma fst_enumerate {A} (xs : list A) :
  (enumerate xs).*1 = range (Z.of_nat (length xs)).
Proof.
  unfold enumerate, range. apply fst_zip.
  rewrite length_fmap, length_seq. lia.
Qed.

Lemma enumerate_losses (lr momentum : Q) (x : params * buffers)
    (bs : list (list Sample)) :
  zip (enumerate bs).*1 (step_losses lr momentum x (enumerate bs).*2)
  = enumerate (step_losses lr momentum x bs).
Proof.
  rewrite fst_enumerate, snd_enumerate. unfold enumerate.
  by rewrite length_step_losses.
Qed.

End RunningLoss.

(** ** What a trial leaves alone *)

Section Frame.
Context `{NumpyRandom} `{Torch} `{Tune}.

(** A view of the state that training cannot change: it does not look at
    the generator of torch, the grad mode, the trace, the iteration
    counter, the parameters, the gradients or the momentum buffers. *)
Definition insensitive {X} (proj : State -> X) : Prop :=
  (forall g s, proj (set_torch_rng g s) = proj s) /\
  (forall b s, proj (set_grad_enabled b s) = proj s) /\
  (forall e s, proj (emit e s) = proj s) /\
  (forall i s, proj (set_session_iteration i s) = proj s) /\
  (forall w g s,
      proj (set_net (fun m => {| shape := shape m; weights := w; grad := g;
                                 training := training m |}) s) = proj s) /\
  (forall b s,
      proj (set_optimizer (fun o => {| opt_lr := opt_lr o;
                                       opt_momentum := opt_momentum o;
                                       opt_buffers := b |}) s) = proj s).

Section Insensitive.
Context {X : Type} (proj : State -> X) (Hproj : insensitive proj).

Lemma preserves_modify_emit (e : Event) : preserves proj (modify (emit e)).
Proof. intros s. apply Hproj. Qed.

Lemma preserves_zero_grad : preserves proj zero_grad.
Proof.
  intros s. destruct Hproj as (_ & _ & _ & _ & Hnet & _).
  exact (Hnet (weights (net s)) None s).
Qed.

Lemma preserves_loss_backward batch : preserves proj (loss_backward batch).
Proof.
  intros s. unfold loss_backward. destruct (grad_enabled s); [| done].
  destruct Hproj as (_ & _ & _ & _ & Hnet & _).
  exact (Hnet (weights (net s))
           (Some (backward (weights (net s)) batch (grad (net s)))) s).
Qed.

Lemma preserves_optimizer_step : preserves proj optimizer_step.
Proof.
  intros s. unfold optimizer_step.
  destruct (sgd_step _ _ _ _ _) as [w b] eqn:Hstep. cbn [snd].
  destruct Hproj as (_ & _ & Hemit & _ & Hnet & Hopt).
  rewrite Hemit.
  etransitivity; [| exact (Hnet w (grad (net s)) s)].
  etransitivity; [| exact (Hopt b _)].
  reflexivity.
Qed.

Lemma preserves_train_batch epoch acc item :
  preserves proj (train_batch epoch acc item).
Proof.
  unfold train_batch. destruct acc as [running_loss epoch_steps].
  destruct item as [i data].
  apply preserves_bind; [apply preserves_zero_grad | intros _].
  apply preserves_bind; [apply preserves_call_module | intros outputs].
  apply preserves_bind; [apply preserves_loss_backward | intros _].
  apply preserves_bind; [apply preserves_optimizer_step | intros _].
  destruct (_ =? _); [| apply preserves_ret].
  apply preserves_bind; [apply preserves_truediv | intros mean].
  apply preserves_bind; [apply preserves_modify_emit | intros _].
  apply preserves_ret.
Qed.

Lemma preserves_iterate loader : preserves proj (iterate loader).
Proof.
  unfold iterate. apply preserves_bind.
  - destruct (dl_shuffle loader); [| apply preserves_ret].
    intros s. unfold random_sampler.
    destruct (sampler_order _ _) as [p g]. apply Hproj.
  - intros order. destruct (mapM _ order);
      [apply preserves_ret | apply preserves_raise].
Qed.

Lemma preserves_validate valloader : preserves proj (validate valloader).
Proof.
  unfold validate. apply preserves_bind; [apply preserves_iterate |].
  intros val_batches. apply preserves_for_each.
  intros acc item s. by rewrite validate_batch_run.
Qed.

Lemma preserves_tune_report m : preserves proj (tune_report m).
Proof.
  intros s. rewrite tune_report_run. cbn [snd]. unfold after_report.
  destruct Hproj as (_ & _ & Hemit & Hit & _). by rewrite Hemit, Hit.
Qed.

Lemma preserves_split_train_val trainset :
  preserves proj (split_train_val trainset).
Proof.
  unfold split_train_val. apply preserves_bind.
  - unfold split_point, py_int.
    destruct (Float64.to_int _); [apply preserves_ret | apply preserves_raise].
  - intros test_abs. apply preserves_bind.
    + unfold random_split. case_decide; [| apply preserves_raise].
      apply preserves_bind; [| intros perm; apply preserves_ret].
      intros s. unfold torch_randperm.
      destruct (randperm _ _) as [p g]. apply Hproj.
    + intros [|a [|b [|c l]]]; try apply preserves_raise. apply preserves_ret.
Qed.

(** An epoch changes the view only through the file it writes. *)
Lemma preserves_train_epoch trainloader valloader epoch :
  preserves proj (save_checkpoint epoch) ->
  preserves proj (train_epoch trainloader valloader tt epoch).
Proof.
  intros Hsave. unfold train_epoch.
  apply preserves_bind; [apply preserves_iterate | intros train_batches].
  apply preserves_bind;
    [apply preserves_for_each, preserves_train_batch | intros _].
  apply preserves_bind; [apply preserves_validate |].
  intros [[[val_loss val_steps] total] correct].
  apply preserves_bind; [exact Hsave | intros _].
  apply preserves_bind; [apply preserves_truediv | intros l].
  apply preserves_bind; [apply preserves_truediv | intros a].
  apply preserves_tune_report.
Qed.

Lemma preserves_for_each_in {A B} (xs : list A) (body : B -> A -> M B) :
  (forall acc x, x ∈ xs -> preserves proj (body acc x)) ->
  forall acc, preserves proj (for_each xs acc body).
Proof.
  induction xs as [|x xs IH]; intros Hbody acc; cbn [for_each].
  - apply preserves_ret.
  - apply preserves_bind.
    + apply Hbody, list_elem_of_here.
    + intros acc'. apply IH. intros acc'' y Hy.
      by apply Hbody, list_elem_of_further.
Qed.

End Insensitive.

(** The first statements of [train_cifar], up to the optional resume. *)
Definition trial_setup (config : Configuration)
    (checkpoint_dir : option string) : M unit :=
  new_module [l1 config; l2 config];;
  new_SGD (lr config) (9 # 10);;
  (if truthy checkpoint_dir then
     '(model_state, optimizer_state) ←
       torch_load (os_path_join (default "" checkpoint_dir) "checkpoint");
     load_state_dict model_state;;
     optimizer_load_state_dict optimizer_state
   else mret tt).

(** The rest of [train_cifar]. *)
Definition trial_body (config : Configuration) (data_dir : string) : M unit :=
  '(trainset, testset) ← load_data data_dir;
  '(train_subset, val_subset) ← split_train_val trainset;
  trainloader ← new_DataLoader train_subset (batch_size config) true;
  valloader ← new_DataLoader val_subset (batch_size config) true;
  for_each (range 10) tt (train_epoch trainloader valloader);;
  print FinishedTraining.

Lemma train_cifar_split (config : Configuration)
    (checkpoint_dir : option string) (data_dir : string) (s : State) :
  train_cifar config checkpoint_dir data_dir s
  = match trial_setup config checkpoint_dir s with
    | (Ok _, s') => trial_body config data_dir s'
    | (Raise e, s') => (Raise e, s')
    | (Stopped, s') => (Stopped, s')
    end.
Proof.
  unfold train_cifar, trial_setup, trial_body. rewrite !bind_run.
  destruct (new_module _ s) as [[[] | e |] s1]; [| done | done].
  rewrite !bind_run.
  destruct (new_SGD _ _ s1) as [[[] | e |] s2]; [| done | done].
  rewrite !bind_run.
  match goal with
  | |- context [match ?m s2 with _ => _ end] => destruct (m s2) as [[[] | e |] s3]
  end; done.
Qed.

Definition checkpoint_path (epoch : Z) : string :=
  os_path_join (trial_checkpoint_dir epoch) "checkpoint".

Lemma preserves_trial_body {X} (proj : State -> X) config data_dir :
  insensitive proj ->
  (forall epoch, 0 <= epoch < 10 -> preserves proj (save_checkpoint epoch)) ->
  preserves proj (trial_body config data_dir).
Proof.
  intros Hproj Hsave. unfold trial_body.
  apply preserves_bind; [apply preserves_ret |].
  intros [trainset testset].
  apply preserves_bind; [by apply preserves_split_train_val |].
  intros [train_subset val_subset].
  apply preserves_bind; [apply preserves_new_DataLoader | intros trainloader].
  apply preserves_bind; [apply preserves_new_DataLoader | intros valloader].
  apply preserves_bind; [| intros _; by apply preserves_modify_emit].
  apply preserves_for_each_in. intros [] epoch Hepoch.
  apply preserves_train_epoch; [done |]. apply Hsave.
  unfold range in Hepoch. apply list_elem_of_fmap in Hepoch as (i & -> & Hi).
  apply elem_of_seq in Hi. lia.
Qed.

(** The settings of a trial: NumPy's generator, the architecture and the
    mode of the module, the hyperparameters of the optimizer. *)
Definition trial_settings (s : State) :=
  (np_rng s, shape (net s), training (net s),
   opt_lr (optimizer s), opt_momentum (optimizer s)).

Lemma insensitive_settings : insensitive trial_settings.
Proof. repeat split; by intros; destruct s. Qed.


Lemma save_checkpoint_settings epoch :
  preserves trial_settings (save_checkpoint epoch).
Proof. intros s. rewrite save_checkpoint_run. by destruct s. Qed.


Lemma preserves_resume {X} (proj : State -> X)
    (checkpoint_dir : option string) :
  (forall sd, preserves proj (load_state_dict sd)) ->
  (forall o, preserves proj (optimizer_load_state_dict o)) ->
  preserves proj
    (if truthy checkpoint_dir then
       '(model_state, optimizer_state) ←
         torch_load (os_path_join (default "" checkpoint_dir) "checkpoint");
       load_state_dict model_state;;
       optimizer_load_state_dict optimizer_state
     else mret tt).
Proof.
  intros Hload Hopt. destruct (truthy checkpoint_dir); [| apply preserves_ret].
  apply preserves_bind.
  - intros s. unfold torch_load. by destruct (fs s !! _) as [[]|].
  - intros [model_state optimizer_state].
    apply preserves_bind; [apply Hload | intros _; apply Hopt].
Qed.

(** What the setup does, however it ends: it touches neither NumPy's
    generator nor the grad mode nor the files, prints nothing, and
    leaves a module of the configured layer sizes in training mode. *)
Lemma trial_setup_state (config : Configuration)
    (checkpoint_dir : option string) (s : State) :
  let s' := (trial_setup config checkpoint_dir s).2 in
  (np_rng s', fs s', trace s') = (np_rng s, fs s, trace s) /\
  (shape (net s'), training (net s')) = ([l1 config; l2 config], true).
Proof.
  cbv zeta. split.
  - revert s.
    change (preserves (fun s => (np_rng s, fs s, trace s))
              (trial_setup config checkpoint_dir)).
    apply preserves_bind; [| intros _; apply preserves_bind].
    + intros s. unfold new_module. destruct (init_params _ _) as [w g].
      by destruct s.
    + by intros [].
    + intros _. apply preserves_resume.
      * intros sd s. unfold load_state_dict. case_decide; [| done].
        by destruct s.
      * by intros o [].
  - unfold trial_setup.
    destruct (init_params [l1 config; l2 config] (torch_rng s)) as [w g] eqn:Hinit.
    erewrite bind_ok; [| unfold new_module; rewrite Hinit; reflexivity].
    match goal with
    | |- context [(?m ≫= ?f) ?st] =>
        pose proof (preserves_bind (fun s => (shape (net s), training (net s)))
                      m f) as Hrest; set (s1 := st) in *
    end.
    ospecialize (Hrest _ _ s1).
    + by intros [].
    + intros _. apply preserves_resume.
      * intros sd s'. unfold load_state_dict. case_decide; [| done].
        by destruct s'.
      * by intros o [].
    + cbv beta in Hrest. rewrite Hrest. by destruct s.
Qed.

End Frame.

Section TrialFrame.
Context `{NumpyRandom} `{Torch} `{Tune}.

Lemma trial_body_settings config data_dir :
  preserves trial_settings (trial_body config data_dir).
Proof.
  apply preserves_trial_body; [apply insensitive_settings |].
  intros epoch _. apply save_checkpoint_settings.
Qed.

(** The settings a trial ends with, however it ends. *)
Lemma train_cifar_settings (config : Configuration)
    (checkpoint_dir : option string) (data_dir : string) (s : State) :
  let r := train_cifar config checkpoint_dir data_dir s in
  np_rng r.2 = np_rng s /\
  shape (net r.2) = [l1 config; l2 config] /\
  training (net r.2) = true.
Proof.
  cbv zeta.
  destruct (trial_setup_state config checkpoint_dir s) as [Hkeep Hnet].
  cbv zeta in Hkeep, Hnet. rewrite train_cifar_split in *.
  pose proof (trial_body_settings config data_dir) as Hbody.
  injection Hkeep as Hnp1 _ _. injection Hnet as Hshape1 Htraining1.
  destruct (trial_setup config checkpoint_dir s) as [[[] | e |] s1];
    cbn [snd] in *; [| done | done].
  specialize (Hbody s1). unfold trial_settings in Hbody.
  injection Hbody as Hnp Hshape Htraining _ _.
  repeat split; congruence.
Qed.

(** X1. However a trial ends (normally, stopped by the scheduler, or in
    an exception), [train_cifar] has not drawn from NumPy's generator
    and has put the grad mode back to what it found; the module it
    leaves has the configured layer sizes and is in training mode:
    [eval()] is never called, the validation passes run in training
    mode. *)
Theorem train_cifar_modes (config : Configuration)
    (checkpoint_dir : option string) (data_dir : string) (s : State) :
  let r := train_cifar config checkpoint_dir data_dir s in
  np_rng r.2 = np_rng s /\
  grad_enabled r.2 = grad_enabled s /\
  shape (net r.2) = [l1 config; l2 config] /\
  training (net r.2) = true.
Proof.
  cbv zeta.
  destruct (train_cifar_shape config checkpoint_dir data_dir s)
    as (ms & tail & _ & _ & Hg & _).
  destruct (train_cifar_settings config checkpoint_dir data_dir s)
    as (Hnp & Hshape & Htraining).
  by repeat split.
Qed.


(** The setup without a checkpoint to resume from. *)
Lemma trial_setup_fresh (config : Configuration)
    (checkpoint_dir : option string) (s : State) :
  truthy checkpoint_dir = false ->
  exists s',
    trial_setup config checkpoint_dir s = (Ok tt, s') /\
    net s' = {| shape := [l1 config; l2 config];
                weights := (init_params [l1 config; l2 config] (torch_rng s)).1;
                grad := None; training := true |} /\
    optimizer s' = {| opt_lr := lr config; opt_momentum := 9 # 10;
                      opt_buffers := init_buffers |} /\
    session_view s' = session_view s /\ trace s' = trace s /\ fs s' = fs s.
Proof.
  intros Htruthy. unfold trial_setup. rewrite Htruthy.
  destruct (init_params [l1 config; l2 config] (torch_rng s)) as [w g] eqn:Hinit.
  erewrite bind_ok; [| unfold new_module; rewrite Hinit; reflexivity].
  erewrite bind_ok; [| reflexivity].
  eexists. split; [reflexivity |]. by destruct s.
Qed.

(** The setup with a checkpoint of the configured architecture. *)
Lemma trial_setup_resume (config : Configuration) (dir : string)
    (model_state : StateDict) (optimizer_state : Optimizer) (s : State) :
  truthy (Some dir) = true ->
  fs s !! os_path_join dir "checkpoint"
    = Some (Pickled model_state optimizer_state) ->
  sd_shape model_state = [l1 config; l2 config] ->
  exists s',
    trial_setup config (Some dir) s = (Ok tt, s') /\
    net s' = {| shape := [l1 config; l2 config];
                weights := sd_weights model_state;
                grad := None; training := true |} /\
    optimizer s' = optimizer_state /\
    session_view s' = session_view s /\ trace s' = trace s /\ fs s' = fs s.
Proof.
  intros Htruthy Hfile Hshape. unfold trial_setup. rewrite Htruthy.
  cbn [default from_option id].
  destruct (init_params [l1 config; l2 config] (torch_rng s)) as [w g] eqn:Hinit.
  erewrite bind_ok; [| unfold new_module; rewrite Hinit; reflexivity].
  erewrite bind_ok; [| reflexivity].
  match goal with
  | |- context [(_ ≫= _) ?st] => set (s2 := st)
  end.
  assert (Hfs : fs s2 = fs s) by (by destruct s).
  erewrite bind_ok; [| unfold torch_load; rewrite Hfs, Hfile; reflexivity].
  cbv beta iota.
  erewrite bind_ok; cycle 1.
  { unfold load_state_dict. rewrite decide_True; [reflexivity |].
    rewrite Hshape. subst s2. by destruct s. }
  eexists. split; [reflexivity |]. subst s2. by destruct s.
Qed.

(** X3. Resuming restores everything the checkpoint holds. When the
    checkpoint file holds the state of a module of the configured layer
    sizes, [train_cifar] goes on from the saved parameters and the saved
    optimizer state, learning rate and momentum included: the [lr] of
    the configuration is overridden by the one in the checkpoint, which
    is the one the optimizer has at the end. What follows is the whole
    loop of ten epochs, numbered from 0 again. *)
Theorem resume_restores_checkpoint (config : Configuration)
    (dir data_dir : string) (model_state : StateDict)
    (optimizer_state : Optimizer) (s : State) :
  truthy (Some dir) = true ->
  fs s !! os_path_join dir "checkpoint"
    = Some (Pickled model_state optimizer_state) ->
  sd_shape model_state = [l1 config; l2 config] ->
  let r := train_cifar config (Some dir) data_dir s in
  (exists s',
     r = trial_body config data_dir s' /\
     weights (net s') = sd_weights model_state /\
     optimizer s' = optimizer_state /\
     trace s' = trace s) /\
  opt_lr (optimizer r.2) = opt_lr optimizer_state /\
  opt_momentum (optimizer r.2) = opt_momentum optimizer_state.
Proof.
  intros Htruthy Hfile Hshape r. subst r.
  destruct (trial_setup_resume config dir model_state optimizer_state s
              Htruthy Hfile Hshape)
    as (s' & Hrun & Hnet & Hopt & _ & Htrace & _).
  rewrite train_cifar_split, Hrun.
  split; [exists s'; by rewrite Hnet |].
  pose proof (trial_body_settings config data_dir s') as Hbody.
  unfold trial_settings in Hbody.
  injection Hbody as _ _ _ Hlr Hmom. by rewrite Hlr, Hmom, Hopt.
Qed.

(** X4. The checkpoint block and the resume block are inverse to each
    other: started on the checkpoint directory that the checkpoint block
    of some epoch has just written from a module of the configured layer
    sizes, [train_cifar] goes on from the parameters and the optimizer
    state the trial had when it wrote it. *)
Theorem checkpoint_resume_round_trip (config : Configuration) (epoch : Z)
    (data_dir : string) (s : State) :
  truthy (Some (trial_checkpoint_dir epoch)) = true ->
  shape (net s) = [l1 config; l2 config] ->
  let saved := (save_checkpoint epoch s).2 in
  exists s',
    train_cifar config (Some (trial_checkpoint_dir epoch)) data_dir saved
    = trial_body config data_dir s' /\
    weights (net s') = weights (net s) /\
    optimizer s' = optimizer s.
Proof.
  intros Htruthy Hshape saved.
  destruct (trial_setup_resume config (trial_checkpoint_dir epoch)
              {| sd_shape := shape (net s); sd_weights := weights (net s) |}
              (optimizer s) saved Htruthy)
    as (s' & Hrun & Hnet & Hopt & _).
  { subst saved. rewrite save_checkpoint_run. unfold after_checkpoint.
    destruct s. cbn. apply lookup_insert_eq. }
  { exact Hshape. }
  exists s'. rewrite train_cifar_split, Hrun. by rewrite Hnet.
Qed.

(** X5. A checkpoint of another architecture is refused before anything
    happens: when the checkpoint file holds the state of a module whose
    layer sizes are not the configured ones, [train_cifar] ends in the
    [RuntimeError] of [load_state_dict], having trained, printed,
    reported and written nothing. *)
Theorem resume_wrong_architecture (config : Configuration)
    (dir data_dir : string) (model_state : StateDict)
    (optimizer_state : Optimizer) (s : State) :
  truthy (Some dir) = true ->
  fs s !! os_path_join dir "checkpoint"
    = Some (Pickled model_state optimizer_state) ->
  sd_shape model_state ≠ [l1 config; l2 config] ->
  let r := train_cifar config (Some dir) data_dir s in
  r.1 = Raise RuntimeError /\ trace r.2 = trace s /\ fs r.2 = fs s.
Proof.
  intros Htruthy Hfile Hshape r. subst r.
  destruct (trial_setup_state config (Some dir) s) as [Hkeep _].
  cbv zeta in Hkeep. rewrite train_cifar_split.
  assert (Hraise : (trial_setup config (Some dir) s).1 = Raise RuntimeError).
  { unfold trial_setup. rewrite Htruthy. cbn [default from_option id].
    destruct (init_params [l1 config; l2 config] (torch_rng s)) as [w g] eqn:Hinit.
    erewrite bind_ok; [| unfold new_module; rewrite Hinit; reflexivity].
    erewrite bind_ok; [| reflexivity].
    match goal with
    | |- context [(_ ≫= _) ?st] => set (s2 := st)
    end.
    assert (Hfs : fs s2 = fs s) by (by destruct s).
    erewrite bind_ok; [| unfold torch_load; rewrite Hfs, Hfile; reflexivity].
    cbv beta iota. erewrite bind_raise; [reflexivity |].
    unfold load_state_dict. rewrite decide_False; [reflexivity |].
    subst s2. by destruct s. }
  destruct (trial_setup config (Some dir) s) as [r s1]. cbn [fst snd] in *.
  subst r. injection Hkeep as _ Hfs Htrace. by repeat split.
Qed.


End TrialFrame.

(** ** Epochs, step by step *)

Section EpochRun.
Context `{NumpyRandom} `{Torch} `{Tune}.

(** The number of batches a loader cuts [n] items into. *)
Definition batch_count (n batch_size : Z) : Z :=
  (n + batch_size - 1) / batch_size.

Lemma length_batches_fuel {A} (size : nat) :
  (0 < size)%nat ->
  forall (fuel : nat) (xs : list A),
    (length xs <= fuel)%nat ->
    len (batches_fuel fuel size xs) = batch_count (len xs) (Z.of_nat size).
Proof.
  intros Hsize. unfold batch_count, len.
  induction fuel as [|fuel IH]; intros xs Hlen.
  - destruct xs; [| cbn in Hlen; lia]. cbn.
    symmetry. apply Z.div_small. lia.
  - destruct xs as [|x xs].
    { cbn. symmetry. apply Z.div_small. lia. }
    cbn [batches_fuel]. cbn [length] in Hlen.
    change (length (take size (x :: xs) :: ?l)) with (S (length l)).
    rewrite Nat2Z.inj_succ, IH by (rewrite length_drop; cbn [length]; lia).
    rewrite length_drop.
    set (n := length (x :: xs)). assert (Hn : (1 <= n)%nat) by (subst n; cbn; lia).
    clearbody n.
    destruct (decide (size <= n)%nat) as [Hle | Hgt].
    + replace (Z.of_nat (n - size) + Z.of_nat size - 1) with (Z.of_nat n - 1) by lia.
      replace (Z.of_nat n + Z.of_nat size - 1)
        with (Z.of_nat n - 1 + 1 * Z.of_nat size) by lia.
      rewrite Z.div_add by lia. lia.
    + replace (Z.of_nat (n - size) + Z.of_nat size - 1) with (Z.of_nat size - 1) by lia.
      replace (Z.of_nat n + Z.of_nat size - 1)
        with (Z.of_nat n - 1 + 1 * Z.of_nat size) by lia.
      rewrite Z.div_add by lia.
      rewrite !Z.div_small by lia. lia.
Qed.

Lemma length_batches {A} (size : nat) (xs : list A) :
  (0 < size)%nat ->
  len (batches size xs) = batch_count (len xs) (Z.of_nat size).
Proof. intros Hsize. by apply length_batches_fuel. Qed.

Lemma length_iteration_items (loader : DataLoader) (s : State) :
  ds_valid (dl_dataset loader) ->
  length (iteration_items loader s) = ds_len (dl_dataset loader).
Proof.
  intros Hv. rewrite (Permutation_length (iteration_items_perm loader s)).
  by apply length_ds_items.
Qed.

(** The batches of one pass over a loader, given the state the pass
    starts in. *)
Definition pass_batches (loader : DataLoader) (s : State)
  : list (list Sample) :=
  batches (Z.to_nat (dl_batch_size loader)) (iteration_items loader s).

Lemma length_pass_batches (loader : DataLoader) (s : State) :
  ds_valid (dl_dataset loader) -> 0 < dl_batch_size loader ->
  len (pass_batches loader s)
  = batch_count (Z.of_nat (ds_len (dl_dataset loader))) (dl_batch_size loader).
Proof.
  intros Hv Hbs. unfold pass_batches. rewrite length_batches by lia.
  unfold len. rewrite length_iteration_items by done.
  by rewrite Z2Nat.id by lia.
Qed.

Lemma after_iteration_state (loader : DataLoader) (s : State) :
  let s' := after_iteration loader s in
  wb s' = wb s /\ session_view s' = session_view s /\
  trace s' = trace s /\ optimizer s' = optimizer s /\ net s' = net s /\
  fs s' = fs s.
Proof.
  cbv zeta. unfold after_iteration.
  destruct (dl_shuffle loader); [| done]. by destruct s.
Qed.

(** The training pass of an epoch, run: [s1] is the state when it is
    over. *)
Lemma train_epoch_pass (trainloader valloader : DataLoader) (epoch : Z)
    (s : State) :
  ds_valid (dl_dataset trainloader) -> ds_valid (dl_dataset valloader) ->
  0 < dl_batch_size valloader ->
  (0 < ds_len (dl_dataset valloader))%nat ->
  grad_enabled s = true ->
  let bs := pass_batches trainloader s in
  let lr := opt_lr (optimizer s) in
  let momentum := opt_momentum (optimizer s) in
  exists s1 m,
    train_epoch trainloader valloader tt epoch s
    = tune_report m (after_checkpoint epoch (after_iteration valloader s1)) /\
    wb s1 = fold_left (sgd_on_batch lr momentum) bs (wb s) /\
    step_count s1 = (step_count s + length bs)%nat /\
    printed_lines s1
    = printed_lines s
        ++ (running_loss_line epoch (step_losses lr momentum (wb s) bs)
              <$> seq 0 (length bs / 2000)) /\
    (shape (net s1), training (net s1), opt_lr (optimizer s1),
     opt_momentum (optimizer s1), np_rng s1, fs s1, session_view s1)
    = (shape (net s), training (net s), opt_lr (optimizer s),
       opt_momentum (optimizer s), np_rng s, fs s, session_view s).
Proof.
  intros Hvt Hvv Hbs Hlen Hg bs lr momentum. unfold train_epoch.
  erewrite bind_ok by by apply iterate_run.
  destruct (after_iteration_state trainloader s)
    as (Hw0 & Hv0 & Ht0 & Ho0 & Hn0 & Hf0).
  set (s0 := after_iteration trainloader s) in *.
  assert (Hg0 : grad_enabled s0 = true).
  { revert Hv0. unfold session_view. intros [= _ _ _ ->]. done. }
  destruct (train_loop_run epoch (enumerate bs) (0%Q, 0) s0 Hg0 ltac:(done))
    as (s1 & Hloop & Hw & Hf & Hc & Hp).
  fold bs. erewrite bind_ok by exact Hloop.
  rewrite enumerate_losses, loop_lines_closed, length_step_losses,
    snd_enumerate, length_enumerate in *.
  rewrite Ho0, Hw0 in *.
  exists s1.
  set (val_batches := batches (Z.to_nat (dl_batch_size valloader))
                        (iteration_items valloader s1)).
  exists (epoch_metrics (weights (net s1)) val_batches).
  split.
  { cbv beta.
    rewrite (bind_ok _ _ s1 _ _ (validate_run valloader s1 Hvv)).
    fold val_batches.
    erewrite bind_ok by apply save_checkpoint_run.
    assert (Hitems : iteration_items valloader s1 ≠ []).
    { intros Hnil. pose proof (length_iteration_items valloader s1 Hvv) as Hl.
      rewrite Hnil in Hl. cbn in Hl. lia. }
    assert (Hsteps : len val_batches ≠ 0).
    { pose proof (batches_not_nil (Z.to_nat (dl_batch_size valloader)) _ Hitems)
        as Hb.
      unfold len. fold val_batches in Hb. destruct val_batches; [done | cbn; lia]. }
    assert (Htotal : len (concat val_batches) ≠ 0).
    { unfold val_batches. rewrite batches_concat by lia.
      unfold len. destruct (iteration_items valloader s1); [done | cbn; lia]. }
    erewrite bind_ok by by apply truediv_ok.
    erewrite bind_ok by by apply truediv_ok.
    reflexivity. }
  split; [exact Hw |]. split; [by rewrite Hc; unfold step_count; rewrite Ht0 |].
  split; [by rewrite Hp; unfold printed_lines; rewrite Ht0 |].
  assert (Hnp : np_rng s0 = np_rng s).
  { subst s0. unfold after_iteration. destruct (dl_shuffle trainloader);
      by destruct s. }
  unfold step_frame in Hf. rewrite Hn0, Ho0, Hf0, Hv0, Hnp in Hf.
  congruence.
Qed.

Lemma report_count_emit (e : Event) (s : State) :
  report_count (emit e s)
  = (report_count s + if is_report e then 1 else 0)%nat.
Proof.
  unfold report_count. destruct s. cbn.
  rewrite List.filter_app, length_app. by destruct e.
Qed.

(** The state an epoch ends in, given the state [s1] its training pass
    ended in. *)
Lemma epoch_end_state (valloader : DataLoader) (epoch : Z) (m : Metrics)
    (s1 : State) :
  let s' := after_report m
              (after_checkpoint epoch (after_iteration valloader s1)) in
  net s' = net s1 /\ optimizer s' = optimizer s1 /\
  step_count s' = step_count s1 /\ printed_lines s' = printed_lines s1 /\
  report_count s' = S (report_count s1) /\
  grad_enabled s' = grad_enabled s1 /\
  fs s' = <[checkpoint_path epoch := checkpoint_file s1]> (fs s1).
Proof.
  cbv zeta. unfold after_report, after_checkpoint.
  rewrite !step_count_emit, !printed_lines_emit, !report_count_emit.
  cbn [is_report checkpoint_event]. rewrite !app_nil_r, !Nat.add_0_r.
  unfold after_iteration, checkpoint_path, checkpoint_file.
  destruct (dl_shuffle valloader); destruct s1; cbn;
    rewrite ?List.filter_app, ?omap_app, ?length_app; cbn;
    rewrite ?app_nil_r; repeat split; try done; lia.
Qed.

End EpochRun.

Section EpochTheorems.
Context `{NumpyRandom} `{Torch} `{Tune}.

(** X7. The training pass of an epoch is one pass of mini-batch SGD with
    momentum over a fresh shuffle of the training subset. The batches
    hold every training sample exactly once, there are
    ceil(n / batch_size) of them and none is empty; the optimizer takes
    exactly one step per batch; and the parameters and momentum buffers
    the epoch ends with are those obtained by folding the SGD update
    over the batches, each gradient being that of its batch alone
    (whatever gradients were left in the buffers before). Learning rate
    and momentum are the same after the epoch. *)
Theorem epoch_is_one_sgd_pass (trainloader valloader : DataLoader)
    (epoch : Z) (s : State) :
  ds_valid (dl_dataset trainloader) -> ds_valid (dl_dataset valloader) ->
  0 < dl_batch_size trainloader -> 0 < dl_batch_size valloader ->
  (0 < ds_len (dl_dataset valloader))%nat ->
  grad_enabled s = true ->
  let r := train_epoch trainloader valloader tt epoch s in
  let bs := pass_batches trainloader s in
  let lr := opt_lr (optimizer s) in
  let momentum := opt_momentum (optimizer s) in
  concat bs ≡ₚ ds_items (dl_dataset trainloader) /\
  Forall (fun b => b ≠ []) bs /\
  len bs = batch_count (Z.of_nat (ds_len (dl_dataset trainloader)))
             (dl_batch_size trainloader) /\
  step_count r.2 = (step_count s + length bs)%nat /\
  wb r.2 = fold_left (sgd_on_batch lr momentum) bs (wb s) /\
  opt_lr (optimizer r.2) = lr /\ opt_momentum (optimizer r.2) = momentum.
Proof.
  intros Hvt Hvv Hbt Hbv Hlen Hg r bs lr momentum.
  destruct (train_epoch_pass trainloader valloader epoch s Hvt Hvv Hbv Hlen Hg)
    as (s1 & m & Hrun & Hw & Hc & _ & Hf).
  destruct (epoch_end_state valloader epoch m s1)
    as (Hnet & Hopt & Hcount & _).
  subst r. rewrite Hrun, tune_report_run. cbn [snd].
  split; [| split; [| split; [| split; [| split]]]].
  - subst bs. unfold pass_batches. rewrite batches_concat by lia.
    apply iteration_items_perm.
  - apply batches_fuel_nonempty. lia.
  - by apply length_pass_batches.
  - by rewrite Hcount, Hc.
  - unfold wb at 1. rewrite Hnet, Hopt. exact Hw.
  - rewrite Hopt. subst lr momentum. injection Hf as _ _ -> -> _ _ _. done.
Qed.

(** X8. What the training pass prints. One line after every 2000th
    batch of the epoch and nothing else: a pass over [n] batches prints
    floor(n / 2000) lines, the k-th (from 0) after batch 2000 (k + 1),
    with the epoch number counted from 1. The value printed is the sum
    of the losses of the last 2000 batches divided by the number of all
    batches of the epoch so far, 2000 (k + 1): [running_loss] is reset
    after each line, [epoch_steps] is not. Only the first line of an
    epoch is the mean loss of the batches it covers. *)
Theorem running_loss_lines (trainloader valloader : DataLoader)
    (epoch : Z) (s : State) :
  ds_valid (dl_dataset trainloader) -> ds_valid (dl_dataset valloader) ->
  0 < dl_batch_size valloader ->
  (0 < ds_len (dl_dataset valloader))%nat ->
  grad_enabled s = true ->
  let r := train_epoch trainloader valloader tt epoch s in
  let bs := pass_batches trainloader s in
  let losses :=
    step_losses (opt_lr (optimizer s)) (opt_momentum (optimizer s)) (wb s) bs in
  printed_lines r.2
  = printed_lines s
      ++ ((fun k : nat =>
             RunningLoss (epoch + 1) (2000 * (Z.of_nat k + 1))
               (fold_left Qplus (take 2000 (drop (2000 * k) losses)) 0
                / inject_Z (2000 * (Z.of_nat k + 1)))%Q)
            <$> seq 0 (length bs / 2000)).
Proof.
  intros Hvt Hvv Hbv Hlen Hg r bs losses.
  destruct (train_epoch_pass trainloader valloader epoch s Hvt Hvv Hbv Hlen Hg)
    as (s1 & m & Hrun & _ & _ & Hp & _).
  destruct (epoch_end_state valloader epoch m s1) as (_ & _ & _ & Hlines & _).
  subst r. rewrite Hrun, tune_report_run. cbn [snd].
  by rewrite Hlines, Hp.
Qed.

(** X9. The checkpoint of an epoch holds the model its report describes:
    when an epoch has reported, the checkpoint file of that epoch holds
    the parameters and the optimizer state exactly as they are at that
    moment; between the checkpoint and the report nothing changes
    them. *)
Theorem checkpoint_holds_reported_model (trainloader valloader : DataLoader)
    (epoch : Z) (s : State) :
  ds_valid (dl_dataset trainloader) -> ds_valid (dl_dataset valloader) ->
  0 < dl_batch_size valloader ->
  (0 < ds_len (dl_dataset valloader))%nat ->
  grad_enabled s = true ->
  let r := train_epoch trainloader valloader tt epoch s in
  fs r.2 !! os_path_join (trial_checkpoint_dir epoch) "checkpoint"
  = Some (Pickled {| sd_shape := shape (net r.2);
                     sd_weights := weights (net r.2) |}
            (optimizer r.2)).
Proof.
  intros Hvt Hvv Hbv Hlen Hg r.
  destruct (train_epoch_pass trainloader valloader epoch s Hvt Hvv Hbv Hlen Hg)
    as (s1 & m & Hrun & _).
  destruct (epoch_end_state valloader epoch m s1)
    as (Hnet & Hopt & _ & _ & _ & _ & Hfs).
  subst r. rewrite Hrun, tune_report_run. cbn [snd].
  rewrite Hfs, Hnet, Hopt. apply lookup_insert_eq.
Qed.

End EpochTheorems.

(** ** Trials, epoch by epoch *)

Section TrialRun.
Context `{NumpyRandom} `{Torch} `{Tune}.

(** The loop over the epochs on valid loaders with a non-empty validation
    set: [n] is the number of epochs that ran. *)
Lemma epochs_run (trainloader valloader : DataLoader) :
  ds_valid (dl_dataset trainloader) -> ds_valid (dl_dataset valloader) ->
  0 < dl_batch_size trainloader -> 0 < dl_batch_size valloader ->
  (0 < ds_len (dl_dataset valloader))%nat ->
  forall (epochs : list Z) (s : State),
    grad_enabled s = true ->
    let r := for_each epochs tt (train_epoch trainloader valloader) s in
    exists n : nat,
      (r.1 = Ok tt /\ n = length epochs \/
       r.1 = Stopped /\ (1 <= n <= length epochs)%nat) /\
      report_count r.2 = (report_count s + n)%nat /\
      Z.of_nat (step_count r.2)
      = Z.of_nat (step_count s)
        + Z.of_nat n
          * batch_count (Z.of_nat (ds_len (dl_dataset trainloader)))
              (dl_batch_size trainloader) /\
      (forall epoch, epochs !! (n - 1)%nat = Some epoch -> (1 <= n)%nat ->
         fs r.2 !! checkpoint_path epoch = Some (checkpoint_file r.2)) /\
      (n = 0%nat -> r.2 = s).
Proof.
  intros Hvt Hvv Hbt Hbv Hlen.
  induction epochs as [|epoch epochs IH]; intros s Hg; cbv zeta.
  - exists 0%nat. cbn. repeat split; try lia; try done. by left.
  - cbn [for_each]. rewrite bind_run.
    destruct (train_epoch_pass trainloader valloader epoch s Hvt Hvv Hbv Hlen Hg)
      as (s1 & m & -> & _ & Hc & _ & Hf).
    destruct (epoch_end_state valloader epoch m s1)
      as (Hnet & Hopt & Hcount & _ & Hreports & Hg4 & Hfs).
    rewrite tune_report_run.
    set (s4 := after_report m _) in *.
    assert (Hsteps : Z.of_nat (step_count s4)
                     = Z.of_nat (step_count s)
                       + batch_count (Z.of_nat (ds_len (dl_dataset trainloader)))
                           (dl_batch_size trainloader)).
    { rewrite Hcount, Hc, Nat2Z.inj_add.
      by rewrite <- (length_pass_batches trainloader s). }
    assert (Hr1 : report_count s1 = report_count s).
    { rewrite !report_count_tune.
      assert (Ht : tune_trace s1 = tune_trace s); [| by rewrite Ht].
      revert Hf. unfold session_view. by intros [= _ _ _ _ _ _ -> _ _ _]. }
    assert (Hg1 : grad_enabled s4 = true).
    { rewrite Hg4. revert Hf. unfold session_view.
      intros [= _ _ _ _ _ _ _ _ _ ->]. done. }
    assert (Hfile : fs s4 !! checkpoint_path epoch = Some (checkpoint_file s4)).
    { rewrite Hfs. unfold checkpoint_file. rewrite Hnet, Hopt.
      apply lookup_insert_eq. }
    destruct (should_stop _ _ _).
    + exists 1%nat. cbn [fst snd length].
      split; [right; split; [done | lia] |].
      split; [rewrite Hreports, Hr1; lia |].
      split; [lia |]. split; [| done].
      intros epoch' [= <-] _. exact Hfile.
    + destruct (IH s4 Hg1) as (n & Hout & Hrep & Hst & Hck & Hzero).
      exists (S n). cbn [length].
      split.
      { destruct Hout as [[-> ->] | [-> Hn]]; [by left | right; split; [done | lia]]. }
      split; [rewrite Hrep, Hreports, Hr1; lia |].
      split; [rewrite Hst, Hsteps; lia |].
      split; [| done].
      intros epoch' Hlook _. destruct n as [|n].
      * cbn in Hlook. injection Hlook as <-. by rewrite Hzero.
      * apply Hck; [| lia].
        replace (S n - 1)%nat with n by lia.
        replace (S (S n) - 1)%nat with (S n) in Hlook by lia. exact Hlook.
Qed.

(** The body of [train_cifar] on a training set of at least two samples:
    the loaders it builds, and the state the loop over the epochs starts
    in. *)
Lemma trial_body_run (config : Configuration) (data_dir : string)
    (s : State) :
  0 < batch_size config -> 2 <= len (cifar10 true) < 2 ^ 50 ->
  exists (trainloader valloader : DataLoader) (s' : State),
    trial_body config data_dir s
    = (for_each (range 10) tt (train_epoch trainloader valloader);;
       print FinishedTraining) s' /\
    ds_valid (dl_dataset trainloader) /\ ds_valid (dl_dataset valloader) /\
    dl_batch_size trainloader = batch_size config /\
    dl_batch_size valloader = batch_size config /\
    Z.of_nat (ds_len (dl_dataset trainloader)) = 4 * len (cifar10 true) / 5 /\
    (0 < ds_len (dl_dataset valloader))%nat /\
    s' = set_torch_rng (randperm (length (cifar10 true)) (torch_rng s)).2 s.
Proof.
  intros Hbs Hn. unfold trial_body.
  erewrite bind_ok by reflexivity. cbv beta iota.
  set (trainset := Stored (cifar10 true) true).
  rewrite (bind_ok _ _ s _ _ (split_train_val_run trainset s (proj2 Hn))).
  cbv beta iota.
  pose proof (randperm_perm (ds_len trainset) (torch_rng s)) as Hperm.
  pose proof (Permutation_length Hperm) as Hlen. rewrite length_seq in Hlen.
  set (perm := (randperm (ds_len trainset) (torch_rng s)).1) in *.
  set (k := Z.to_nat (4 * Z.of_nat (ds_len trainset) / 5)).
  assert (Hk : 1 <= 4 * Z.of_nat (ds_len trainset) / 5
               < Z.of_nat (ds_len trainset)).
  { change (ds_len trainset) with (length (cifar10 true)). unfold len in Hn.
    split; [apply Z.div_le_lower_bound; lia
           | apply Z.div_lt_upper_bound; lia]. }
  erewrite bind_ok;
    [| unfold new_DataLoader; rewrite decide_False by lia; reflexivity].
  erewrite bind_ok;
    [| unfold new_DataLoader; rewrite decide_False by lia; reflexivity].
  eexists _, _, _. split; [reflexivity |]. cbn [dl_dataset dl_batch_size ds_len].
  split.
  { eapply subset_valid; [exact Hperm |]. intros i Hi.
    apply elem_of_take in Hi as (j & Hj & _).
    by eapply list_elem_of_lookup_2. }
  split.
  { eapply subset_valid; [exact Hperm |]. intros i Hi.
    rewrite <- (take_drop k perm). apply elem_of_app. by right. }
  split; [done |]. split; [done |].
  rewrite length_take, length_drop, Hlen. subst k.
  change (ds_len trainset) with (length (cifar10 true)) in *. unfold len.
  repeat split; lia.
Qed.

(** A trial without a checkpoint on a training set of at least two
    samples: [n] is the number of epochs that ran. *)
Lemma trial_run (config : Configuration) (checkpoint_dir : option string)
    (data_dir : string) (s : State) :
  truthy checkpoint_dir = false ->
  grad_enabled s = true -> 0 < batch_size config ->
  2 <= len (cifar10 true) < 2 ^ 50 ->
  let r := train_cifar config checkpoint_dir data_dir s in
  exists n : nat,
    (r.1 = Ok tt /\ n = 10%nat \/ r.1 = Stopped /\ (1 <= n <= 10)%nat) /\
    report_count r.2 = (report_count s + n)%nat /\
    Z.of_nat (step_count r.2)
    = Z.of_nat (step_count s)
      + Z.of_nat n * batch_count (4 * len (cifar10 true) / 5) (batch_size config) /\
    fs r.2 !! checkpoint_path (Z.of_nat n - 1) = Some (checkpoint_file r.2).
Proof.
  intros Htruthy Hg Hbs Hn r. subst r.
  destruct (trial_setup_fresh config checkpoint_dir s Htruthy)
    as (s1 & Hsetup & _ & _ & Hv1 & Ht1 & _).
  rewrite train_cifar_split, Hsetup.
  destruct (trial_body_run config data_dir s1 Hbs Hn)
    as (trainloader & valloader & s2 & -> & Hvt & Hvv & Hbt & Hbv & Hlt & Hlv & ->).
  set (s2 := set_torch_rng _ s1).
  assert (Hs2 : grad_enabled s2 = true /\ trace s2 = trace s).
  { subst s2. revert Hv1. unfold session_view. intros [= _ _ _ Hg1].
    rewrite <- Hg, <- Hg1, <- Ht1. by destruct s1. }
  destruct Hs2 as [Hg2 Ht2]. clearbody s2.
  destruct (epochs_run trainloader valloader Hvt Hvv ltac:(lia) ltac:(lia) Hlv
              (range 10) s2 Hg2)
    as (n & Hout & Hrep & Hst & Hck & _).
  rewrite Hlt, Hbt in Hst.
  assert (Hlen10 : length (range 10) = 10%nat) by done.
  rewrite Hlen10 in Hout.
  assert (Hn1 : (1 <= n <= 10)%nat) by (destruct Hout as [[_ ->] | [_ ?]]; lia).
  assert (Hepoch : range 10 !! (n - 1)%nat = Some (Z.of_nat n - 1)).
  { unfold range. rewrite list_lookup_fmap, lookup_seq_lt by (cbn; lia).
    cbn. f_equal. lia. }
  specialize (Hck _ Hepoch ltac:(lia)).
  assert (Hcount : report_count s2 = report_count s /\ step_count s2 = step_count s).
  { unfold report_count, step_count. by rewrite Ht2. }
  destruct Hcount as [Hrs Hss]. rewrite Hrs in Hrep. rewrite Hss in Hst.
  exists n. rewrite bind_run.
  destruct (for_each (range 10) tt _ s2) as [[[] | e |] s3]; cbn [fst snd] in *.
  - unfold print, modify. cbn [fst snd].
    rewrite report_count_emit, step_count_emit. cbn [is_report].
    rewrite !Nat.add_0_r.
    split; [destruct Hout as [[_ ->] | [? _]]; [by left | done] |].
    split; [done |]. split; [done |].
    assert (Hemit : forall e st,
              fs (emit e st) = fs st /\
              checkpoint_file (emit e st) = checkpoint_file st)
      by (by intros ? []).
    destruct (Hemit (Printed FinishedTraining) s3) as [-> ->]. exact Hck.
  - destruct Hout as [[? _] | [? _]]; done.
  - split; [destruct Hout as [[? _] | [_ ?]]; [done | by right] |].
    by repeat split.
Qed.

(** X10. The number of optimizer steps of a trial. A trial on a training
    set of N samples (at least two) takes ceil(floor(0.8 N) / batch_size)
    steps in each epoch it runs, one per batch of the training subset:
    with [n] the number of its reports (10 unless the scheduler stopped
    it), that many times [n] in all. For CIFAR-10 with batch size 16
    that is 2500 steps per epoch. *)
Theorem trial_step_count (config : Configuration) (data_dir : string)
    (s : State) :
  grad_enabled s = true -> 0 < batch_size config ->
  2 <= len (cifar10 true) < 2 ^ 50 ->
  let r := train_cifar config None data_dir s in
  exists n : nat,
    (1 <= n <= 10)%nat /\
    (r.1 = Ok tt -> n = 10%nat) /\
    report_count r.2 = (report_count s + n)%nat /\
    Z.of_nat (step_count r.2)
    = Z.of_nat (step_count s)
      + Z.of_nat n
        * ((4 * len (cifar10 true) / 5 + batch_size config - 1)
           / batch_size config).
Proof.
  intros Hg Hbs Hn r.
  destruct (trial_run config None data_dir s eq_refl Hg Hbs Hn)
    as (n & Hout & Hrep & Hst & _).
  exists n. fold r in Hout. split; [| split; [| by split]].
  - destruct Hout as [[_ ->] | [_ ?]]; lia.
  - intros Hok. destruct Hout as [[_ ->] | [Hstop _]]; [done | congruence].
Qed.

(** X11. The last checkpoint of a trial is the model it ends with. When
    a trial ends, completed or stopped by the scheduler, the checkpoint
    file of the last epoch it ran holds the parameters of the module and
    the state of the optimizer exactly as the trial leaves them; for a
    completed trial that is the checkpoint of step 9. *)
Theorem final_checkpoint_is_final_model (config : Configuration)
    (data_dir : string) (s : State) :
  grad_enabled s = true -> 0 < batch_size config ->
  2 <= len (cifar10 true) < 2 ^ 50 ->
  let r := train_cifar config None data_dir s in
  exists epoch : Z,
    0 <= epoch < 10 /\
    Z.of_nat (report_count r.2) = Z.of_nat (report_count s) + epoch + 1 /\
    (r.1 = Ok tt -> epoch = 9) /\
    fs r.2 !! os_path_join (trial_checkpoint_dir epoch) "checkpoint"
    = Some (Pickled {| sd_shape := shape (net r.2);
                       sd_weights := weights (net r.2) |}
              (optimizer r.2)).
Proof.
  intros Hg Hbs Hn r.
  destruct (trial_run config None data_dir s eq_refl Hg Hbs Hn)
    as (n & Hout & Hrep & _ & Hck).
  fold r in Hout, Hrep, Hck. exists (Z.of_nat n - 1).
  assert (Hn1 : (1 <= n <= 10)%nat) by (destruct Hout as [[_ ->] | [_ ?]]; lia).
  split; [lia |]. split; [rewrite Hrep; lia |]. split; [| exact Hck].
  intros Hok. destruct Hout as [[_ ->] | [Hstop _]]; [done | congruence].
Qed.

End TrialRun.

Section CheckAccuracyEdges.
Context `{NumpyRandom} `{Torch} `{Tune}.



(** X13. The two calls that end the script. On two loaders that yield
    samples, the check on the training data and then the check on the
    test data both return, and together they print four lines: for each
    set the line that names it and then its counts, both counted under
    the same parameters, those the model had before the first call. The
    first call has left the model as the second needs it; at the end the
    model is in training mode with its parameters unchanged. *)
Theorem check_both_sets (train_items test_items : list Sample)
    (train_batch_size test_batch_size : Z) (train_shuffle test_shuffle : bool)
    (s : State) :
  train_items ≠ [] -> test_items ≠ [] ->
  0 < train_batch_size -> 0 < test_batch_size ->
  let train_loader := {| dl_dataset := Stored train_items true;
                         dl_batch_size := train_batch_size;
                         dl_shuffle := train_shuffle |} in
  let test_loader := {| dl_dataset := Stored test_items false;
                        dl_batch_size := test_batch_size;
                        dl_shuffle := test_shuffle |} in
  let w := weights (net s) in
  let r := check_both train_loader test_loader s in
  r.1 = Ok tt /\
  training (net r.2) = true /\
  weights (net r.2) = w /\
  trace r.2
  = trace s
      ++ [Printed CheckingTraining;
          Printed (GotAccuracy (correct_count w train_items) (len train_items)
                     (inject_Z (correct_count w train_items)
                      / inject_Z (len train_items) * 100)%Q);
          Printed CheckingTest;
          Printed (GotAccuracy (correct_count w test_items) (len test_items)
                     (inject_Z (correct_count w test_items)
                      / inject_Z (len test_items) * 100)%Q)].
Proof.
  intros Htrain Htest Hbt Hbs train_loader test_loader w r. subst r.
  unfold check_both. rewrite bind_run.
  destruct (check_accuracy_run train_loader true s eq_refl Hbt)
    as (Hr & _ & Hw & _ & _ & Htr).
  { cbn. destruct train_items; [done | cbn; lia]. }
  destruct (check_accuracy train_loader s) as [r1 s1]. cbn [fst snd] in *.
  subst r1.
  destruct (check_accuracy_run test_loader false s1 eq_refl Hbs)
    as (Hr' & Ht' & Hw' & _ & _ & Htr').
  { cbn. destruct test_items; [done | cbn; lia]. }
  cbn [dl_dataset train_loader test_loader] in Htr, Htr'.
  rewrite ds_items_stored in Htr, Htr'. rewrite Hw in Htr'.
  split; [exact Hr' |]. split; [exact Ht' |].
  split; [by rewrite Hw', Hw |].
  rewrite Htr', Htr, <- app_assoc. reflexivity.
Qed.

End CheckAccuracyEdges.

Section MainEvaluation.
Context `{NumpyRandom} `{Torch} `{Tune}.
Import Analysis.


End MainEvaluation.

Section MainTheorems.
Context `{NumpyRandom} `{Torch} `{Tune}.
Import Analysis.



End MainTheorems.

(** ** The script, run *)

Section ScriptRun.
Context `{NumpyRandom} `{Torch} `{Tune} `{!Adam} `{!MNIST}.

(** One step of Adam on one batch: the gradient of the batch loss at the
    current parameters, taken from cleared buffers, and the update. *)
Definition adam_on_batch (lr : Q) (x : params * buffers)
    (data : list Sample) : params * buffers :=
  adam_step lr x.1 (Some (backward x.1 data None)) x.2.

Definition after_script_batch (data : list Sample) (s : State) : State :=
  let o := optimizer s in
  let x := adam_on_batch (opt_lr o) (wb s) data in
  emit OptimizerStep
    (set_optimizer (fun _ => {| opt_lr := opt_lr o;
                                opt_momentum := opt_momentum o;
                                opt_buffers := x.2 |})
       (set_net (fun m => {| shape := shape m; weights := x.1;
                             grad := Some (backward (weights m) data None);
                             training := training m |}) s)).

Lemma script_batch_run (item : Z * list Sample) (s : State) :
  grad_enabled s = true ->
  script_batch tt item s = (Ok tt, after_script_batch item.2 s).
Proof.
  destruct item as [i data]. intros Hg. unfold script_batch.
  erewrite bind_ok by reflexivity.
  erewrite bind_ok by reflexivity.
  erewrite bind_ok; cycle 1.
  { unfold loss_backward.
    match goal with
    | |- context [grad_enabled ?st] => change (grad_enabled st) with (grad_enabled s)
    end.
    rewrite Hg. reflexivity. }
  unfold adam_optimizer_step.
  match goal with
  | |- context [adam_step ?a ?b ?c ?d] => rewrite (surjective_pairing (adam_step a b c d))
  end.
  unfold after_script_batch, adam_on_batch, wb. by destruct s.
Qed.

Lemma after_script_batch_state (data : list Sample) (s : State) :
  let s' := after_script_batch data s in
  wb s' = adam_on_batch (opt_lr (optimizer s)) (wb s) data /\
  step_frame s' = step_frame s /\
  step_count s' = (step_count s + 1)%nat /\
  printed_lines s' = printed_lines s.
Proof.
  cbv zeta. unfold after_script_batch.
  rewrite printed_lines_emit, step_count_emit, app_nil_r.
  unfold step_frame. rewrite session_view_emit by done.
  split; [destruct s; cbn; symmetry; apply surjective_pairing |].
  repeat split; by destruct s.
Qed.

Lemma script_loop_run (items : list (Z * list Sample)) :
  forall s : State,
    grad_enabled s = true ->
    exists s',
      for_each items tt script_batch s = (Ok tt, s') /\
      wb s' = fold_left (adam_on_batch (opt_lr (optimizer s))) items.*2 (wb s) /\
      step_frame s' = step_frame s /\
      step_count s' = (step_count s + length items)%nat /\
      printed_lines s' = printed_lines s.
Proof.
  induction items as [|[i data] items IH]; intros s Hg.
  - exists s. cbn. repeat split; lia.
  - cbn [for_each fmap list_fmap snd fold_left].
    erewrite bind_ok by by apply script_batch_run.
    cbn [snd].
    destruct (after_script_batch_state data s) as (Hw1 & Hf1 & Hc1 & Hp1).
    set (s1 := after_script_batch data s) in *.
    assert (Hg1 : grad_enabled s1 = true).
    { rewrite <- Hg. revert Hf1. unfold step_frame, session_view. congruence. }
    assert (Hlr : opt_lr (optimizer s1) = opt_lr (optimizer s)).
    { revert Hf1. unfold step_frame. congruence. }
    destruct (IH s1 Hg1) as (s' & Hrun & Hw & Hf & Hc & Hp).
    rewrite Hlr, Hw1 in Hw.
    exists s'. rewrite Hrun, Hw, Hf, Hc, Hp, Hc1, Hp1.
    repeat split; try done. cbn [length]. lia.
Qed.

(** The state in which the training loop of the script starts. *)
Definition script_start (s : State) : State :=
  (new_Adam (1 # 1000) (new_module [784; 10] s).2).2.

Definition mnist_loader (train : bool) : DataLoader :=
  {| dl_dataset := Stored (mnist train) train;
     dl_batch_size := 64; dl_shuffle := true |}.

(** The script up to the end of its training loop. *)
Lemma script_training (s : State) :
  grad_enabled s = true ->
  let s0 := script_start s in
  let bs := pass_batches (mnist_loader true) s0 in
  exists s1,
    script s = check_both (mnist_loader true) (mnist_loader false) s1 /\
    wb s1 = fold_left (adam_on_batch (1 # 1000)) bs (wb s0) /\
    step_count s1 = (step_count s + length bs)%nat /\
    printed_lines s1 = printed_lines s /\
    training (net s1) = true /\ grad_enabled s1 = true.
Proof.
  intros Hg s0 bs. unfold script. cbv zeta.
  erewrite bind_ok;
    [| unfold new_DataLoader; rewrite decide_False by lia; reflexivity].
  erewrite bind_ok;
    [| unfold new_DataLoader; rewrite decide_False by lia; reflexivity].
  fold (mnist_loader true) (mnist_loader false).
  destruct (init_params [784; 10] (torch_rng s)) as [w g] eqn:Hinit.
  erewrite bind_ok; [| unfold new_module; rewrite Hinit; reflexivity].
  erewrite bind_ok by reflexivity.
  assert (Hs0 : s0 = (new_Adam (1 # 1000)
                        (set_torch_rng g
                           (set_net (fun _ => {| shape := [784; 10]; weights := w;
                                                 grad := None; training := true |})
                              s))).2).
  { subst s0. unfold script_start, new_module. by rewrite Hinit. }
  cbn [snd new_Adam modify] in Hs0. rewrite <- Hs0.
  assert (Hfacts : grad_enabled s0 = true /\ trace s0 = trace s /\
                   training (net s0) = true /\
                   opt_lr (optimizer s0) = (1 # 1000)%Q).
  { rewrite Hs0. by destruct s. }
  destruct Hfacts as (Hg0 & Ht0 & Htr0 & Hlr0). clearbody s0.
  change (range 1) with [0]. cbn [for_each].
  unfold script_epoch at 1.
  destruct (after_iteration_state (mnist_loader true) s0)
    as (Hw & Hv & Ht & Ho & Hn & _).
  assert (Hga : grad_enabled (after_iteration (mnist_loader true) s0) = true).
  { rewrite <- Hg0. revert Hv. unfold session_view. congruence. }
  destruct (script_loop_run (enumerate (pass_batches (mnist_loader true) s0))
              _ Hga) as (s1 & Hrun & Hwb & Hf & Hc & Hp).
  assert (Hepoch : (iterate (mnist_loader true)
                    ≫= λ train_batches, for_each (enumerate train_batches) tt
                                          script_batch) s0 = (Ok tt, s1)).
  { erewrite bind_ok by (by apply iterate_run). exact Hrun. }
  erewrite bind_ok; cycle 1.
  { erewrite bind_ok by exact Hepoch. reflexivity. }
  exists s1. split; [reflexivity |].
  rewrite snd_enumerate, length_enumerate, Ho, Hw, Hlr0 in *.
  split; [exact Hwb |].
  split; [by rewrite Hc; unfold step_count; rewrite Ht, Ht0 |].
  split; [by rewrite Hp; unfold printed_lines; rewrite Ht, Ht0 |].
  revert Hf. unfold step_frame, session_view. rewrite Hn.
  intros Hf. split; [rewrite <- Htr0 | rewrite <- Hga]; congruence.
Qed.

Lemma batches_fuel_bounded {A} (size : nat) : forall (fuel : nat) (xs : list A),
  Forall (fun b => len b <= Z.of_nat size) (batches_fuel fuel size xs).
Proof.
  induction fuel as [|fuel IH]; intros xs; [constructor |].
  destruct xs as [|x xs]; [constructor |].
  cbn [batches_fuel]. constructor; [| apply IH].
  unfold len. rewrite length_take. lia.
Qed.

Lemma printed_lines_trace (s s' : State) (es : list Event) :
  trace s' = trace s ++ es ->
  printed_lines s'
  = printed_lines s
      ++ omap (fun e => match e with Printed l => Some l | _ => None end) es /\
  step_count s'
  = (step_count s
     + length (List.filter (fun e => match e with OptimizerStep => true
                                       | _ => false end) es))%nat.
Proof.
  intros Ht. unfold printed_lines, step_count.
  by rewrite Ht, omap_app, List.filter_app, length_app.
Qed.

(** The accuracy line [check_accuracy] prints for [samples] under the
    parameters [w]. *)
Definition accuracy_line (w : params) (samples : list Sample) : Line :=
  GotAccuracy (correct_count w samples) (len samples)
    (inject_Z (correct_count w samples) / inject_Z (len samples) * 100)%Q.

(** The whole script, run. *)
Lemma script_run (s : State) :
  grad_enabled s = true -> mnist true ≠ [] -> mnist false ≠ [] ->
  let s0 := script_start s in
  let bs := pass_batches (mnist_loader true) s0 in
  let x := fold_left (adam_on_batch (1 # 1000)) bs (wb s0) in
  let r := script s in
  r.1 = Ok tt /\
  wb r.2 = x /\
  training (net r.2) = true /\
  step_count r.2 = (step_count s + length bs)%nat /\
  printed_lines r.2
  = printed_lines s
      ++ [CheckingTraining; accuracy_line x.1 (mnist true);
          CheckingTest; accuracy_line x.1 (mnist false)].
Proof.
  intros Hg Htrain Htest s0 bs x r. subst r.
  destruct (script_training s Hg) as (s1 & -> & Hwb & Hc & Hp & _ & _).
  fold s0 bs x in Hwb.
  unfold check_both. rewrite bind_run.
  destruct (check_accuracy_run (mnist_loader true) true s1 eq_refl)
    as (Hr & _ & Hw & _ & Ho & Htr); [done | |].
  { cbn. destruct (mnist true); [done | cbn; lia]. }
  destruct (check_accuracy (mnist_loader true) s1) as [r1 s2].
  cbn [fst snd] in *. subst r1.
  destruct (check_accuracy_run (mnist_loader false) false s2 eq_refl)
    as (Hr' & Ht' & Hw' & _ & Ho' & Htr'); [done | |].
  { cbn. destruct (mnist false); [done | cbn; lia]. }
  cbn [dl_dataset mnist_loader] in Htr, Htr'.
  rewrite ds_items_stored in Htr, Htr'. rewrite Hw in Htr'.
  assert (Hx : weights (net s1) = x.1) by (by rewrite <- Hwb).
  rewrite Hx in Htr, Htr'.
  destruct (printed_lines_trace _ _ _ Htr) as [Hp1 Hc1].
  destruct (printed_lines_trace _ _ _ Htr') as [Hp2 Hc2].
  split; [exact Hr' |].
  split; [unfold wb; rewrite Hw', Hw, Ho', Ho; exact Hwb |].
  split; [exact Ht' |].
  split; [rewrite Hc2, Hc1, Hc; cbn; lia |].
  rewrite Hp2, Hp1, Hp, <- app_assoc. reflexivity.
Qed.

(** X21. The training of the script [simpleFullyNN.py] is one pass of
    Adam with learning rate 0.001 over a fresh shuffle of the MNIST
    training set, cut into batches of 64. The batches hold every training
    sample exactly once, none is empty and there are ceil(n / 64) of
    them; the optimizer takes one step per batch, and the parameters and
    optimizer state the script ends with are those obtained by folding
    the Adam update over the batches from the freshly initialised
    NN(784, 10), each gradient being that of its batch alone. The two
    accuracy checks that follow change neither. *)
Theorem script_is_one_adam_pass (s : State) :
  grad_enabled s = true -> mnist true ≠ [] -> mnist false ≠ [] ->
  let s0 := script_start s in
  let bs := pass_batches (mnist_loader true) s0 in
  let r := script s in
  shape (net s0) = [784; 10] /\
  concat bs ≡ₚ mnist true /\
  Forall (fun b => b ≠ [] /\ len b <= 64) bs /\
  len bs = batch_count (len (mnist true)) 64 /\
  step_count r.2 = (step_count s + length bs)%nat /\
  wb r.2 = fold_left (adam_on_batch (1 # 1000)) bs (wb s0).
Proof.
  intros Hg Htrain Htest s0 bs r.
  destruct (script_run s Hg Htrain Htest) as (_ & Hwb & _ & Hc & _).
  split; [| split; [| split; [| split; [| split]]]].
  - subst s0. unfold script_start, new_module.
    by destruct (init_params _ _).
  - subst bs. unfold pass_batches. rewrite batches_concat by (cbn; lia).
    rewrite iteration_items_perm. cbn [dl_dataset mnist_loader].
    by rewrite ds_items_stored.
  - apply Forall_forall. intros b Hb. split.
    + revert b Hb. apply Forall_forall.
      apply batches_fuel_nonempty. cbn. lia.
    + revert b Hb. apply Forall_forall.
      apply (batches_fuel_bounded 64).
  - subst bs. rewrite length_pass_batches by (done || (cbn; lia)). done.
  - exact Hc.
  - exact Hwb.
Qed.

(** X22. What the script puts on the console from its hyperparameters
    on. With both MNIST sets non-empty it runs to its end without an
    exception; the training prints nothing, and the four lines of the
    two checks follow: the training set and then the test set, each with
    the number of samples the trained model classifies correctly, the
    size of the set and the percentage. Both counts are taken under the
    parameters the training ended with, and over the whole set whatever
    the shuffle. The model is in training mode at the end. *)
Theorem script_reports_trained_model (s : State) :
  grad_enabled s = true -> mnist true ≠ [] -> mnist false ≠ [] ->
  let s0 := script_start s in
  let bs := pass_batches (mnist_loader true) s0 in
  let w := (fold_left (adam_on_batch (1 # 1000)) bs (wb s0)).1 in
  let r := script s in
  r.1 = Ok tt /\
  training (net r.2) = true /\
  weights (net r.2) = w /\
  printed_lines r.2
  = printed_lines s
      ++ [CheckingTraining;
          GotAccuracy (correct_count w (mnist true)) (len (mnist true))
            (inject_Z (correct_count w (mnist true))
             / inject_Z (len (mnist true)) * 100)%Q;
          CheckingTest;
          GotAccuracy (correct_count w (mnist false)) (len (mnist false))
            (inject_Z (correct_count w (mnist false))
             / inject_Z (len (mnist false)) * 100)%Q] /\
  0 <= correct_count w (mnist true) <= len (mnist true) /\
  0 <= correct_count w (mnist false) <= len (mnist false).
Proof.
  intros Hg Htrain Htest s0 bs w r.
  destruct (script_run s Hg Htrain Htest) as (Hr & Hwb & Ht & _ & Hp).
  split; [exact Hr |]. split; [exact Ht |].
  split; [exact (f_equal fst Hwb) |].
  split; [exact Hp |].
  split; apply correct_count_bounds.
Qed.

End ScriptRun.

(** ** The shapes the networks compute with *)

Module NetShapes.
Import Nets.
Local Open Scope nat_scope.

Lemma mapM_total {A B} (f : A -> option B) (g : A -> B) (xs : list A) :
  Forall (fun x => f x = Some (g x)) xs -> mapM f xs = Some (g <$> xs).
Proof.
  induction 1 as [|x xs Hx _ IH]; [done |].
  cbn. rewrite Hx. cbn. by rewrite IH.
Qed.

Lemma Forall_zip_with_all {A B C} (P : C -> Prop) (f : A -> B -> C)
    (l : list A) (k : list B) :
  (forall x y, P (f x y)) -> Forall P (zip_with f l k).
Proof.
  intros Hf. revert k. induction l as [|x l IH]; intros [|y k]; cbn;
    constructor; auto.
Qed.

Lemma length_concat_uniform {A} (n : nat) (ls : list (list A)) :
  Forall (fun l => length l = n) ls -> length (concat ls) = length ls * n.
Proof.
  induction 1 as [|l ls Hl _ IH]; [done |].
  cbn. rewrite length_app, IH, Hl. lia.
Qed.

Lemma tabulate_dims (h w : nat) (f : nat -> nat -> Q) :
  mat_dims h w ((fun i => (fun j => f i j) <$> seq 0 w) <$> seq 0 h).
Proof.
  split; [by rewrite length_fmap, length_seq |].
  apply Forall_fmap, Forall_forall. intros i _. cbn.
  by rewrite length_fmap, length_seq.
Qed.

Lemma height_dims (c h w : nat) (x : Vol) :
  vol_dims c h w x -> 0 < c -> height x = h.
Proof.
  intros [Hc Hx] Hpos. destruct x as [|m x]; [cbn in Hc; lia |].
  apply Forall_cons in Hx as [[Hm _] _]. exact Hm.
Qed.

Lemma width_dims (c h w : nat) (x : Vol) :
  vol_dims c h w x -> 0 < c -> 0 < h -> width x = w.
Proof.
  intros [Hc Hx] Hpos Hh. destruct x as [|m x]; [cbn in Hc; lia |].
  apply Forall_cons in Hx as [[Hm Hrows] _].
  destruct m as [|r m]; [cbn in Hm; lia |].
  apply Forall_cons in Hrows as [Hr _]. exact Hr.
Qed.

Lemma length_flatten (c h w : nat) (x : Vol) :
  vol_dims c h w x -> length (flatten x) = c * h * w.
Proof.
  intros [Hc Hx]. unfold flatten.
  assert (Hrows : Forall (fun r : Vec => length r = w) (concat x)).
  { apply Forall_concat. eapply Forall_impl; [exact Hx |]. by intros m [_ Hm]. }
  assert (Hmats : Forall (fun m : Mat => length m = h) x).
  { eapply Forall_impl; [exact Hx |]. by intros m [Hm _]. }
  rewrite (length_concat_uniform w _ Hrows).
  rewrite (length_concat_uniform h _ Hmats). by rewrite Hc.
Qed.

Lemma relu_vol_dims (c h w : nat) (x : Vol) :
  vol_dims c h w x -> vol_dims c h w (relu_vol x).
Proof.
  intros [Hc Hx]. split; [by unfold relu_vol; rewrite length_fmap |].
  apply Forall_fmap. eapply Forall_impl; [exact Hx |].
  intros m [Hm Hrows]. split; [by cbn; rewrite length_fmap |].
  apply Forall_fmap. eapply Forall_impl; [exact Hrows |].
  intros r Hr. cbn. unfold relu_vec. by rewrite length_fmap.
Qed.

(** Layers as their constructors build them. *)
Definition wf_Linear (l : Linear) : Prop :=
  length (weight l) = out_features l /\ length (bias l) = out_features l.

Definition wf_Conv2d (l : Conv2d) : Prop :=
  length (conv_weight l) = out_channels l /\
  length (conv_bias l) = out_channels l.

Lemma new_Linear_wf init name i o : wf_Linear (new_Linear init name i o).
Proof. split; cbn; by rewrite length_fmap, length_seq. Qed.

Lemma new_Conv2d_wf init name i o k : wf_Conv2d (new_Conv2d init name i o k).
Proof. split; cbn; by rewrite length_fmap, length_seq. Qed.

Lemma length_linear_out (l : Linear) (x : Vec) :
  wf_Linear l -> length (linear_out l x) = out_features l.
Proof.
  intros [Hw Hb]. unfold linear_out. rewrite length_zip_with. lia.
Qed.

Lemma conv2d_dims (l : Conv2d) (h w : nat) (x : Vol) :
  wf_Conv2d l -> vol_dims (in_channels l) h w x ->
  0 < in_channels l -> 0 < h ->
  kernel_size l <= h -> kernel_size l <= w ->
  conv2d l x = Some (conv2d_out l x) /\
  vol_dims (out_channels l) (conv_size h (kernel_size l))
    (conv_size w (kernel_size l)) (conv2d_out l x).
Proof.
  intros [Hw Hb] Hx Hc Hh Hkh Hkw.
  pose proof (height_dims _ _ _ _ Hx Hc) as Hheight.
  pose proof (width_dims _ _ _ _ Hx Hc Hh) as Hwidth.
  split.
  - unfold conv2d. rewrite decide_True; [done |].
    rewrite Hheight, Hwidth. by destruct Hx.
  - unfold conv2d_out. rewrite Hheight, Hwidth. split.
    + rewrite length_zip_with. lia.
    + apply Forall_zip_with_all. intros kernel b. apply tabulate_dims.
Qed.

Lemma max_pool2d_dims (p : MaxPool2d) (c h w : nat) (x : Vol) :
  vol_dims c h w x -> 0 < c -> 0 < h -> 0 < pool_stride p ->
  pool_kernel p <= h -> pool_kernel p <= w ->
  max_pool2d p x = Some (max_pool2d_out p x) /\
  vol_dims c (pool_size h (pool_kernel p) (pool_stride p))
    (pool_size w (pool_kernel p) (pool_stride p)) (max_pool2d_out p x).
Proof.
  intros Hx Hc Hh Hs Hkh Hkw.
  pose proof (height_dims _ _ _ _ Hx Hc) as Hheight.
  pose proof (width_dims _ _ _ _ Hx Hc Hh) as Hwidth.
  split.
  - unfold max_pool2d. rewrite decide_True; [done |].
    by rewrite Hheight, Hwidth.
  - unfold max_pool2d_out. rewrite Hheight, Hwidth. destruct Hx as [Hlen _].
    split; [by rewrite length_fmap |].
    apply Forall_fmap, Forall_forall. intros m _. apply tabulate_dims.
Qed.

(** A layer that accepts every sample of a batch. *)
Lemma conv2d_batch (l : Conv2d) (h w : nat) (xs : list Vol) :
  wf_Conv2d l -> Forall (vol_dims (in_channels l) h w) xs ->
  0 < in_channels l -> 0 < h ->
  kernel_size l <= h -> kernel_size l <= w ->
  mapM (conv2d l) xs = Some (conv2d_out l <$> xs) /\
  Forall (vol_dims (out_channels l) (conv_size h (kernel_size l))
            (conv_size w (kernel_size l))) (conv2d_out l <$> xs).
Proof.
  intros Hl Hxs Hc Hh Hkh Hkw. split.
  - apply mapM_total. eapply Forall_impl; [exact Hxs |].
    intros x Hx. by apply (conv2d_dims l h w).
  - apply Forall_fmap. eapply Forall_impl; [exact Hxs |].
    intros x Hx. by apply (conv2d_dims l h w).
Qed.

Lemma pool_relu_batch (p : MaxPool2d) (c h w : nat) (xs : list Vol) :
  Forall (vol_dims c h w) xs -> 0 < c -> 0 < h -> 0 < pool_stride p ->
  pool_kernel p <= h -> pool_kernel p <= w ->
  mapM (max_pool2d p) (relu_vol <$> xs)
  = Some ((fun x => max_pool2d_out p (relu_vol x)) <$> xs) /\
  Forall (vol_dims c (pool_size h (pool_kernel p) (pool_stride p))
            (pool_size w (pool_kernel p) (pool_stride p)))
    ((fun x => max_pool2d_out p (relu_vol x)) <$> xs).
Proof.
  intros Hxs Hc Hh Hs Hkh Hkw. split.
  - rewrite (list_fmap_compose relu_vol (max_pool2d_out p)).
    apply mapM_total, Forall_fmap. eapply Forall_impl; [exact Hxs |].
    intros x Hx. cbn.
    apply (max_pool2d_dims p c h w); [by apply relu_vol_dims | done..].
  - apply Forall_fmap. eapply Forall_impl; [exact Hxs |].
    intros x Hx. cbn.
    apply (max_pool2d_dims p c h w); [by apply relu_vol_dims | done..].
Qed.

Lemma linear_batch (l : Linear) (xs : list Vec) :
  wf_Linear l -> Forall (fun r => length r = in_features l) xs ->
  linear l xs = Some (linear_out l <$> xs) /\
  Forall (fun r => length r = out_features l) (linear_out l <$> xs).
Proof.
  intros Hl Hxs. split.
  - unfold linear. by rewrite decide_True.
  - apply Forall_fmap, Forall_forall. intros r _. cbn.
    by apply length_linear_out.
Qed.

Lemma relu_rows (n : nat) (xs : list Vec) :
  Forall (fun r => length r = n) xs ->
  Forall (fun r => length r = n) (relu_vec <$> xs).
Proof.
  intros Hxs. apply Forall_fmap. eapply Forall_impl; [exact Hxs |].
  intros r Hr. cbn. unfold relu_vec. by rewrite length_fmap.
Qed.


Lemma batches_fuel_more {A} (n : nat) :
  0 < n ->
  forall (fuel fuel' : nat) (xs : list A),
    length xs <= fuel -> length xs <= fuel' ->
    batches_fuel fuel n xs = batches_fuel fuel' n xs.
Proof.
  intros Hn. induction fuel as [|fuel IH]; intros fuel' xs Hlen Hlen'.
  - destruct xs; [by destruct fuel' | cbn in Hlen; lia].
  - destruct xs as [|x xs]; [by destruct fuel' |].
    destruct fuel' as [|fuel']; [cbn in Hlen'; lia |].
    cbn [batches_fuel]. f_equal.
    apply IH; rewrite length_drop; cbn [length] in *; lia.
Qed.

(** Rows cut from rows of that very length laid end to end are those
    rows. *)
Lemma batches_uniform {A} (n : nat) (ls : list (list A)) :
  0 < n -> Forall (fun l => length l = n) ls -> batches n (concat ls) = ls.
Proof.
  intros Hn. induction 1 as [|l ls Hl Hls IH]; [done |].
  destruct l as [|a l]; [cbn in Hl; lia |].
  unfold batches. cbn [concat app length batches_fuel].
  change (a :: l ++ concat ls) with ((a :: l) ++ concat ls).
  rewrite take_app_length', drop_app_length' by done. f_equal.
  etransitivity; [| exact IH]. unfold batches.
  apply batches_fuel_more; [done | rewrite length_app; lia | done].
Qed.


Lemma view_rows_per_sample (cols c h w : nat) (xs : list Vol) :
  0 < cols -> xs ≠ [] -> c * h * w = cols ->
  Forall (vol_dims c h w) xs ->
  view_rows cols xs = Some (flatten <$> xs) /\
  Forall (fun r => length r = cols) (flatten <$> xs).
Proof.
  intros Hcols Hne Hsize Hxs.
  assert (Hrows : Forall (fun r => length r = cols) (flatten <$> xs)).
  { apply Forall_fmap. eapply Forall_impl; [exact Hxs |].
    intros x Hx. cbn. rewrite <- Hsize. by apply length_flatten. }
  split; [| exact Hrows].
  unfold view_rows.
  rewrite (length_concat_uniform cols _ Hrows), length_fmap.
  rewrite decide_True.
  - by rewrite batches_uniform.
  - split; [destruct xs; [done | cbn; lia] | apply Nat.Div0.mod_mul].
Qed.

Lemma feature_chain (h : nat) :
  16 <= h ->
  5 <= h /\ 2 <= conv_size h 5 /\ 5 <= pool_size (conv_size h 5) 2 2 /\
  2 <= conv_size (pool_size (conv_size h 5) 2 2) 5.
Proof.
  intros Hh. unfold conv_size, pool_size.
  assert (5 <= (h - 5 + 1 - 2) / 2) by (apply Nat.div_le_lower_bound; lia).
  lia.
Qed.

Lemma Net_init_layers (init : Init) (l1 l2 : Z) (net : Net) :
  Net_init init l1 l2 = Some net ->
  conv1 net = new_Conv2d init "conv1" 3 6 5 /\
  pool net = {| pool_kernel := 2; pool_stride := 2 |} /\
  conv2 net = new_Conv2d init "conv2" 6 16 5 /\
  fc1 net = new_Linear init "fc1" 400 (Z.to_nat l1) /\
  fc2 net = new_Linear init "fc2" (Z.to_nat l1) (Z.to_nat l2) /\
  fc3 net = new_Linear init "fc3" (Z.to_nat l2) 10.
Proof.
  unfold Net_init. case_decide; [| done]. by intros [= <-].
Qed.

(** The feature maps [Net] flattens, for one image. *)
Definition Net_features (self : Net) (x : Vol) : Vol :=
  max_pool2d_out (pool self)
    (relu_vol (conv2d_out (conv2 self)
       (max_pool2d_out (pool self) (relu_vol (conv2d_out (conv1 self) x))))).

(** The three linear layers on one row. *)
Definition Net_classify (self : Net) (r : Vec) : Vec :=
  linear_out (fc3 self)
    (relu_vec (linear_out (fc2 self) (relu_vec (linear_out (fc1 self) r)))).

Lemma Net_row_split (self : Net) (x : Vol) :
  Net_row self x = Net_classify self (flatten (Net_features self x)).
Proof. reflexivity. Qed.

Lemma bind_Some {A B} (f : A -> option B) (a : A) : Some a ≫= f = f a.
Proof. reflexivity. Qed.

(** The convolutional part on a batch of images of one size. *)
Lemma Net_forward_features (init : Init) (l1 l2 : Z) (net : Net)
    (h w : nat) (xs : list Vol) :
  Net_init init l1 l2 = Some net ->
  Forall (vol_dims 3 h w) xs -> 16 <= h -> 16 <= w ->
  Net_forward net xs
  = (x ← view_rows 400 (Net_features net <$> xs);
     x ← linear (fc1 net) x;
     x ← linear (fc2 net) (relu_vec <$> x);
     linear (fc3 net) (relu_vec <$> x)) /\
  Forall (vol_dims 16 (feature_size h) (feature_size w))
    (Net_features net <$> xs).
Proof.
  intros Hnet Hxs Hh Hw.
  destruct (Net_init_layers _ _ _ _ Hnet) as (Hc1 & Hp & Hc2 & _).
  destruct (feature_chain h Hh) as (Hh0 & Hh1 & Hh2 & Hh3).
  destruct (feature_chain w Hw) as (Hw0 & Hw1 & Hw2 & Hw3).
  assert (E1 : in_channels (conv1 net) = 3 /\ out_channels (conv1 net) = 6 /\
               kernel_size (conv1 net) = 5) by (by rewrite Hc1).
  assert (E2 : in_channels (conv2 net) = 6 /\ out_channels (conv2 net) = 16 /\
               kernel_size (conv2 net) = 5) by (by rewrite Hc2).
  assert (Ep : pool_kernel (pool net) = 2 /\ pool_stride (pool net) = 2)
    by (by rewrite Hp).
  destruct E1 as (I1 & O1 & K1), E2 as (I2 & O2 & K2), Ep as (Kp & Sp).
  assert (W1 : wf_Conv2d (conv1 net)) by (rewrite Hc1; apply new_Conv2d_wf).
  assert (W2 : wf_Conv2d (conv2 net)) by (rewrite Hc2; apply new_Conv2d_wf).
  unfold Net_forward.
  destruct (conv2d_batch (conv1 net) h w xs W1) as [-> D1];
    [by rewrite I1 | lia..|].
  rewrite bind_Some. rewrite O1, K1 in D1.
  destruct (pool_relu_batch (pool net) 6 _ _ _ D1) as [-> D2]; [lia..|].
  rewrite bind_Some. rewrite Kp, Sp in D2.
  destruct (conv2d_batch (conv2 net) _ _ _ W2 ltac:(rewrite I2; exact D2))
    as [-> D3]; [lia..|].
  rewrite bind_Some. rewrite O2, K2 in D3.
  destruct (pool_relu_batch (pool net) 16 _ _ _ D3) as [-> D4]; [lia..|].
  rewrite bind_Some. rewrite Kp, Sp in D4.
  rewrite <- !list_fmap_compose in *.
  split; [reflexivity | exact D4].
Qed.

(** The linear part on rows of 400 features. *)
Lemma Net_forward_classify (init : Init) (l1 l2 : Z) (net : Net)
    (rows : list Vec) :
  Net_init init l1 l2 = Some net ->
  Forall (fun r => length r = 400) rows ->
  (x ← linear (fc1 net) rows;
   x ← linear (fc2 net) (relu_vec <$> x);
   linear (fc3 net) (relu_vec <$> x))
  = Some (Net_classify net <$> rows) /\
  Forall (fun r => length r = 10) (Net_classify net <$> rows).
Proof.
  intros Hnet Hrows.
  destruct (Net_init_layers _ _ _ _ Hnet) as (_ & _ & _ & Hf1 & Hf2 & Hf3).
  assert (E1 : in_features (fc1 net) = 400 /\
               out_features (fc1 net) = in_features (fc2 net))
    by (by rewrite Hf1, Hf2).
  assert (E2 : out_features (fc2 net) = in_features (fc3 net) /\
               out_features (fc3 net) = 10) by (by rewrite Hf2, Hf3).
  destruct E1 as [I1 O1], E2 as [O2 O3].
  assert (W1 : wf_Linear (fc1 net)) by (rewrite Hf1; apply new_Linear_wf).
  assert (W2 : wf_Linear (fc2 net)) by (rewrite Hf2; apply new_Linear_wf).
  assert (W3 : wf_Linear (fc3 net)) by (rewrite Hf3; apply new_Linear_wf).
  destruct (linear_batch (fc1 net) rows W1) as [-> R1]; [by rewrite I1 |].
  rewrite bind_Some. apply relu_rows in R1. rewrite O1 in R1.
  destruct (linear_batch (fc2 net) _ W2 R1) as [-> R2].
  rewrite bind_Some. apply relu_rows in R2. rewrite O2 in R2.
  destruct (linear_batch (fc3 net) _ W3 R2) as [-> R3].
  rewrite O3 in R3.
  rewrite <- !list_fmap_compose in *. by split.
Qed.

Lemma Net_forward_32 (init : Init) (l1 l2 : Z) (net : Net) (xs : list Vol) :
  Net_init init l1 l2 = Some net -> xs ≠ [] ->
  Forall (vol_dims 3 32 32) xs ->
  Net_forward net xs = Some (Net_row net <$> xs) /\
  Forall (fun r => length r = 10) (Net_row net <$> xs).
Proof.
  intros Hnet Hne Hxs.
  destruct (Net_forward_features init l1 l2 net 32 32 xs Hnet Hxs)
    as [-> Hdims]; [lia | lia |].
  change (feature_size 32) with 5 in Hdims.
  destruct (view_rows_per_sample 400 16 5 5 (Net_features net <$> xs))
    as [-> Hrows]; [lia | by destruct xs | done | done |].
  rewrite bind_Some.
  destruct (Net_forward_classify init l1 l2 net _ Hnet Hrows) as [-> Hout].
  rewrite <- !list_fmap_compose in *. by split.
Qed.

End NetShapes.

Module NetTheorems.
Import Nets NetShapes.
Local Open Scope nat_scope.


(** X17. On images of 3 by 32 by 32, the size of CIFAR-10, [Net.forward]
    treats the images of a batch one by one: a non-empty batch gives one
    row of 10 scores per image, in the order of the images, and the row
    of an image is the row the network returns for that image alone,
    whatever else is in the batch. *)
Theorem Net_forward_per_sample (init : Init) (l1 l2 : Z) (net : Net)
    (xs : list Vol) :
  Net_init init l1 l2 = Some net -> xs ≠ [] ->
  Forall (vol_dims 3 32 32) xs ->
  exists out,
    Net_forward net xs = Some out /\
    length out = length xs /\
    Forall (fun r => length r = 10) out /\
    forall i x, xs !! i = Some x ->
      exists r, out !! i = Some r /\ Net_forward net [x] = Some [r].
Proof.
  intros Hnet Hne Hxs.
  destruct (Net_forward_32 init l1 l2 net xs Hnet Hne Hxs) as [Hrun Hout].
  exists (Net_row net <$> xs). split; [exact Hrun |].
  split; [by rewrite length_fmap |]. split; [exact Hout |].
  intros i x Hx. exists (Net_row net x).
  split; [by rewrite list_lookup_fmap, Hx |].
  destruct (Net_forward_32 init l1 l2 net [x] Hnet) as [Hone _]; [done | |].
  - constructor; [| constructor]. by eapply (Forall_lookup_1 _ _ _ _ Hxs).
  - exact Hone.
Qed.

Lemma NN_init_layers (init : Init) (input_size num_classes : Z) (model : NN) :
  NN_init init input_size num_classes = Some model ->
  (0 <= input_size)%Z /\ (0 <= num_classes)%Z /\
  nn_fc1 model = new_Linear init "fc1" (Z.to_nat input_size) 50 /\
  nn_fc2 model = new_Linear init "fc2" 50 (Z.to_nat num_classes).
Proof.
  unfold NN_init. case_decide as Hsizes; [| done]. intros [= <-].
  by destruct Hsizes.
Qed.

Lemma reshape_rows_dims (c h w : nat) (xs : list Vol) :
  xs ≠ [] -> Forall (vol_dims c h w) xs -> 0 < c * h * w ->
  reshape_rows xs = Some (flatten <$> xs) /\
  Forall (fun r => length r = c * h * w) (flatten <$> xs).
Proof.
  intros Hne Hxs Hpos.
  assert (Hrows : Forall (fun r => length r = c * h * w) (flatten <$> xs)).
  { apply Forall_fmap. eapply Forall_impl; [exact Hxs |].
    intros x Hx. by apply length_flatten. }
  split; [| exact Hrows]. unfold reshape_rows. rewrite decide_True; [done |].
  rewrite (length_concat_uniform _ _ Hrows), length_fmap.
  destruct xs; [done | cbn; lia].
Qed.

Lemma NN_scores_run (init : Init) (input_size num_classes : Z) (model : NN)
    (c h w : nat) (xs : list Vol) :
  NN_init init input_size num_classes = Some model ->
  xs ≠ [] -> Forall (vol_dims c h w) xs -> 0 < c * h * w ->
  Z.of_nat (c * h * w) = input_size ->
  NN_scores model xs = Some (NN_row model <$> xs) /\
  Forall (fun r => Z.of_nat (length r) = num_classes) (NN_row model <$> xs).
Proof.
  intros Hmodel Hne Hxs Hpos Hsize.
  destruct (NN_init_layers _ _ _ _ Hmodel) as (Hi & Hn & Hf1 & Hf2).
  assert (E1 : in_features (nn_fc1 model) = c * h * w /\
               out_features (nn_fc1 model) = in_features (nn_fc2 model))
    by (rewrite Hf1, Hf2; cbn; split; [lia | done]).
  assert (E2 : out_features (nn_fc2 model) = Z.to_nat num_classes)
    by (by rewrite Hf2).
  destruct E1 as [I1 O1].
  assert (W1 : wf_Linear (nn_fc1 model)) by (rewrite Hf1; apply new_Linear_wf).
  assert (W2 : wf_Linear (nn_fc2 model)) by (rewrite Hf2; apply new_Linear_wf).
  unfold NN_scores, NN_forward.
  destruct (reshape_rows_dims c h w xs Hne Hxs Hpos) as [-> Hrows].
  rewrite bind_Some.
  destruct (linear_batch (nn_fc1 model) (flatten <$> xs) W1) as [-> R1];
    [by rewrite I1 |].
  rewrite bind_Some. apply relu_rows in R1. rewrite O1 in R1.
  destruct (linear_batch (nn_fc2 model) _ W2 R1) as [-> R2].
  rewrite E2 in R2. rewrite <- !list_fmap_compose in *.
  split; [done |]. eapply Forall_impl; [exact R2 |].
  intros r Hr. cbn in Hr. rewrite Hr. lia.
Qed.

(** X18. The scores [NN] computes in [check_accuracy] and in the
    training loop of the script. A non-empty batch of images of one size
    is flattened to one row per image. When an image has exactly
    [input_size] entries, the model returns one row of [num_classes]
    scores per image, in the order of the images, and the row of an
    image is the one the model returns for that image alone. When it
    has another number of entries the call fails at the first layer:
    unlike in [Net], a wrong image size is never regrouped. *)
Theorem NN_scores_rows (init : Init) (input_size num_classes : Z)
    (model : NN) (c h w : nat) (xs : list Vol) :
  NN_init init input_size num_classes = Some model ->
  xs ≠ [] -> Forall (vol_dims c h w) xs -> 0 < c * h * w ->
  (Z.of_nat (c * h * w) = input_size ->
   exists out,
     NN_scores model xs = Some out /\
     length out = length xs /\
     Forall (fun r => Z.of_nat (length r) = num_classes) out /\
     forall i x, xs !! i = Some x ->
       exists r, out !! i = Some r /\ NN_scores model [x] = Some [r]) /\
  (Z.of_nat (c * h * w) <> input_size -> NN_scores model xs = None).
Proof.
  intros Hmodel Hne Hxs Hpos. split.
  - intros Hsize.
    destruct (NN_scores_run init input_size num_classes model c h w xs
                Hmodel Hne Hxs Hpos Hsize) as [Hrun Hout].
    exists (NN_row model <$> xs). split; [exact Hrun |].
    split; [by rewrite length_fmap |]. split; [exact Hout |].
    intros i x Hx. exists (NN_row model x).
    split; [by rewrite list_lookup_fmap, Hx |].
    destruct (NN_scores_run init input_size num_classes model c h w [x]
                Hmodel) as [Hone _]; [done | | done | done | exact Hone].
    constructor; [| constructor]. by eapply (Forall_lookup_1 _ _ _ _ Hxs).
  - intros Hsize.
    destruct (NN_init_layers _ _ _ _ Hmodel) as (Hi & Hn & Hf1 & Hf2).
    unfold NN_scores, NN_forward.
    destruct (reshape_rows_dims c h w xs Hne Hxs Hpos) as [-> Hrows].
    rewrite bind_Some. unfold linear. rewrite decide_False; [done |].
    intros Hall. destruct xs as [|x xs]; [done |].
    apply Forall_cons in Hall as [Hx _], Hrows as [Hx' _].
    rewrite Hx', Hf1 in Hx. cbn in Hx. lia.
Qed.

End NetTheorems.

Module TransformTheorems.
Import Nets NetShapes Transforms.
Local Open Scope nat_scope.

Definition in_unit_range (x : Vol) : Prop :=
  Forall (Forall (Forall (fun v => (-1 <= v)%Q /\ (v <= 1)%Q))) x.

Lemma normalized_value (z : Z) :
  (0 <= z <= 255)%Z ->
  (-1 <= ((z # 255) - (1 # 2)) / (1 # 2))%Q /\
  (((z # 255) - (1 # 2)) / (1 # 2) <= 1)%Q.
Proof.
  intros Hz. unfold Qle, Qdiv, Qmult, Qminus, Qplus, Qopp, Qinv. cbn. lia.
Qed.

Lemma channels_dims (h w c : nat) (p : Picture) :
  picture_dims h w c p -> 0 < h -> 0 < w -> channels p = c.
Proof.
  intros [Hh Hrows] Hpos Hw. destruct p as [|row p]; [cbn in Hh; lia |].
  apply Forall_cons in Hrows as [[Hlen Hpx] _].
  destruct row as [|px row]; [cbn in Hlen; lia |].
  apply Forall_cons in Hpx as [[Hc _] _]. exact Hc.
Qed.

Lemma ToTensor_dims (h w c : nat) (p : Picture) :
  picture_dims h w c p -> 0 < h -> 0 < w ->
  vol_dims c h w (ToTensor p).
Proof.
  intros Hp Hh Hw. unfold ToTensor.
  rewrite (channels_dims h w c p Hp Hh Hw). destruct Hp as [Hlen Hrows].
  split; [by rewrite length_fmap, length_seq |].
  apply Forall_fmap, Forall_forall. intros k _. cbn.
  split; [by rewrite length_fmap |].
  apply Forall_fmap. eapply Forall_impl; [exact Hrows |].
  intros row [Hrow _]. cbn. by rewrite length_fmap.
Qed.

(** The transform on a picture of three channels. *)
Lemma transform_rgb (h w : nat) (p : Picture) :
  picture_dims h w 3 p -> 0 < h -> 0 < w ->
  exists x,
    transform p = Some x /\ vol_dims 3 h w x /\ in_unit_range x.
Proof.
  intros Hp Hh Hw.
  pose proof (ToTensor_dims h w 3 p Hp Hh Hw) as [Hc Hmats].
  unfold transform, Normalize, broadcast. rewrite Hc. cbn -[ToTensor].
  eexists. split; [reflexivity |].
  unfold ToTensor. rewrite (channels_dims h w 3 p Hp Hh Hw).
  destruct Hp as [Hlen Hrows]. cbn [seq fmap list_fmap zip zip_with fst snd].
  assert (Hchannel : forall k : nat,
    mat_dims h w
      ((fun row : list Q => (fun v => ((v - (1 # 2)) / (1 # 2))%Q) <$> row)
         <$> ((fun row : list (list Z) =>
                 (fun px : list Z => (default 0%Z (px !! k) # 255)%Q) <$> row)
                <$> p)) /\
    Forall (Forall (fun v => (-1 <= v)%Q /\ (v <= 1)%Q))
      ((fun row : list Q => (fun v => ((v - (1 # 2)) / (1 # 2))%Q) <$> row)
         <$> ((fun row : list (list Z) =>
                 (fun px : list Z => (default 0%Z (px !! k) # 255)%Q) <$> row)
                <$> p))).
  { intros k. split.
    - split; [by rewrite !length_fmap |].
      apply Forall_fmap, Forall_fmap. eapply Forall_impl; [exact Hrows |].
      intros row [Hrow _]. cbn. by rewrite !length_fmap.
    - apply Forall_fmap, Forall_fmap. eapply Forall_impl; [exact Hrows |].
      intros row [_ Hpx]. cbn. apply Forall_fmap, Forall_fmap.
      eapply Forall_impl; [exact Hpx |].
      intros px [_ Hvals]. cbn. apply normalized_value.
      destruct (px !! k) as [v|] eqn:Hv; cbn; [| lia].
      by eapply (Forall_lookup_1 _ _ _ _ Hvals). }
  split.
  - split; [done |]. repeat constructor; apply Hchannel.
  - repeat constructor; apply Hchannel.
Qed.

(** X19. The transform of [load_data]. A picture of three channels with
    values from 0 to 255, of any size, becomes a tensor of 3 by height
    by width (channels first) whose entries all lie between -1 and 1. A
    picture with another number of channels is refused by [Normalize],
    whose mean and standard deviation name three channels. *)
Theorem transform_range (h w c : nat) (p : Picture) :
  picture_dims h w c p -> 0 < h -> 0 < w ->
  (c = 3 ->
   exists x,
     transform p = Some x /\ vol_dims 3 h w x /\
     Forall (Forall (Forall (fun v => (-1 <= v)%Q /\ (v <= 1)%Q))) x) /\
  (c <> 3 -> transform p = None).
Proof.
  intros Hp Hh Hw. split.
  - intros ->. by apply transform_rgb.
  - intros Hc.
    pose proof (ToTensor_dims h w c p Hp Hh Hw) as [Hlen _].
    unfold transform, Normalize, broadcast. rewrite Hlen. cbn -[ToTensor].
    destruct c as [|[|[|[|c]]]]; done.
Qed.

(** X20. From the pictures of CIFAR-10 to the scores. Pictures of 32 by
    32 pixels and three channels, transformed as [load_data] does and
    batched, are what [Net.forward] expects: every picture is accepted
    by the transform, and the network returns one row of 10 scores per
    picture, in the order of the pictures. *)
Theorem pictures_to_scores (init : Init) (l1 l2 : Z) (net : Net)
    (ps : list Picture) :
  Net_init init l1 l2 = Some net -> ps ≠ [] ->
  Forall (picture_dims 32 32 3) ps ->
  exists xs out,
    mapM transform ps = Some xs /\
    Net_forward net xs = Some out /\
    length out = length ps /\
    Forall (fun r => length r = 10) out.
Proof.
  intros Hnet Hne Hps.
  assert (Hxs : exists xs, mapM transform ps = Some xs /\
                           Forall (vol_dims 3 32 32) xs).
  { clear Hne. induction Hps as [|p ps Hp _ (xs & Hrun & Hdims)].
    - by exists [].
    - destruct (transform_rgb 32 32 p Hp) as (x & Hx & Hd & _); [lia | lia |].
      exists (x :: xs). cbn. rewrite Hx. cbn. rewrite Hrun. cbn.
      split; [done | by constructor]. }
  destruct Hxs as (xs & Hrun & Hdims).
  pose proof (length_mapM _ _ _ Hrun) as Hlen.
  destruct (Net_forward_32 init l1 l2 net xs Hnet) as [Hfwd Hout];
    [by destruct xs, ps | done |].
  exists xs, (Net_row net <$> xs).
  split; [done |]. split; [done |]. split; [| done].
  by rewrite length_fmap.
Qed.

End TransformTheorems.

(** * The properties at work in the concrete world *)

Module Examples.
Import Toy ToyLaws Analysis.

Definition cfg : Configuration :=
  {| l1 := 4; l2 := 8; lr := 1 # 10; batch_size := 2 |}.

Definition toy_trainset : @Dataset torch :=
  @Stored torch (toy_cifar10 true) true.

Definition toy_trainloader : @DataLoader torch :=
  @Build_DataLoader torch (@Stored torch (toy_cifar10 true) true) 2 true.

Definition toy_valloader : @DataLoader torch :=
  @Build_DataLoader torch (@Stored torch (toy_cifar10 false) false) 2 true.


Definition trial_a : Trial :=
  {| trial_id := 0; trial_config := cfg;
     last_result := {| loss := 1 # 2; accuracy := 6 # 10 |};
     checkpoint_dir := "/trial_a/checkpoint_9" |}.

Definition trial_b : Trial :=
  {| trial_id := 1; trial_config := cfg;
     last_result := {| loss := 3 # 10; accuracy := 7 # 10 |};
     checkpoint_dir := "/trial_b/checkpoint_9" |}.

(** A run of the sampler. *)
Example three_configurations :
  (@generate_variants numpy (@config numpy) 3 5).1
  = Some [{| l1 := 4; l2 := 4; lr := 23077 # 1000000; batch_size := 4 |};
          {| l1 := 128; l2 := 8; lr := 499001 # 5000000; batch_size := 4 |};
          {| l1 := 32; l2 := 128; lr := 21019 # 400000; batch_size := 4 |}].
Proof. vm_compute. reflexivity. Qed.


(** With [max_num_epochs = 1] the same scheduler stops the trial at its
    first report. *)
Example stopped_at_max_t :
  let r := @run_trial numpy torch tune 1 cfg "/data" (initial 1 2) in
  r.1 = Stopped /\ @report_count numpy torch r.2 = 1%nat.
Proof. vm_compute. by split. Qed.

(** C3 fails as stated: the same dataset split from two generator states
    gives two different partitions. *)
Lemma split_differs_between_generator_states :
  (@split_train_val numpy torch toy_trainset (initial 1 2)).1
  ≠ (@split_train_val numpy torch toy_trainset (initial 1 3)).1.
Proof.
  intros Heq.
  apply (f_equal (fun r => match r with
                           | Ok (Subset _ indices, _) => indices
                           | _ => []
                           end)) in Heq.
  vm_compute in Heq. discriminate Heq.
Qed.


(** The theorems with hypotheses, applied in the concrete world. *)

Lemma sampler_reproducible_witness :
  np_rng (initial 7 1) = np_rng (initial 7 2) /\
  (@sample_configurations numpy torch 3 (initial 7 1)).1
  = (@sample_configurations numpy torch 3 (initial 7 2)).1 /\
  np_rng (@sample_configurations numpy torch 3 (initial 7 1)).2
  = np_rng (@sample_configurations numpy torch 3 (initial 7 2)).2.
Proof.
  split; [reflexivity |].
  apply (@sampler_reproducible numpy torch 3 (initial 7 1) (initial 7 2)).
  reflexivity.
Defined.

Lemma get_best_trial_min_loss_witness :
  (last_loss trial_a == 1 # 2)%Q /\ (last_loss trial_b == 3 # 10)%Q /\
  get_best_trial [trial_a; trial_b] Loss Min = Some trial_b /\
  get_best_trial [trial_b; trial_a] Loss Min = Some trial_b.
Proof.
  split; [reflexivity |]. split; [reflexivity |].
  apply (proj2 get_best_trial_min_loss trial_a trial_b); reflexivity.
Defined.

Lemma resume_without_checkpoint_fails_witness :
  truthy (Some "/nowhere"%string) = true /\
  fs (initial 1 2) !! os_path_join "/nowhere" "checkpoint" = None /\
  (@train_cifar numpy torch tune cfg (Some "/nowhere"%string) "/data"
     (initial 1 2)).1 = Raise FileNotFoundError /\
  trace (@train_cifar numpy torch tune cfg (Some "/nowhere"%string) "/data"
           (initial 1 2)).2 = [].
Proof.
  split; [reflexivity |]. split; [apply lookup_empty |].
  pose proof (@resume_without_checkpoint_fails numpy torch tune cfg
                "/nowhere" "/data" (initial 1 2) eq_refl
                (or_introl (lookup_empty _))) as (Hmissing & _ & Htrace & _).
  split; [apply Hmissing, lookup_empty | exact Htrace].
Defined.

Lemma split_train_val_sizes_witness :
  Z.of_nat (ds_len toy_trainset) < 2 ^ 50 /\
  exists train_indices val_indices,
    (@split_train_val numpy torch toy_trainset (initial 1 2)).1
      = Ok (Subset toy_trainset train_indices,
            Subset toy_trainset val_indices) /\
    Z.of_nat (length train_indices) = 8 /\
    Z.of_nat (length val_indices) = 2 /\
    train_indices ++ val_indices ≡ₚ seq 0 10.
Proof.
  split; [vm_compute; reflexivity |].
  destruct (@split_train_val_sizes numpy torch toy_trainset (initial 1 2))
    as (train_indices & val_indices & Hrun & Htrain & Hval & _ & Hperm);
    [vm_compute; reflexivity |].
  exists train_indices, val_indices. auto.
Defined.

Lemma validation_metrics_witness :
  ds_valid (dl_dataset toy_trainloader) /\
  ds_valid (dl_dataset toy_valloader) /\
  0 < dl_batch_size toy_valloader /\
  (0 < ds_len (dl_dataset toy_valloader))%nat /\
  grad_enabled (initial 1 2) = true /\
  let r := @train_epoch numpy torch tune toy_trainloader toy_valloader tt 0
             (initial 1 2) in
  let w := weights (net r.2) in
  exists (val_batches : list (list (@Sample torch))) (m : Metrics),
    concat val_batches ≡ₚ toy_cifar10 false /\
    val_batches ≠ [] /\
    @tune_trace numpy torch r.2
    = [@checkpoint_event tune 0; Reported 1 m] /\
    loss m = (@sum_losses torch w val_batches / inject_Z (len val_batches))%Q /\
    accuracy m
    = (inject_Z (@correct_count torch w (toy_cifar10 false)) / inject_Z 5)%Q /\
    (0 <= accuracy m)%Q /\ (accuracy m <= 1)%Q.
Proof.
  split; [exact I |]. split; [exact I |]. split; [reflexivity |].
  split; [cbn; lia |]. split; [reflexivity |].
  destruct (@validation_metrics numpy torch tune toy_trainloader
              toy_valloader 0 (initial 1 2) I I eq_refl
              ltac:(cbn; lia) eq_refl)
    as (_ & val_batches & m & Hconcat & Hne & Htrace & Hloss & Hacc & Hbounds).
  exists val_batches, m.
  unfold toy_valloader in Hconcat, Hacc. cbn [dl_dataset] in Hconcat, Hacc.
  rewrite (@ds_items_stored torch (toy_cifar10 false) false) in Hconcat, Hacc.
  repeat split; [exact Hconcat | exact Hne | exact Htrace | exact Hloss
                | exact Hacc | apply Hbounds | apply Hbounds].
Defined.



Lemma test_accuracy_reads_only_witness :
  toy_cifar10 false ≠ [] /\
  (@test_accuracy numpy torch (initial 1 2)).2 = initial 1 2 /\
  (@test_accuracy numpy torch (initial 1 2)).1
  = Ok (inject_Z (@correct_count torch 0%Q (toy_cifar10 false))
        / inject_Z 5)%Q.
Proof.
  split; [discriminate |].
  destruct (@test_accuracy_reads_only numpy torch (initial 1 2))
    as (Hstate & _ & Hvalue).
  split; [exact Hstate |].
  destruct (Hvalue ltac:(discriminate)) as (Hr & _). exact Hr.
Defined.

(** A state that holds a checkpoint of a module of the layer sizes of
    [cfg], and one that holds a checkpoint of another architecture. *)
Definition saved_model : @StateDict torch :=
  @Build_StateDict torch [4; 8] (3 # 1)%Q.

Definition saved_optimizer : @Optimizer torch :=
  @Build_Optimizer torch (1 # 100) (1 # 2) (1 # 4)%Q.

Definition with_checkpoint : @State numpy torch :=
  @set_fs numpy torch <["/run/checkpoint"%string
                        := @Pickled torch saved_model saved_optimizer]>
    (initial 1 2).

Definition other_model : @StateDict torch :=
  @Build_StateDict torch [16; 16] (3 # 1)%Q.

Definition with_other_checkpoint : @State numpy torch :=
  @set_fs numpy torch <["/run/checkpoint"%string
                        := @Pickled torch other_model saved_optimizer]>
    (initial 1 2).





Lemma resume_restores_checkpoint_witness :
  truthy (Some "/run"%string) = true /\
  fs with_checkpoint !! os_path_join "/run" "checkpoint"
    = Some (@Pickled torch saved_model saved_optimizer) /\
  sd_shape saved_model = [l1 cfg; l2 cfg] /\
  let r := @train_cifar numpy torch tune cfg (Some "/run"%string) "/data"
             with_checkpoint in
  opt_lr (optimizer r.2) = (1 # 100)%Q /\
  opt_momentum (optimizer r.2) = (1 # 2)%Q.
Proof.
  split; [reflexivity |].
  split; [apply lookup_insert_eq |]. split; [reflexivity |].
  exact (proj2 (@resume_restores_checkpoint numpy torch tune cfg "/run" "/data"
                  saved_model saved_optimizer with_checkpoint eq_refl
                  (lookup_insert_eq _ _ _) eq_refl)).
Defined.

Definition trained_state : @State numpy torch :=
  @set_net numpy torch
    (fun _ => @Build_Module torch [4; 8] (5 # 2)%Q None true) (initial 1 2).

Lemma checkpoint_resume_round_trip_witness :
  truthy (Some (@trial_checkpoint_dir tune 3)) = true /\
  shape (net trained_state) = [l1 cfg; l2 cfg] /\
  exists s',
    @train_cifar numpy torch tune cfg (Some (@trial_checkpoint_dir tune 3))
      "/data" (@save_checkpoint numpy torch tune 3 trained_state).2
    = @trial_body numpy torch tune cfg "/data" s' /\
    weights (net s') = (5 # 2)%Q /\
    optimizer s' = optimizer trained_state.
Proof.
  split; [reflexivity |]. split; [reflexivity |].
  exact (@checkpoint_resume_round_trip numpy torch tune cfg 3 "/data"
           trained_state eq_refl eq_refl).
Defined.

Lemma resume_wrong_architecture_witness :
  truthy (Some "/run"%string) = true /\
  fs with_other_checkpoint !! os_path_join "/run" "checkpoint"
    = Some (@Pickled torch other_model saved_optimizer) /\
  sd_shape other_model ≠ [l1 cfg; l2 cfg] /\
  let r := @train_cifar numpy torch tune cfg (Some "/run"%string) "/data"
             with_other_checkpoint in
  r.1 = Raise RuntimeError /\ trace r.2 = [] /\ fs r.2 = fs with_other_checkpoint.
Proof.
  split; [reflexivity |].
  split; [apply lookup_insert_eq |]. split; [discriminate |].
  exact (@resume_wrong_architecture numpy torch tune cfg "/run" "/data"
           other_model saved_optimizer with_other_checkpoint eq_refl
           (lookup_insert_eq _ _ _) ltac:(discriminate)).
Defined.


Lemma epoch_is_one_sgd_pass_witness :
  ds_valid (dl_dataset toy_trainloader) /\
  ds_valid (dl_dataset toy_valloader) /\
  0 < dl_batch_size toy_trainloader /\ 0 < dl_batch_size toy_valloader /\
  (0 < ds_len (dl_dataset toy_valloader))%nat /\
  grad_enabled (initial 1 2) = true /\
  let r := @train_epoch numpy torch tune toy_trainloader toy_valloader tt 0
             (initial 1 2) in
  let bs := @pass_batches numpy torch toy_trainloader (initial 1 2) in
  len bs = 5 /\
  @step_count numpy torch r.2 = length bs /\
  @wb numpy torch r.2
  = fold_left (@sgd_on_batch torch 0 0) bs (@wb numpy torch (initial 1 2)).
Proof.
  split; [exact I |]. split; [exact I |]. split; [reflexivity |].
  split; [reflexivity |]. split; [cbn; lia |]. split; [reflexivity |].
  destruct (@epoch_is_one_sgd_pass numpy torch tune toy_trainloader
              toy_valloader 0 (initial 1 2) I I eq_refl eq_refl
              ltac:(cbn; lia) eq_refl)
    as (_ & _ & Hlen & Hcount & Hwb & _).
  cbv zeta. split; [exact Hlen |]. split; [exact Hcount | exact Hwb].
Defined.

Lemma running_loss_lines_witness :
  ds_valid (dl_dataset toy_trainloader) /\
  ds_valid (dl_dataset toy_valloader) /\
  0 < dl_batch_size toy_valloader /\
  (0 < ds_len (dl_dataset toy_valloader))%nat /\
  grad_enabled (initial 1 2) = true /\
  let r := @train_epoch numpy torch tune toy_trainloader toy_valloader tt 0
             (initial 1 2) in
  @printed_lines numpy torch r.2
  = (fun k : nat =>
       RunningLoss 1 (2000 * (Z.of_nat k + 1))
         (fold_left Qplus
            (take 2000
               (drop (2000 * k)
                  (@step_losses torch 0 0 (@wb numpy torch (initial 1 2))
                     (@pass_batches numpy torch toy_trainloader (initial 1 2)))))
            0
          / inject_Z (2000 * (Z.of_nat k + 1)))%Q)
    <$> seq 0 (length (@pass_batches numpy torch toy_trainloader (initial 1 2))
               / 2000).
Proof.
  split; [exact I |]. split; [exact I |]. split; [reflexivity |].
  split; [cbn; lia |]. split; [reflexivity |].
  exact (@running_loss_lines numpy torch tune toy_trainloader toy_valloader 0
           (initial 1 2) I I eq_refl ltac:(cbn; lia) eq_refl).
Defined.

Lemma checkpoint_holds_reported_model_witness :
  ds_valid (dl_dataset toy_trainloader) /\
  ds_valid (dl_dataset toy_valloader) /\
  0 < dl_batch_size toy_valloader /\
  (0 < ds_len (dl_dataset toy_valloader))%nat /\
  grad_enabled (initial 1 2) = true /\
  let r := @train_epoch numpy torch tune toy_trainloader toy_valloader tt 0
             (initial 1 2) in
  fs r.2 !! os_path_join (@trial_checkpoint_dir tune 0) "checkpoint"
  = Some (@Pickled torch
            (@Build_StateDict torch (shape (net r.2)) (weights (net r.2)))
            (optimizer r.2)).
Proof.
  split; [exact I |]. split; [exact I |]. split; [reflexivity |].
  split; [cbn; lia |]. split; [reflexivity |].
  exact (@checkpoint_holds_reported_model numpy torch tune toy_trainloader
           toy_valloader 0 (initial 1 2) I I eq_refl ltac:(cbn; lia) eq_refl).
Defined.

Lemma toy_data_size : 2 <= len (toy_cifar10 true) < 2 ^ 50.
Proof. vm_compute. split; [discriminate | reflexivity]. Qed.

Lemma trial_step_count_witness :
  grad_enabled (initial 1 2) = true /\
  0 < batch_size cfg /\
  2 <= len (toy_cifar10 true) < 2 ^ 50 /\
  let r := @train_cifar numpy torch tune cfg None "/data" (initial 1 2) in
  exists n : nat,
    (1 <= n <= 10)%nat /\
    @report_count numpy torch r.2 = n /\
    Z.of_nat (@step_count numpy torch r.2) = Z.of_nat n * 4.
Proof.
  split; [reflexivity |]. split; [reflexivity |].
  split; [exact toy_data_size |].
  destruct (@trial_step_count numpy torch tune cfg "/data" (initial 1 2)
              eq_refl eq_refl toy_data_size)
    as (n & Hn & _ & Hrep & Hsteps).
  exists n. split; [exact Hn |]. split; [exact Hrep | exact Hsteps].
Defined.

Lemma final_checkpoint_is_final_model_witness :
  grad_enabled (initial 1 2) = true /\
  0 < batch_size cfg /\
  2 <= len (toy_cifar10 true) < 2 ^ 50 /\
  let r := @train_cifar numpy torch tune cfg None "/data" (initial 1 2) in
  exists epoch : Z,
    0 <= epoch < 10 /\
    fs r.2 !! os_path_join (@trial_checkpoint_dir tune epoch) "checkpoint"
    = Some (@Pickled torch
              (@Build_StateDict torch (shape (net r.2)) (weights (net r.2)))
              (optimizer r.2)).
Proof.
  split; [reflexivity |]. split; [reflexivity |].
  split; [exact toy_data_size |].
  destruct (@final_checkpoint_is_final_model numpy torch tune cfg "/data"
              (initial 1 2) eq_refl eq_refl toy_data_size)
    as (epoch & Hepoch & _ & _ & Hfile).
  exists epoch. split; [exact Hepoch | exact Hfile].
Defined.

Lemma check_both_sets_witness :
  toy_cifar10 true ≠ [] /\ toy_cifar10 false ≠ [] /\ 0 < 64 /\ 0 < 64 /\
  let r := @check_both numpy torch
             (@Build_DataLoader torch (@Stored torch (toy_cifar10 true) true)
                64 true)
             (@Build_DataLoader torch (@Stored torch (toy_cifar10 false) false)
                64 true)
             (initial 1 2) in
  r.1 = Ok tt /\ training (net r.2) = true /\
  weights (net r.2) = weights (net (initial 1 2)) /\
  length (trace r.2) = 4%nat.
Proof.
  split; [discriminate |]. split; [discriminate |].
  split; [reflexivity |]. split; [reflexivity |].
  destruct (@check_both_sets numpy torch (toy_cifar10 true) (toy_cifar10 false)
              64 64 true true (initial 1 2) ltac:(discriminate)
              ltac:(discriminate) eq_refl eq_refl)
    as (Hr & Ht & Hw & Htr).
  split; [exact Hr |]. split; [exact Ht |]. split; [exact Hw |].
  rewrite Htr. reflexivity.
Defined.



(** The second line of an epoch is not a mean: when every batch has the
    loss 1, the line after batch 4000 shows 1/2. *)
Example second_line_is_not_a_mean :
  running_loss_line 0 (replicate 4000 1%Q) 1
  = RunningLoss 1 4000 (2000 # 4000).
Proof. vm_compute. reflexivity. Qed.

(** A toy Adam: the buffer is the running mean of the gradients, and the
    step goes against it. *)
Definition toy_adam_step (lr w : Q) (g : option Q) (b : Q) : Q * Q :=
  match g with
  | None => (w, b)
  | Some g => let m := Qred ((9 # 10) * b + (1 # 10) * g) in
              (Qred (w - lr * m), m)
  end.

Definition adam : @Adam torch :=
  @Build_Adam torch 0%Q toy_adam_step.

(** Seventy training samples, two batches of the script. *)
Definition toy_mnist (train : bool) : list (Z * Z) :=
  if train
  then (fun i : nat => (Z.of_nat (i mod 10), Z.of_nat (i mod 2))) <$> seq 0 70
  else toy_cifar10 false.

Definition mnist_data : @MNIST torch :=
  @Build_MNIST torch toy_mnist.

(** The script on the toy data. *)
Example script_on_toy_data :
  let r := @script numpy torch adam mnist_data (initial 1 2) in
  @printed_lines numpy torch r.2
  = [CheckingTraining; GotAccuracy 35 70 (3500 # 70);
     CheckingTest; GotAccuracy 2 5 (200 # 5)] /\
  @step_count numpy torch r.2 = 2%nat.
Proof. vm_compute. by split. Qed.

Lemma script_is_one_adam_pass_witness :
  grad_enabled (initial 1 2) = true /\
  toy_mnist true ≠ [] /\ toy_mnist false ≠ [] /\
  let s0 := @script_start numpy torch adam (initial 1 2) in
  let bs := @pass_batches numpy torch
              (@mnist_loader torch mnist_data true) s0 in
  let r := @script numpy torch adam mnist_data (initial 1 2) in
  concat bs ≡ₚ toy_mnist true /\
  len bs = batch_count 70 64 /\
  @step_count numpy torch r.2 = (0 + length bs)%nat /\
  @wb numpy torch r.2
  = fold_left (@adam_on_batch torch adam (1 # 1000)) bs (@wb numpy torch s0).
Proof.
  split; [reflexivity |]. split; [discriminate |]. split; [discriminate |].
  destruct (@script_is_one_adam_pass numpy torch adam mnist_data (initial 1 2)
              eq_refl ltac:(discriminate) ltac:(discriminate))
    as (_ & Hperm & _ & Hlen & Hc & Hwb).
  split; [exact Hperm |]. split; [exact Hlen |].
  split; [exact Hc | exact Hwb].
Defined.

Lemma script_reports_trained_model_witness :
  grad_enabled (initial 1 2) = true /\
  toy_mnist true ≠ [] /\ toy_mnist false ≠ [] /\
  let r := @script numpy torch adam mnist_data (initial 1 2) in
  r.1 = Ok tt /\ training (net r.2) = true /\
  exists a p b q,
    @printed_lines numpy torch r.2
    = [CheckingTraining; GotAccuracy a 70 p; CheckingTest; GotAccuracy b 5 q] /\
    0 <= a <= 70 /\ 0 <= b <= 5.
Proof.
  split; [reflexivity |]. split; [discriminate |]. split; [discriminate |].
  destruct (@script_reports_trained_model numpy torch adam mnist_data
              (initial 1 2) eq_refl ltac:(discriminate) ltac:(discriminate))
    as (Hr & Ht & _ & Hp & Ha & Hb).
  split; [exact Hr |]. split; [exact Ht |].
  eexists _, _, _, _. split; [exact Hp |]. split; [exact Ha | exact Hb].
Defined.

End Examples.

(** * The networks at work *)

Module NetExamples.
Import Nets NetShapes NetTheorems Transforms TransformTheorems.
Local Open Scope nat_scope.

Definition toy_init : Init :=
  fun name index => (Z.of_nat (length index + String.length name) # 7)%Q.

Definition toy_net : Net :=
  {| conv1 := new_Conv2d toy_init "conv1" 3 6 5;
     pool := {| pool_kernel := 2; pool_stride := 2 |};
     conv2 := new_Conv2d toy_init "conv2" 6 16 5;
     fc1 := new_Linear toy_init "fc1" 400 4;
     fc2 := new_Linear toy_init "fc2" 4 8;
     fc3 := new_Linear toy_init "fc3" 8 10 |}.

Definition toy_model : NN :=
  {| nn_fc1 := new_Linear toy_init "fc1" 784 50;
     nn_fc2 := new_Linear toy_init "fc2" 50 10 |}.

(** An image with the given number of channels, rows and columns. *)
Definition toy_image (c h w : nat) : Vol :=
  (fun k => (fun i => (fun j => (Z.of_nat (k + i * j) # 3)%Q) <$> seq 0 w)
              <$> seq 0 h) <$> seq 0 c.

Lemma toy_image_dims (c h w n : nat) :
  Forall (vol_dims c h w) (replicate n (toy_image c h w)).
Proof.
  apply Forall_replicate. split; [by unfold toy_image; rewrite length_fmap, length_seq |].
  apply Forall_fmap, Forall_forall. intros k _. apply tabulate_dims.
Qed.


Lemma Net_forward_per_sample_witness :
  Net_init toy_init 4 8 = Some toy_net /\
  replicate 3 (toy_image 3 32 32) ≠ [] /\
  Forall (vol_dims 3 32 32) (replicate 3 (toy_image 3 32 32)) /\
  exists out,
    Net_forward toy_net (replicate 3 (toy_image 3 32 32)) = Some out /\
    length out = 3 /\
    exists r, out !! 1 = Some r /\
              Net_forward toy_net [toy_image 3 32 32] = Some [r].
Proof.
  split; [reflexivity |]. split; [discriminate |].
  split; [apply toy_image_dims |].
  destruct (Net_forward_per_sample toy_init 4 8 toy_net
              (replicate 3 (toy_image 3 32 32)) eq_refl ltac:(discriminate)
              (toy_image_dims 3 32 32 3))
    as (out & Hrun & Hlen & _ & Hrow).
  exists out. split; [exact Hrun |]. split; [exact Hlen |].
  apply (Hrow 1 (toy_image 3 32 32)). reflexivity.
Defined.

Lemma NN_scores_rows_witness :
  NN_init toy_init 784 10 = Some toy_model /\
  replicate 2 (toy_image 1 28 28) ≠ [] /\
  Forall (vol_dims 1 28 28) (replicate 2 (toy_image 1 28 28)) /\
  0 < 1 * 28 * 28 /\ Z.of_nat (1 * 28 * 28) = 784%Z /\
  (exists out,
     NN_scores toy_model (replicate 2 (toy_image 1 28 28)) = Some out /\
     length out = 2) /\
  Z.of_nat (3 * 32 * 32) <> 784%Z /\
  NN_scores toy_model [toy_image 3 32 32] = None.
Proof.
  split; [reflexivity |]. split; [discriminate |].
  split; [apply toy_image_dims |]. split; [lia |]. split; [reflexivity |].
  split.
  - destruct (NN_scores_rows toy_init 784 10 toy_model 1 28 28
                (replicate 2 (toy_image 1 28 28)) eq_refl ltac:(discriminate)
                (toy_image_dims 1 28 28 2) ltac:(lia))
      as [Hok _].
    destruct (Hok eq_refl) as (out & Hrun & Hlen & _).
    exists out. by split.
  - split; [lia |].
    destruct (NN_scores_rows toy_init 784 10 toy_model 3 32 32
                [toy_image 3 32 32] eq_refl ltac:(discriminate)
                (toy_image_dims 3 32 32 1) ltac:(lia))
      as [_ Hbad].
    apply Hbad. lia.
Defined.

Definition toy_picture (h w c : nat) : list (list (list Z)) :=
  (fun i => (fun j => (fun k => Z.of_nat ((17 * i + 5 * j + 101 * k) `mod` 256))
                        <$> seq 0 c) <$> seq 0 w) <$> seq 0 h.

Lemma toy_picture_dims (h w c : nat) : picture_dims h w c (toy_picture h w c).
Proof.
  split; [by unfold toy_picture; rewrite length_fmap, length_seq |].
  apply Forall_fmap, Forall_forall. intros i _. cbn.
  split; [by rewrite length_fmap, length_seq |].
  apply Forall_fmap, Forall_forall. intros j _. cbn.
  split; [by rewrite length_fmap, length_seq |].
  apply Forall_fmap, Forall_forall. intros k _. cbn.
  pose proof (Nat.mod_upper_bound (17 * i + 5 * j + 101 * k) 256). lia.
Qed.

Lemma transform_range_witness :
  picture_dims 4 5 3 (toy_picture 4 5 3) /\ 0 < 4 /\ 0 < 5 /\
  (exists x, transform (toy_picture 4 5 3) = Some x /\ vol_dims 3 4 5 x) /\
  picture_dims 4 5 1 (toy_picture 4 5 1) /\ 1 <> 3 /\
  transform (toy_picture 4 5 1) = None.
Proof.
  split; [apply toy_picture_dims |]. split; [lia |]. split; [lia |].
  split.
  - destruct (transform_range 4 5 3 (toy_picture 4 5 3)
                (toy_picture_dims 4 5 3) ltac:(lia) ltac:(lia)) as [Hok _].
    destruct (Hok eq_refl) as (x & Hx & Hd & _). exists x. by split.
  - split; [apply toy_picture_dims |]. split; [lia |].
    destruct (transform_range 4 5 1 (toy_picture 4 5 1)
                (toy_picture_dims 4 5 1) ltac:(lia) ltac:(lia)) as [_ Hbad].
    apply Hbad. lia.
Defined.

Lemma pictures_to_scores_witness :
  Net_init toy_init 4 8 = Some toy_net /\
  [toy_picture 32 32 3; toy_picture 32 32 3] ≠ [] /\
  Forall (picture_dims 32 32 3) [toy_picture 32 32 3; toy_picture 32 32 3] /\
  exists xs out,
    mapM transform [toy_picture 32 32 3; toy_picture 32 32 3] = Some xs /\
    Net_forward toy_net xs = Some out /\
    length out = 2.
Proof.
  split; [reflexivity |]. split; [discriminate |].
  assert (Hps : Forall (picture_dims 32 32 3)
                  [toy_picture 32 32 3; toy_picture 32 32 3])
    by (constructor; [apply toy_picture_dims |];
        constructor; [apply toy_picture_dims | constructor]).
  split; [exact Hps |].
  destruct (pictures_to_scores toy_init 4 8 toy_net
              [toy_picture 32 32 3; toy_picture 32 32 3] eq_refl
              ltac:(discriminate) Hps)
    as (xs & out & Hrun & Hfwd & Hlen & _).
  exists xs, out. by repeat split.
Defined.

End NetExamples.
